(** * ReplicatorGenerator: the generator manager and its code generator

    A shallow embedding of
    [Source/ReplicatorGenerator/Private/ReplicatorGeneratorManager.cpp] and of
    the declarations of [Public/ReplicatorCodeGenerator.h].

    Stateful code is written in a state monad over the fields of the manager
    and an in-memory model of the engine services it calls (file system,
    clock, log).  Reference parameters ([FString& Message],
    [FGeneratedManifest& Result]) are passed in and returned.

    The bodies of the functions of [FReplicatorCodeGenerator] are not part
    of the two files.  The functions of the manager that call them take them
    as parameters, and the manager is verified for any [Generate]; nothing
    is proved of the generator itself. *)

From Stdlib Require Import ZArith String Ascii List Lia DecimalString DecimalZ.
From stdpp Require Import base option gmap strings list.

Set Warnings "-register-all".
Open Scope Z_scope.

(** ** FString and FPaths *)

Abbreviation FString := string (only parsing).

Definition DoubleQuote : ascii := ascii_of_nat 34.
Definition LineFeed : ascii := ascii_of_nat 10.
Definition CarriageReturn : ascii := ascii_of_nat 13.
Definition Tab : ascii := ascii_of_nat 9.
Definition Backspace : ascii := ascii_of_nat 8.
Definition FormFeed : ascii := ascii_of_nat 12.

(** [FString::IsEmpty] *)
Definition IsEmpty (S : FString) : bool :=
  match S with EmptyString => true | String _ _ => false end.

(** [FChar::ToLower] on the letters [A] to [Z]. *)
Definition ToLower (c : ascii) : ascii :=
  let n := nat_of_ascii c in
  if (65 <=? n)%nat && (n <=? 90)%nat then ascii_of_nat (n + 32) else c.

(** [FString::operator==], which is [FPlatformString::Stricmp(...) == 0]: two
    strings are equal when they differ at most in the case of letters. *)
Fixpoint EqualsIgnoreCase (A B : FString) : bool :=
  match A, B with
  | EmptyString, EmptyString => true
  | String a A', String b B' =>
      (ToLower a =? ToLower b)%char && EqualsIgnoreCase A' B'
  | _, _ => false
  end.

(** [FString::Printf] of a [%d] / [%lld] argument. *)
Definition itoa (z : Z) : FString := NilZero.string_of_int (Z.to_int z).

Definition IsSlashOrBackslash (c : ascii) : bool :=
  (c =? "/")%char || (c =? "\")%char.

Fixpoint ContainsSlash (S : FString) : bool :=
  match S with
  | EmptyString => false
  | String c rest => IsSlashOrBackslash c || ContainsSlash rest
  end.

Fixpoint ContainsChar (c : ascii) (S : FString) : bool :=
  match S with
  | EmptyString => false
  | String d rest => (c =? d)%char || ContainsChar c rest
  end.

Fixpoint LastChar (S : FString) : option ascii :=
  match S with
  | EmptyString => None
  | String c EmptyString => Some c
  | String _ rest => LastChar rest
  end.

Fixpoint EndsWith (S Suffix : FString) : bool :=
  bool_decide (S = Suffix) ||
  match S with
  | EmptyString => false
  | String _ rest => EndsWith rest Suffix
  end.

(** [FPaths::GetPath]: everything before the last slash or backslash, the
    empty string when there is none. *)
Fixpoint GetPath (InPath : FString) : FString :=
  match InPath with
  | EmptyString => EmptyString
  | String c rest =>
      if ContainsSlash rest then String c (GetPath rest) else EmptyString
  end.

Fixpoint DropTrailingSlashes (S : FString) : FString :=
  match S with
  | EmptyString => EmptyString
  | String c rest =>
      match DropTrailingSlashes rest with
      | EmptyString =>
          if IsSlashOrBackslash c then EmptyString else String c EmptyString
      | rest' => String c rest'
      end
  end.

Fixpoint AfterLastSlash (S : FString) : FString :=
  match S with
  | EmptyString => EmptyString
  | String c rest =>
      if ContainsSlash rest then AfterLastSlash rest
      else if IsSlashOrBackslash c then rest
      else S
  end.

(** [FPaths::GetCleanFilename]: of the path without the slashes and
    backslashes it ends with, everything after the last slash or
    backslash. *)
Definition GetCleanFilename (InPath : FString) : FString :=
  AfterLastSlash (DropTrailingSlashes InPath).

Fixpoint StripExtension (Name : FString) : FString :=
  match Name with
  | EmptyString => EmptyString
  | String c rest =>
      if ContainsChar "." rest then String c (StripExtension rest)
      else if (c =? ".")%char then EmptyString
      else Name
  end.

(** [FPaths::GetBaseFilename] with its default [bRemovePath = true]. *)
Definition GetBaseFilename (InPath : FString) : FString :=
  StripExtension (GetCleanFilename InPath).

(** [operator/] on [FString] ([FString::PathAppend]): a separator is added
    unless the left side is empty or already ends with one, or the right side
    starts with a slash. *)
Definition PathAppend (A B : FString) : FString :=
  let bNoSeparator :=
    match LastChar A with
    | None => true
    | Some c => IsSlashOrBackslash c
    end in
  match B with
  | EmptyString => if bNoSeparator then A else A +:+ "/"
  | String b _ =>
      if bNoSeparator || (b =? "/")%char then A +:+ B else A +:+ "/" +:+ B
  end.

Infix "//" := PathAppend (at level 40, left associativity).

Fixpoint ReplaceBackslashes (S : FString) : FString :=
  match S with
  | EmptyString => EmptyString
  | String c rest =>
      String (if (c =? "\")%char then "/"%char else c) (ReplaceBackslashes rest)
  end.

Fixpoint DropLastChar (S : FString) : FString :=
  match S with
  | EmptyString => EmptyString
  | String _ EmptyString => EmptyString
  | String c rest => String c (DropLastChar rest)
  end.

(** [FPaths::NormalizeDirectoryName] *)
Definition NormalizeDirectoryName (InPath : FString) : FString :=
  let P := ReplaceBackslashes InPath in
  if EndsWith P "/" && negb (EndsWith P "//") && negb (EndsWith P ":/")
  then DropLastChar P else P.

(** ** FDateTime *)

(** An [FDateTime] is a number of 100 ns ticks since 0001-01-01, held in an
    [int64]. *)
Record FDateTime := { Ticks : Z }.

Definition TicksPerSecond : Z := 10000000.
Definition UnixEpochTicks : Z := 621355968000000000.
Definition MaxTicks : Z := 3155378975999999999.

Definition wrap64 (z : Z) : Z := (z + 2 ^ 63) mod 2 ^ 64 - 2 ^ 63.

(** [FDateTime::ToUnixTimestamp]: [(Ticks - FDateTime(1970,1,1).Ticks) /
    ETimespan::TicksPerSecond], an [int64] division. *)
Definition ToUnixTimestamp (T : FDateTime) : Z :=
  Z.quot (wrap64 (Ticks T - UnixEpochTicks)) TicksPerSecond.

(** [FDateTime::FromUnixTimestamp]: [FDateTime(1970,1,1) +
    FTimespan(UnixTime * ETimespan::TicksPerSecond)]. *)
Definition FromUnixTimestamp (UnixTime : Z) : FDateTime :=
  {| Ticks := wrap64 (UnixEpochTicks + wrap64 (UnixTime * TicksPerSecond)) |}.

(** The range of dates an [FDateTime] can hold (years 1 to 9999). *)
Definition ValidDateTime (T : FDateTime) : Prop := 0 <= Ticks T <= MaxTicks.

(** ** double, restricted to integral values

    The JSON reader keeps every number as a [double].  The manifest only
    stores whole numbers, so a [double] is modelled by the integer it denotes;
    [RoundToDouble] is round-to-nearest-even on 53 significant bits, and the
    conversion [double -> int64] wraps. *)
Definition RoundToDouble (z : Z) : Z :=
  let a := Z.abs z in
  let shift := Z.log2 a - 52 in
  if shift <=? 0 then z
  else
    let q := Z.shiftr a shift in
    let r := Z.land a (Z.ones shift) in
    let half := Z.shiftl 1 (shift - 1) in
    let q' := if (half <? r) || ((half =? r) && Z.odd q) then q + 1 else q in
    Z.sgn z * Z.shiftl q' shift.

Definition DoubleToInt64 (d : Z) : Z := wrap64 d.

(** ** The engine's JSON writer and reader

    A model of [TJsonWriter] with its default pretty-print policy and of
    [FJsonSerializer::Deserialize].  Characters are bytes; numbers are whole
    numbers (a literal with a fraction or an exponent is outside the model and
    is rejected), and [TryGetNumberField] / [TryGetStringField] find a member
    only when it has the requested kind. *)

Inductive EJsonToken :=
| TokenNone | TokenCurlyOpen | TokenCurlyClose | TokenIdentifier
| TokenNumber | TokenString.

Record TJsonWriter := {
  Stream : FString;
  IndentLevel : nat;
  PreviousTokenWritten : EJsonToken
}.

Definition TJsonWriterFactory_Create : TJsonWriter :=
  {| Stream := EmptyString; IndentLevel := 0; PreviousTokenWritten := TokenNone |}.

Fixpoint Tabs (n : nat) : FString :=
  match n with O => EmptyString | S n' => String Tab (Tabs n') end.

Definition HexDigit (n : nat) : ascii :=
  if (n <? 10)%nat then ascii_of_nat (48 + n) else ascii_of_nat (87 + n).

Definition EscapeJsonChar (c : ascii) : FString :=
  if (c =? "\")%char then "\\"
  else if (c =? LineFeed)%char then "\n"
  else if (c =? Tab)%char then "\t"
  else if (c =? Backspace)%char then "\b"
  else if (c =? FormFeed)%char then "\f"
  else if (c =? CarriageReturn)%char then "\r"
  else if (c =? DoubleQuote)%char then String "\" (String DoubleQuote EmptyString)
  else if (32 <=? nat_of_ascii c)%nat then String c EmptyString
  else "\u00" +:+ String (HexDigit (nat_of_ascii c / 16))
                     (String (HexDigit (nat_of_ascii c mod 16)) EmptyString).

Fixpoint EscapeJsonString (S : FString) : FString :=
  match S with
  | EmptyString => EmptyString
  | String c rest => EscapeJsonChar c +:+ EscapeJsonString rest
  end.

Definition QuotedJsonString (S : FString) : FString :=
  String DoubleQuote (EscapeJsonString S +:+ String DoubleQuote EmptyString).

Definition WriteCommaIfNeeded (W : TJsonWriter) : FString :=
  match PreviousTokenWritten W with
  | TokenCurlyOpen | TokenIdentifier => Stream W
  | _ => Stream W +:+ ","
  end.

Definition WriteObjectStart (W : TJsonWriter) : TJsonWriter :=
  let Out :=
    match PreviousTokenWritten W with
    | TokenNone => Stream W
    | _ => WriteCommaIfNeeded W +:+ String LineFeed (Tabs (IndentLevel W))
    end in
  {| Stream := Out +:+ "{";
     IndentLevel := S (IndentLevel W);
     PreviousTokenWritten := TokenCurlyOpen |}.

Definition WriteIdentifier (Identifier : FString) (W : TJsonWriter) : FString :=
  WriteCommaIfNeeded W +:+ String LineFeed (Tabs (IndentLevel W))
    +:+ QuotedJsonString Identifier +:+ ":".

(** [WriteValue(Identifier, int64)] *)
Definition WriteValue_int64 (Identifier : FString) (Value : Z) (W : TJsonWriter)
  : TJsonWriter :=
  {| Stream := WriteIdentifier Identifier W +:+ " " +:+ itoa Value;
     IndentLevel := IndentLevel W;
     PreviousTokenWritten := TokenNumber |}.

(** [WriteValue(Identifier, FString)] *)
Definition WriteValue_FString (Identifier Value : FString) (W : TJsonWriter)
  : TJsonWriter :=
  {| Stream := WriteIdentifier Identifier W +:+ " " +:+ QuotedJsonString Value;
     IndentLevel := IndentLevel W;
     PreviousTokenWritten := TokenString |}.

Definition WriteObjectEnd (W : TJsonWriter) : TJsonWriter :=
  {| Stream := Stream W +:+ String LineFeed (Tabs (Nat.pred (IndentLevel W))) +:+ "}";
     IndentLevel := Nat.pred (IndentLevel W);
     PreviousTokenWritten := TokenCurlyClose |}.

Inductive FJsonValue :=
| JsonNull
| JsonBoolean (b : bool)
| JsonNumber (d : Z)
| JsonString (s : FString)
| JsonArray (a : list FJsonValue)
| JsonObject (o : list (FString * FJsonValue)).

Definition IsJsonWhitespace (c : ascii) : bool :=
  (c =? " ")%char || (c =? Tab)%char || (c =? LineFeed)%char
  || (c =? CarriageReturn)%char.

Fixpoint SkipWhitespace (S : FString) : FString :=
  match S with
  | String c rest => if IsJsonWhitespace c then SkipWhitespace rest else S
  | EmptyString => EmptyString
  end.

Definition IsDigit (c : ascii) : bool :=
  (48 <=? nat_of_ascii c)%nat && (nat_of_ascii c <=? 57)%nat.

Definition HexValue (c : ascii) : option nat :=
  let n := nat_of_ascii c in
  if IsDigit c then Some (n - 48)%nat
  else if (97 <=? n)%nat && (n <=? 102)%nat then Some (n - 87)%nat
  else if (65 <=? n)%nat && (n <=? 70)%nat then Some (n - 55)%nat
  else None.

(** The code unit of the escape [\uXXXX], when it fits a byte. *)
Definition ParseUnicodeEscape (h1 h2 h3 h4 : ascii) : option ascii :=
  a ← HexValue h1; b ← HexValue h2; c ← HexValue h3; d ← HexValue h4;
  if ((a =? 0) && (b =? 0))%nat then Some (ascii_of_nat (c * 16 + d)) else None.

(** The rest of a string token, after its opening quote: the unescaped text
    and what follows the closing quote. *)
Fixpoint ParseStringToken (S : FString) : option (FString * FString) :=
  match S with
  | EmptyString => None
  | String c rest =>
      if (c =? DoubleQuote)%char then Some (EmptyString, rest)
      else if (c =? "\")%char then
        match rest with
        | String e rest' =>
            let Continue (x : ascii) :=
              '(text, after) ← ParseStringToken rest'; Some (String x text, after) in
            if (e =? DoubleQuote)%char then Continue DoubleQuote
            else if (e =? "\")%char then Continue "\"%char
            else if (e =? "/")%char then Continue "/"%char
            else if (e =? "b")%char then Continue Backspace
            else if (e =? "f")%char then Continue FormFeed
            else if (e =? "n")%char then Continue LineFeed
            else if (e =? "r")%char then Continue CarriageReturn
            else if (e =? "t")%char then Continue Tab
            else if (e =? "u")%char then
              match rest' with
              | String h1 (String h2 (String h3 (String h4 rest''))) =>
                  x ← ParseUnicodeEscape h1 h2 h3 h4;
                  '(text, after) ← ParseStringToken rest'';
                  Some (String x text, after)
              | _ => None
              end
            else None
        | EmptyString => None
        end
      else
        '(text, after) ← ParseStringToken rest; Some (String c text, after)
  end.

Fixpoint TakeDigits (S : FString) : FString * FString :=
  match S with
  | String c rest =>
      if IsDigit c then let '(ds, after) := TakeDigits rest in (String c ds, after)
      else (EmptyString, S)
  | EmptyString => (EmptyString, EmptyString)
  end.

(** A number token: an optional minus sign and a run of digits, read as a
    [double]. *)
Definition ParseNumberToken (S : FString) : option (Z * FString) :=
  let '(token, after) :=
    match S with
    | String c rest =>
        if (c =? "-")%char
        then let '(ds, after) := TakeDigits rest in (String c ds, after)
        else TakeDigits S
    | EmptyString => (EmptyString, EmptyString)
    end in
  d ← NilZero.int_of_string token;
  Some (RoundToDouble (Z.of_int d), after).

Fixpoint StripPrefix (Prefix S : FString) : option FString :=
  match Prefix, S with
  | EmptyString, _ => Some S
  | String p Prefix', String c S' =>
      if (p =? c)%char then StripPrefix Prefix' S' else None
  | String _ _, EmptyString => None
  end.

(** The text after the next token when that token is the character [c]. *)
Definition NextTokenIs (c : ascii) (S : FString) : option FString :=
  match SkipWhitespace S with
  | String d after => if (c =? d)%char then Some after else None
  | EmptyString => None
  end.

(** Recursive descent over values, members of an object (after the opening
    brace or a comma) and elements of an array; [fuel] bounds the nesting and
    the number of members, and the length of the text is always enough. *)
Fixpoint ParseValue (fuel : nat) (S : FString) : option (FJsonValue * FString) :=
  match fuel with
  | O => None
  | S fuel' =>
      match SkipWhitespace S with
      | String c rest as S' =>
          if (c =? "{")%char then
            match NextTokenIs "}" rest with
            | Some after => Some (JsonObject [], after)
            | None =>
                '(o, after) ← ParseMembers fuel' rest; Some (JsonObject o, after)
            end
          else if (c =? "[")%char then
            match NextTokenIs "]" rest with
            | Some after => Some (JsonArray [], after)
            | None =>
                '(a, after) ← ParseElements fuel' rest; Some (JsonArray a, after)
            end
          else if (c =? DoubleQuote)%char then
            '(s, after) ← ParseStringToken rest; Some (JsonString s, after)
          else if (c =? "-")%char || IsDigit c then
            '(d, after) ← ParseNumberToken S'; Some (JsonNumber d, after)
          else
            match StripPrefix "true" S', StripPrefix "false" S',
                  StripPrefix "null" S' with
            | Some after, _, _ => Some (JsonBoolean true, after)
            | _, Some after, _ => Some (JsonBoolean false, after)
            | _, _, Some after => Some (JsonNull, after)
            | _, _, _ => None
            end
      | EmptyString => None
      end
  end
with ParseMembers (fuel : nat) (S : FString)
  : option (list (FString * FJsonValue) * FString) :=
  match fuel with
  | O => None
  | S fuel' =>
      after ← NextTokenIs DoubleQuote S;
      '(Identifier, after) ← ParseStringToken after;
      after ← NextTokenIs ":" after;
      '(v, after) ← ParseValue fuel' after;
      match NextTokenIs "," after, NextTokenIs "}" after with
      | Some more, _ =>
          '(o, final) ← ParseMembers fuel' more;
          Some ((Identifier, v) :: o, final)
      | None, Some final => Some ([(Identifier, v)], final)
      | None, None => None
      end
  end
with ParseElements (fuel : nat) (S : FString)
  : option (list FJsonValue * FString) :=
  match fuel with
  | O => None
  | S fuel' =>
      '(v, after) ← ParseValue fuel' S;
      match NextTokenIs "," after, NextTokenIs "]" after with
      | Some more, _ =>
          '(a, final) ← ParseElements fuel' more; Some (v :: a, final)
      | None, Some final => Some ([v], final)
      | None, None => None
      end
  end.

(** [FJsonObject]: the members of the root object by name; a later member
    replaces an earlier one of the same name. *)
Abbreviation FJsonObject := (gmap string FJsonValue) (only parsing).

Definition MakeJsonObject (o : list (FString * FJsonValue)) : FJsonObject :=
  foldl (λ Values kv, <[kv.1 := kv.2]> Values) ∅ o.

(** [FJsonSerializer::Deserialize(Reader, RootObject)]: [None] when the text
    is not one JSON object. *)
Definition Deserialize (Json : FString) : option FJsonObject :=
  '(v, after) ← ParseValue (S (String.length Json)) Json;
  match v, SkipWhitespace after with
  | JsonObject o, EmptyString => Some (MakeJsonObject o)
  | _, _ => None
  end.

Definition TryGetNumberField (FieldName : FString) (Object : FJsonObject)
  : option Z :=
  match Object !! FieldName with
  | Some (JsonNumber d) => Some d
  | _ => None
  end.

Definition TryGetStringField (FieldName : FString) (Object : FJsonObject)
  : option FString :=
  match Object !! FieldName with
  | Some (JsonString s) => Some s
  | _ => None
  end.

(** ** Reflection data and the structures of ReplicatorCodeGenerator.h *)

(** What the code reads of a [UClass]: [GetName], [GetPrefixCPP],
    [GetPathName] and the path name of its package.  Two [const UClass*] are
    the same pointer when they are the same object, and an object is
    identified by its path name. *)
Record UClass := {
  Name : FString;
  PrefixCPP : FString;
  PathName : FString;
  PackagePathName : FString
}.

#[global] Instance UClass_eq_dec : EqDecision UClass.
Proof. solve_decision. Defined.

(** Modelled from the spec: [FModuleInfo] is declared outside the two source
    files; of a module the specification only uses its name. *)
Record FModuleInfo := { ModuleName : FString }.

Record FCPPClassInfo := {
  HeadFilePath : FString;
  ModuleInfo : FModuleInfo
}.

(** Modelled from the spec: [FReplicatedActorDecorator] is declared in
    ReplicatedActorDecorator.h, which is not among the source files.  The
    specification's ActorDescriptor wraps one class, its generated identifier
    and the resolved header path. *)
Record FReplicatedActorDecorator := {
  Target : UClass;
  ActorName : FString;
  DeclaringHeadFilePath : FString
}.

Definition GetOriginActorName (D : FReplicatedActorDecorator) : FString :=
  Name (Target D).
Definition GetPackagePathName (D : FReplicatedActorDecorator) : FString :=
  PackagePathName (Target D).

Record FReplicatorCode := {
  ActorDecorator : FReplicatedActorDecorator;
  HeadFileName : FString;
  HeadCode : FString;
  CppFileName : FString;
  CppCode : FString;
  ProtoFileName : FString;
  ProtoDefinitionsFile : FString;
  IncludeActorCode : FString;
  RegisterReplicatorCode : FString;
  ChannelDataProcessor_PathFNameVarDecl : FString;
  ChannelDataProcessor_MergeCode : FString;
  ChannelDataProcessor_GetStateCode : FString;
  ChannelDataProcessor_SetStateCode : FString
}.

Record FGeneratedCodeBundle := {
  TypeDefinitionsHeadCode : FString;
  TypeDefinitionsCppCode : FString;
  ReplicatorRegistrationHeadCode : FString;
  ReplicatorCodes : list FReplicatorCode;
  GlobalStructCodes : FString;
  GlobalStructProtoDefinitions : FString;
  ChannelDataProcessorHeadCode : FString;
  ChannelDataProtoDefsFile : FString
}.

(** A default-constructed bundle. *)
Definition EmptyCodeBundle : FGeneratedCodeBundle :=
  {| TypeDefinitionsHeadCode := EmptyString;
     TypeDefinitionsCppCode := EmptyString;
     ReplicatorRegistrationHeadCode := EmptyString;
     ReplicatorCodes := [];
     GlobalStructCodes := EmptyString;
     GlobalStructProtoDefinitions := EmptyString;
     ChannelDataProcessorHeadCode := EmptyString;
     ChannelDataProtoDefsFile := EmptyString |}.

(** The fields of [FReplicatorCodeGenerator].  The two counters are [int32]
    in the header; they count classes of one run and are kept as [nat]. *)
Record FReplicatorCodeGenerator := {
  ModuleInfoByClassName : gmap string FModuleInfo;
  CPPClassInfoMap : gmap string FCPPClassInfo;
  IllegalClassNameIndex : nat;
  TargetActorSameNameCounter : gmap string nat
}.

(** The constants of ReplicatorGeneratorDefinition.h, which is not among the
    source files: they are parameters of the development. *)
Class ReplicatorGeneratorDefinition := {
  GenManager_GeneratedCodeDir : FString;
  GenManager_TypeDefinitionHeadFile : FString;
  GenManager_TypeDefinitionCppFile : FString;
  GenManager_RepRegistrationHeadFile : FString;
  GenManager_GlobalStructHeaderFile : FString;
  GenManager_GlobalStructProtoFile : FString;
  GenManager_DefaultProtoPackageName : FString;
  GenManager_IntermediateDir : FString;
  GenManager_GeneratedManifestFilePath : FString;
  CodeGen_HeadFileExtension : FString;
  CodeGen_CppFileExtension : FString;
  CodeGen_ProtoFileExtension : FString;
  CodeGen_ProtoPbHeadExtension : FString;
  CodeGen_ProtoPbCPPExtension : FString;
  (** [ChanneldReplicatorGeneratorUtils::GetDefaultModuleDir()] *)
  Utils_GetDefaultModuleDir : FString
}.

(** ** FReplicatorGeneratorManager: fields *)

(** The members that ReplicatorGeneratorManager.cpp reads and writes; the
    class itself is declared in ReplicatorGeneratorManager.h.
    [CodeGenerator] is a pointer to the one generator the manager owns. *)
Record FReplicatorGeneratorManager := {
  CodeGenerator : FReplicatorCodeGenerator;
  DefaultModuleDir : FString;
  ReplicatorStorageDir : FString;
  IgnoreActorClasses : list UClass;
  IgnoreActorClassPaths : list FString
}.

(** The two members of [FGeneratedManifest] that are saved and loaded. *)
Record FGeneratedManifest := {
  GeneratedTime : FDateTime;
  ProtoPackageName : FString
}.

(** [FReplicatorGeneratorManager::IsIgnoredActor].  [Contains] compares the
    class pointers by identity and the path names with [FString::operator==],
    that is without regard to the case of letters. *)
Definition IsIgnoredActor (Mgr : FReplicatorGeneratorManager) (TargetClass : UClass)
  : bool :=
  bool_decide (TargetClass ∈ IgnoreActorClasses Mgr)
  || existsb (λ Path, EqualsIgnoreCase Path (PathName TargetClass))
       (IgnoreActorClassPaths Mgr).

(** ** The engine services: file system, clock, log

    An in-memory model.  [WriteProtected] holds the paths on which creating,
    writing and deleting fail, whatever the cause; [Uninitialized] is the
    value an uninitialised [double] local happens to hold; [Trace] lists the
    calls that change the file system and the log lines, oldest first. *)

Inductive ELogVerbosity := Error | Warning | Display | Verbose.

Inductive Event :=
| SaveStringToFileCall (Filename Content : FString) (bSuccess : bool)
| MakeDirectoryCall (Path : FString) (bSuccess : bool)
| DeleteFileCall (Filename : FString) (bSuccess : bool)
| LogLine (Verbosity : ELogVerbosity) (Text : FString).

Record World := {
  Files : gmap string string;
  Directories : gset string;
  WriteProtected : gset string;
  Now : FDateTime;
  Uninitialized : Z;
  Trace : list Event
}.

Definition State : Type := FReplicatorGeneratorManager * World.

Definition Exec (A : Type) : Type := State → A * State.

#[global] Instance Exec_ret : MRet Exec := λ A (a : A) (St : State), (a, St).
#[global] Instance Exec_bind : MBind Exec :=
  λ A B (f : A → Exec B) (m : Exec A) (St : State),
    let '(a, St') := m St in f a St'.

Definition GetManager : Exec FReplicatorGeneratorManager := λ St, (St.1, St).
Definition SetManager (Mgr : FReplicatorGeneratorManager) : Exec unit :=
  λ St, (tt, (Mgr, St.2)).
Definition GetWorld : Exec World := λ St, (St.2, St).
Definition SetWorld (W : World) : Exec unit := λ St, (tt, (St.1, W)).

Definition Emit (e : Event) : Exec unit :=
  W ← GetWorld;
  SetWorld {| Files := Files W; Directories := Directories W;
              WriteProtected := WriteProtected W; Now := Now W;
              Uninitialized := Uninitialized W; Trace := Trace W ++ [e] |}.

Definition UE_LOG (Verbosity : ELogVerbosity) (Text : FString) : Exec unit :=
  Emit (LogLine Verbosity Text).

(** A directory and the directories above it. *)
Fixpoint DirectoryTree (fuel : nat) (Path : FString) : list FString :=
  match fuel with
  | O => []
  | S fuel' =>
      if IsEmpty Path then [] else Path :: DirectoryTree fuel' (GetPath Path)
  end.

(** [IFileManager::DirectoryExists], [FPaths::DirectoryExists] *)
Definition DirectoryExists (Path : FString) : Exec bool :=
  W ← GetWorld; mret (bool_decide (Path ∈ Directories W)).

(** [IFileManager::MakeDirectory(Path, true)] *)
Definition MakeDirectory (Path : FString) : Exec bool :=
  W ← GetWorld;
  if bool_decide (Path ∈ WriteProtected W) then
    Emit (MakeDirectoryCall Path false);; mret false
  else
    SetWorld {| Files := Files W;
                Directories :=
                  list_to_set (DirectoryTree (String.length Path) Path)
                    ∪ Directories W;
                WriteProtected := WriteProtected W; Now := Now W;
                Uninitialized := Uninitialized W; Trace := Trace W |};;
    Emit (MakeDirectoryCall Path true);; mret true.

(** [FFileHelper::SaveStringToFile]; the file writer of the engine creates
    the directory of the file.  A write that fails is refused when the file
    is opened; a write that fails half-way and leaves a truncated file is
    not modelled. *)
Definition SaveStringToFile (Content Filename : FString) : Exec bool :=
  W ← GetWorld;
  if bool_decide (Filename ∈ WriteProtected W) then
    Emit (SaveStringToFileCall Filename Content false);; mret false
  else
    SetWorld {| Files := <[Filename := Content]> (Files W);
                Directories :=
                  list_to_set (DirectoryTree (String.length Filename)
                                 (GetPath Filename))
                    ∪ Directories W;
                WriteProtected := WriteProtected W; Now := Now W;
                Uninitialized := Uninitialized W; Trace := Trace W |};;
    Emit (SaveStringToFileCall Filename Content true);; mret true.

(** [FFileHelper::LoadFileToString] *)
Definition LoadFileToString (Filename : FString) : Exec (option FString) :=
  W ← GetWorld; mret (Files W !! Filename).

(** [IPlatformFile::DeleteFile]: [false] when the file is missing or cannot
    be deleted. *)
Definition DeleteFile (Filename : FString) : Exec bool :=
  W ← GetWorld;
  if bool_decide (Filename ∈ dom (Files W))
     && negb (bool_decide (Filename ∈ WriteProtected W)) then
    SetWorld {| Files := delete Filename (Files W);
                Directories := Directories W;
                WriteProtected := WriteProtected W; Now := Now W;
                Uninitialized := Uninitialized W; Trace := Trace W |};;
    Emit (DeleteFileCall Filename true);; mret true
  else
    Emit (DeleteFileCall Filename false);; mret false.

(** [IFileManager::Delete(Filename)] with its default arguments
    ([RequireExists = false]): a file that does not exist is not an error,
    one that exists is handed to [IPlatformFile::DeleteFile].  The lines the
    engine writes to its own log are not part of the trace. *)
Definition IFileManager_Delete (Filename : FString) : Exec bool :=
  W ← GetWorld;
  if bool_decide (Filename ∈ dom (Files W)) then DeleteFile Filename
  else mret true.

(** [IFileManager::FindFiles(FoundFiles, Directory, FileExtension)]: the clean
    names of the files of the directory that end with the extension (given
    with or without its dot; every file when it is empty). *)
Definition FindFiles (Directory FileExtension : FString) : Exec (list FString) :=
  W ← GetWorld;
  let Suffix :=
    match FileExtension with
    | EmptyString => EmptyString
    | String c _ =>
        if (c =? ".")%char then FileExtension else String "." FileExtension
    end in
  mret (GetCleanFilename <$>
          filter (λ P, GetPath P = NormalizeDirectoryName Directory
                       ∧ EndsWith (GetCleanFilename P) Suffix = true)
                 (elements (dom (Files W)))).

(** [FDateTime::Now] *)
Definition FDateTime_Now : Exec FDateTime := W ← GetWorld; mret (Now W).

Definition UninitializedDouble : Exec Z := W ← GetWorld; mret (Uninitialized W).

(** ** The regular expressions of the engine ([FRegexPattern],
    [FRegexMatcher])

    The fragment the manager uses: literal characters, the class [\w]
    repeated once or more (greedy, giving back characters when the rest of
    the pattern fails), one capture group, and the anchors.  [$] is the end
    of the input: the names that [FindFiles] returns for an extension hold no
    final line terminator.  Characters are bytes, so [\w] is the ASCII word
    class. *)

Inductive FRegexItem :=
| RegexStart                       (* ^ *)
| RegexEnd                         (* $ *)
| RegexChar (c : ascii)            (* a literal character *)
| RegexCaptureWordPlus.            (* (\w+) *)

Definition FRegexPattern := list FRegexItem.

Definition IsWordChar (c : ascii) : bool :=
  let n := nat_of_ascii c in
  IsDigit c || ((65 <=? n)%nat && (n <=? 90)%nat)
  || ((97 <=? n)%nat && (n <=? 122)%nat) || (c =? "_")%char.

Fixpoint RegexLiteral (S : FString) : FRegexPattern :=
  match S with
  | EmptyString => []
  | String c rest => RegexChar c :: RegexLiteral rest
  end.

(** One or more word characters, as many as possible: [Taken] is what the
    group has taken so far, [Continue] matches the rest of the pattern, and a
    character is given back whenever the rest fails after a longer run. *)
Fixpoint GreedyWordPlus {R : Type} (Continue : FString → FString → option R)
    (Input Taken : FString) : option R :=
  match Input with
  | String d Input' =>
      if IsWordChar d then
        let Taken' := Taken +:+ String d EmptyString in
        match GreedyWordPlus Continue Input' Taken' with
        | Some Result => Some Result
        | None => Continue Input' Taken'
        end
      else None
  | EmptyString => None
  end.

(** Matching a pattern at a position of the input: [bAtStart] tells whether
    the position is the start of the input, [Capture] is the capture group so
    far.  The result is the capture group of the first match found. *)
Fixpoint MatchHere (Pattern : FRegexPattern) (bAtStart : bool) (Input : FString)
    (Capture : option FString) : option (option FString) :=
  match Pattern with
  | [] => Some Capture
  | RegexStart :: Pattern' =>
      if bAtStart then MatchHere Pattern' bAtStart Input Capture else None
  | RegexEnd :: Pattern' =>
      if IsEmpty Input then MatchHere Pattern' bAtStart Input Capture else None
  | RegexChar c :: Pattern' =>
      match Input with
      | String d Input' =>
          if (c =? d)%char then MatchHere Pattern' false Input' Capture else None
      | EmptyString => None
      end
  | RegexCaptureWordPlus :: Pattern' =>
      GreedyWordPlus
        (λ Input' Taken, MatchHere Pattern' false Input' (Some Taken))
        Input EmptyString
  end.

(** [FRegexMatcher::FindNext] on a fresh matcher: the first position of the
    input where the pattern matches. *)
Fixpoint FindFrom (Pattern : FRegexPattern) (bAtStart : bool) (Input : FString)
  : option (option FString) :=
  match MatchHere Pattern bAtStart Input None with
  | Some Result => Some Result
  | None =>
      match Input with
      | String _ Input' => FindFrom Pattern false Input'
      | EmptyString => None
      end
  end.

Definition FindNext (Pattern : FRegexPattern) (Input : FString)
  : option (option FString) :=
  FindFrom Pattern true Input.

(** [GetCaptureGroup(1)] after a successful [FindNext]. *)
Definition GetCaptureGroup1 (Match : option FString) : FString :=
  default EmptyString Match.

(** ** FReplicatorGeneratorManager *)

Section Manager.
Context `{ReplicatorGeneratorDefinition}.

(** [FReplicatorCodeGenerator::Generate], called through [CodeGenerator];
    its body is not among the source files, and the manager is verified for
    any generator. *)
Variable CodeGenerator_Generate :
  list UClass → FString → FString → FString → FGeneratedCodeBundle
  → FReplicatorCodeGenerator
  → (bool * FGeneratedCodeBundle) * FReplicatorCodeGenerator.

(** [FReplicatorCodeGenerator::GetClassHeadFilePath], a member function
    that is not [const]; its body is not among the source files either. *)
Variable CodeGenerator_GetClassHeadFilePath :
  FString → FReplicatorCodeGenerator → FString * FReplicatorCodeGenerator.

Definition GetDefaultModuleDir : Exec FString :=
  Mgr ← GetManager;
  (if IsEmpty (DefaultModuleDir Mgr) then
     SetManager
       {| CodeGenerator := CodeGenerator Mgr;
          DefaultModuleDir := NormalizeDirectoryName Utils_GetDefaultModuleDir;
          ReplicatorStorageDir := ReplicatorStorageDir Mgr;
          IgnoreActorClasses := IgnoreActorClasses Mgr;
          IgnoreActorClassPaths := IgnoreActorClassPaths Mgr |}
   else mret tt);;
  Mgr ← GetManager;
  mret (DefaultModuleDir Mgr).

Definition GetReplicatorStorageDir : Exec FString :=
  Mgr ← GetManager;
  (if IsEmpty (ReplicatorStorageDir Mgr) then
     ModuleDir ← GetDefaultModuleDir;
     Mgr ← GetManager;
     SetManager
       {| CodeGenerator := CodeGenerator Mgr;
          DefaultModuleDir := DefaultModuleDir Mgr;
          ReplicatorStorageDir :=
            NormalizeDirectoryName (ModuleDir // GenManager_GeneratedCodeDir);
          IgnoreActorClasses := IgnoreActorClasses Mgr;
          IgnoreActorClassPaths := IgnoreActorClassPaths Mgr |}
   else mret tt);;
  Mgr ← GetManager;
  mret (ReplicatorStorageDir Mgr).

Definition GetDefaultProtoPackageName : FString :=
  GenManager_DefaultProtoPackageName.

Definition GetDefaultModuleName : Exec FString :=
  ModuleDir ← GetDefaultModuleDir;
  mret (GetBaseFilename ModuleDir).

Definition HeaderFilesCanBeFound (TargetClass : UClass) : Exec bool :=
  Mgr ← GetManager;
  let '(TargetHeadFilePath, Generator) :=
    CodeGenerator_GetClassHeadFilePath
      (PrefixCPP TargetClass +:+ Name TargetClass) (CodeGenerator Mgr) in
  SetManager
    {| CodeGenerator := Generator;
       DefaultModuleDir := DefaultModuleDir Mgr;
       ReplicatorStorageDir := ReplicatorStorageDir Mgr;
       IgnoreActorClasses := IgnoreActorClasses Mgr;
       IgnoreActorClassPaths := IgnoreActorClassPaths Mgr |};;
  mret (negb (IsEmpty TargetHeadFilePath)).

Definition WriteCodeFile (FilePath Code ResultMessage : FString)
  : Exec (bool * FString) :=
  bSuccess ← SaveStringToFile Code FilePath;
  mret (bSuccess, ResultMessage).

Definition WriteProtoFile (FilePath ProtoContent ResultMessage : FString)
  : Exec (bool * FString) :=
  WriteCodeFile FilePath ProtoContent ResultMessage.

Definition EnsureReplicatorGeneratedIntermediateDir : Exec unit :=
  bExists ← DirectoryExists GenManager_IntermediateDir;
  if negb bExists then
    MakeDirectory GenManager_IntermediateDir;; mret tt
  else mret tt.

(** [LoadLatestGeneratedManifest(Filename, Result, Message)] *)
Definition LoadLatestGeneratedManifest (Filename : FString)
    (Result : FGeneratedManifest) (Message : FString)
  : Exec (bool * FGeneratedManifest * FString) :=
  Loaded ← LoadFileToString Filename;
  match Loaded with
  | None =>
      mret (false, Result, "Unable to load GeneratedManifest: " +:+ Filename)
  | Some Json =>
      match Deserialize Json with
      | None =>
          mret (false, Result,
                "GeneratedManifest is malformed: " +:+ Filename)
      | Some RootObject =>
          GeneratedTime' ←
            match TryGetNumberField "GeneratedTime" RootObject with
            | Some Number => mret Number
            | None =>
                UE_LOG Warning "Unable to find field 'GeneratedTime'";;
                UninitializedDouble
            end;
          let Result :=
            {| GeneratedTime := FromUnixTimestamp (DoubleToInt64 GeneratedTime');
               ProtoPackageName := ProtoPackageName Result |} in
          Result ←
            match TryGetStringField "ProtoPackageName" RootObject with
            | Some Value =>
                mret {| GeneratedTime := GeneratedTime Result;
                        ProtoPackageName := Value |}
            | None =>
                UE_LOG Warning "Unable to find field 'ProtoPackageName'";;
                mret Result
            end;
          mret (true, Result, Message)
      end
  end.

(** [LoadLatestGeneratedManifest(Result, Message)] *)
Definition LoadLatestGeneratedManifest_Default (Result : FGeneratedManifest)
    (Message : FString) : Exec (bool * FGeneratedManifest * FString) :=
  LoadLatestGeneratedManifest GenManager_GeneratedManifestFilePath Result
    Message.

(** The text that [SaveGeneratedManifest] hands to the file writer. *)
Definition ManifestJson (Manifest : FGeneratedManifest) : FString :=
  let JsonWriter := TJsonWriterFactory_Create in
  let JsonWriter := WriteObjectStart JsonWriter in
  let JsonWriter :=
    WriteValue_int64 "GeneratedTime"
      (ToUnixTimestamp (GeneratedTime Manifest)) JsonWriter in
  let JsonWriter :=
    WriteValue_FString "ProtoPackageName" (ProtoPackageName Manifest)
      JsonWriter in
  let JsonWriter := WriteObjectEnd JsonWriter in
  Stream JsonWriter.

(** [SaveGeneratedManifest(Manifest, Filename, Message)] *)
Definition SaveGeneratedManifest (Manifest : FGeneratedManifest)
    (Filename Message : FString) : Exec (bool * FString) :=
  bExists ← DirectoryExists (GetPath Filename);
  if negb bExists then
    mret (false,
          "Unable to find the directory of GeneratedManifest: " +:+ Filename)
  else
    let Json := ManifestJson Manifest in
    bSaved ← SaveStringToFile Json Filename;
    if bSaved : bool then
      mret (false, "Unable to save GeneratedManifest: " +:+ Filename)
    else mret (true, Message).

(** [SaveGeneratedManifest(Manifest, Message)] *)
Definition SaveGeneratedManifest_Default (Manifest : FGeneratedManifest)
    (Message : FString) : Exec (bool * FString) :=
  EnsureReplicatorGeneratedIntermediateDir;;
  SaveGeneratedManifest Manifest GenManager_GeneratedManifestFilePath Message.

(** The body of the loop of [GeneratedReplicators] over
    [ReplicatorCodeBundle.ReplicatorCodes]. *)
Fixpoint WriteReplicatorCodes (Codes : list FReplicatorCode) (Message : FString)
  : Exec FString :=
  match Codes with
  | [] => mret Message
  | ReplicatorCode :: rest =>
      Dir ← GetReplicatorStorageDir;
      '(_, Message) ←
        WriteCodeFile (Dir // HeadFileName ReplicatorCode)
          (HeadCode ReplicatorCode) Message;
      Dir ← GetReplicatorStorageDir;
      '(_, Message) ←
        WriteCodeFile (Dir // CppFileName ReplicatorCode)
          (CppCode ReplicatorCode) Message;
      Dir ← GetReplicatorStorageDir;
      '(_, Message) ←
        WriteProtoFile (Dir // ProtoFileName ReplicatorCode)
          (ProtoDefinitionsFile ReplicatorCode) Message;
      UE_LOG Verbose
        ("The replicator for the target class ["
           +:+ GetOriginActorName (ActorDecorator ReplicatorCode)
           +:+ "] was generated successfully."
           +:+ String LineFeed "    Package path: "
           +:+ GetPackagePathName (ActorDecorator ReplicatorCode)
           +:+ String LineFeed "    Head file: " +:+ HeadFileName ReplicatorCode
           +:+ String LineFeed "    CPP file: " +:+ CppFileName ReplicatorCode
           +:+ String LineFeed "    Proto file: "
           +:+ ProtoFileName ReplicatorCode
           +:+ String LineFeed EmptyString);;
      WriteReplicatorCodes rest Message
  end.

Definition GeneratedReplicators (TargetClasses : list UClass)
    (GoPackageImportPathPrefix : FString) : Exec bool :=
  UE_LOG Display
    ("Start generating " +:+ itoa (Z.of_nat (length TargetClasses))
       +:+ " replicators");;
  let ReplicatorCodeBundle := EmptyCodeBundle in
  let ProtoPackageName := GetDefaultProtoPackageName in
  ModuleDir ← GetDefaultModuleDir;
  Mgr ← GetManager;
  let '((_, ReplicatorCodeBundle), Generator) :=
    CodeGenerator_Generate TargetClasses ModuleDir ProtoPackageName
      (GoPackageImportPathPrefix +:+ ProtoPackageName) ReplicatorCodeBundle
      (CodeGenerator Mgr) in
  SetManager
    {| CodeGenerator := Generator;
       DefaultModuleDir := DefaultModuleDir Mgr;
       ReplicatorStorageDir := ReplicatorStorageDir Mgr;
       IgnoreActorClasses := IgnoreActorClasses Mgr;
       IgnoreActorClassPaths := IgnoreActorClassPaths Mgr |};;
  let Message := EmptyString in
  (* Generate type definitions file *)
  Dir ← GetReplicatorStorageDir;
  '(_, Message) ←
    WriteCodeFile (Dir // GenManager_TypeDefinitionHeadFile)
      (TypeDefinitionsHeadCode ReplicatorCodeBundle) Message;
  Dir ← GetReplicatorStorageDir;
  '(_, Message) ←
    WriteCodeFile (Dir // GenManager_TypeDefinitionCppFile)
      (TypeDefinitionsCppCode ReplicatorCodeBundle) Message;
  (* Generate replicator code file *)
  Message ← WriteReplicatorCodes (ReplicatorCodes ReplicatorCodeBundle) Message;
  (* Generate replicator registration code file *)
  Dir ← GetReplicatorStorageDir;
  '(_, Message) ←
    WriteCodeFile (Dir // GenManager_RepRegistrationHeadFile)
      (ReplicatorRegistrationHeadCode ReplicatorCodeBundle) Message;
  (* Generate global struct declarations file and proto definitions file *)
  Dir ← GetReplicatorStorageDir;
  '(_, Message) ←
    WriteCodeFile (Dir // GenManager_GlobalStructHeaderFile)
      (GlobalStructCodes ReplicatorCodeBundle) Message;
  Dir ← GetReplicatorStorageDir;
  '(_, Message) ←
    WriteProtoFile (Dir // GenManager_GlobalStructProtoFile)
      (GlobalStructProtoDefinitions ReplicatorCodeBundle) Message;
  (* Generate channel data processor code file *)
  DefaultModuleName ← GetDefaultModuleName;
  Dir ← GetReplicatorStorageDir;
  '(_, Message) ←
    WriteCodeFile
      (Dir // "ChannelData_" +:+ DefaultModuleName +:+ CodeGen_HeadFileExtension)
      (ChannelDataProcessorHeadCode ReplicatorCodeBundle) Message;
  Dir ← GetReplicatorStorageDir;
  '(_, Message) ←
    WriteProtoFile
      (Dir // "ChannelData_" +:+ DefaultModuleName +:+ CodeGen_ProtoFileExtension)
      (ChannelDataProtoDefsFile ReplicatorCodeBundle) Message;
  UE_LOG Display
    ("The generation of replicators is completed, "
       +:+ itoa (Z.of_nat (length TargetClasses))
       +:+ " replicators need to be generated, a total of "
       +:+ itoa (Z.of_nat (length (ReplicatorCodes ReplicatorCodeBundle)))
       +:+ " replicators are generated");;
  (* Save the generated manifest file *)
  Time ← FDateTime_Now;
  let Manifest :=
    {| GeneratedTime := Time; ProtoPackageName := ProtoPackageName |} in
  '(bResult, Message) ← SaveGeneratedManifest_Default Manifest Message;
  if bResult : bool then
    UE_LOG Error
      ("Failed to save the generated manifest file, error message: "
         +:+ Message);;
    mret false
  else mret true.

(** The pattern of [GetGeneratedTargetClasses],
    [^Channeld(\w+)Replicator\.h$]. *)
Definition MatherPatter : FRegexPattern :=
  [RegexStart] ++ RegexLiteral "Channeld" ++ [RegexCaptureWordPlus]
    ++ RegexLiteral "Replicator" ++ [RegexChar "."] ++ RegexLiteral "h"
    ++ [RegexEnd].

(** The loop of [GetGeneratedTargetClasses] over [HeadFiles]. *)
Fixpoint CaptureTargetClasses (HeadFiles : list FString) : list FString :=
  match HeadFiles with
  | [] => []
  | HeadFile :: rest =>
      match FindNext MatherPatter HeadFile with
      | Some Matcher => GetCaptureGroup1 Matcher :: CaptureTargetClasses rest
      | None => CaptureTargetClasses rest
      end
  end.

Definition GetGeneratedTargetClasses : Exec (list FString) :=
  Dir ← GetReplicatorStorageDir;
  HeadFiles ← FindFiles Dir CodeGen_HeadFileExtension;
  mret (CaptureTargetClasses HeadFiles).

Definition GetGeneratedProtoFiles : Exec (list FString) :=
  Dir ← GetReplicatorStorageDir;
  FindFiles Dir CodeGen_ProtoFileExtension.

Definition RemoveGeneratedReplicator (ClassName : FString) : Exec unit :=
  DeleteFile ("Channeld" +:+ ClassName +:+ "Replicator"
                +:+ CodeGen_CppFileExtension);;
  DeleteFile ("Channeld" +:+ ClassName +:+ "Replicator"
                +:+ CodeGen_HeadFileExtension);;
  DeleteFile (ClassName +:+ CodeGen_ProtoFileExtension);;
  DeleteFile (ClassName +:+ CodeGen_ProtoPbHeadExtension);;
  DeleteFile (ClassName +:+ CodeGen_ProtoPbCPPExtension);;
  mret tt.

Fixpoint RemoveGeneratedReplicators (ClassNames : list FString) : Exec unit :=
  match ClassNames with
  | [] => mret tt
  | ClassName :: rest =>
      RemoveGeneratedReplicator ClassName;;
      RemoveGeneratedReplicators rest
  end.

(** The loop of [RemoveGeneratedCodeFiles] over [AllCodeFiles]. *)
Fixpoint DeleteCodeFiles (AllCodeFiles : list FString) : Exec unit :=
  match AllCodeFiles with
  | [] => mret tt
  | FilePath :: rest =>
      Dir ← GetReplicatorStorageDir;
      IFileManager_Delete (Dir // FilePath);;
      DeleteCodeFiles rest
  end.

(** [RemoveGeneratedCodeFiles]; [FindFiles] is called without a file
    extension and lists every file of the directory. *)
Definition RemoveGeneratedCodeFiles : Exec unit :=
  Dir ← GetReplicatorStorageDir;
  AllCodeFiles ← FindFiles Dir EmptyString;
  DeleteCodeFiles AllCodeFiles.
End Manager.

(** ** Observations on a trace, and the file names of the naming convention *)

Definition WriteAttempt (e : Event) : option FString :=
  match e with
  | SaveStringToFileCall Filename _ _ => Some Filename
  | _ => None
  end.

(** The files handed to [SaveStringToFile], in the order of the calls. *)
Definition WriteAttempts (T : list Event) : list FString := omap WriteAttempt T.

Fixpoint AllWordChars (S : FString) : bool :=
  match S with
  | EmptyString => true
  | String c rest => IsWordChar c && AllWordChars rest
  end.

(** A name made of one or more word characters. *)
Definition IsWordName (S : FString) : bool := negb (IsEmpty S) && AllWordChars S.

(** The header file name of the replicator generated for a class name. *)
Definition ReplicatorHeadFileName (ClassName : FString) : FString :=
  "Channeld" +:+ ClassName +:+ "Replicator.h".

Fixpoint StripSuffix (Suffix S : FString) : option FString :=
  if bool_decide (S = Suffix) then Some EmptyString
  else
    match S with
    | String c rest => String c <$> StripSuffix Suffix rest
    | EmptyString => None
    end.

(** The fixed file name template, read directly: the word name between the
    prefix [Channeld] and the suffix [Replicator.h], if the file name has
    that form. *)
Definition TemplateClassName (HeadFile : FString) : option FString :=
  rest ← StripPrefix "Channeld" HeadFile;
  ClassName ← StripSuffix "Replicator.h" rest;
  if IsWordName ClassName then Some ClassName else None.

Section Convention.
Context `{ReplicatorGeneratorDefinition}.

(** The five files of a class name, in the order
    [RemoveGeneratedReplicator] asks for their deletion. *)
Definition GeneratedFilesOf (ClassName : FString) : list FString :=
  [ "Channeld" +:+ ClassName +:+ "Replicator" +:+ CodeGen_CppFileExtension;
    "Channeld" +:+ ClassName +:+ "Replicator" +:+ CodeGen_HeadFileExtension;
    ClassName +:+ CodeGen_ProtoFileExtension;
    ClassName +:+ CodeGen_ProtoPbHeadExtension;
    ClassName +:+ CodeGen_ProtoPbCPPExtension ].

(** The directories the getters of the manager return: the cached value,
    computed when the cache is empty. *)
Definition ModuleDirOf (Mgr : FReplicatorGeneratorManager) : FString :=
  if IsEmpty (DefaultModuleDir Mgr)
  then NormalizeDirectoryName Utils_GetDefaultModuleDir
  else DefaultModuleDir Mgr.

Definition StorageDirOf (Mgr : FReplicatorGeneratorManager) : FString :=
  if IsEmpty (ReplicatorStorageDir Mgr)
  then NormalizeDirectoryName (ModuleDirOf Mgr // GenManager_GeneratedCodeDir)
  else ReplicatorStorageDir Mgr.

Definition ReplicatorCodeFiles (Dir : FString) (Code : FReplicatorCode)
  : list FString :=
  [ Dir // HeadFileName Code; Dir // CppFileName Code;
    Dir // ProtoFileName Code ].

(** The artifact files of a bundle, in the order [GeneratedReplicators]
    writes them. *)
Definition ArtifactFiles (Dir ModuleName : FString)
    (Bundle : FGeneratedCodeBundle) : list FString :=
  [ Dir // GenManager_TypeDefinitionHeadFile;
    Dir // GenManager_TypeDefinitionCppFile ]
    ++ (ReplicatorCodes Bundle ≫= ReplicatorCodeFiles Dir)
    ++ [ Dir // GenManager_RepRegistrationHeadFile;
         Dir // GenManager_GlobalStructHeaderFile;
         Dir // GenManager_GlobalStructProtoFile;
         Dir // "ChannelData_" +:+ ModuleName +:+ CodeGen_HeadFileExtension;
         Dir // "ChannelData_" +:+ ModuleName +:+ CodeGen_ProtoFileExtension ].
End Convention.

(** ** Sample values, used by the examples *)

Definition SampleDefinition : ReplicatorGeneratorDefinition :=
  {| GenManager_GeneratedCodeDir := "ChanneldGenerated";
     GenManager_TypeDefinitionHeadFile := "ChanneldGeneratedTypes.h";
     GenManager_TypeDefinitionCppFile := "ChanneldGeneratedTypes.cpp";
     GenManager_RepRegistrationHeadFile := "ChanneldReplicatorRegistration.h";
     GenManager_GlobalStructHeaderFile := "ChanneldGlobalStruct.h";
     GenManager_GlobalStructProtoFile := "ChanneldGlobalStruct.proto";
     GenManager_DefaultProtoPackageName := "generatedpb";
     GenManager_IntermediateDir := "Intermediate/ReplicatorGenerator";
     GenManager_GeneratedManifestFilePath :=
       "Intermediate/ReplicatorGenerator/GeneratedManifest.json";
     CodeGen_HeadFileExtension := ".h";
     CodeGen_CppFileExtension := ".cpp";
     CodeGen_ProtoFileExtension := ".proto";
     CodeGen_ProtoPbHeadExtension := ".pb.h";
     CodeGen_ProtoPbCPPExtension := ".pb.cpp";
     Utils_GetDefaultModuleDir := "Project/Source/Game" |}.

Definition SampleGenerator : FReplicatorCodeGenerator :=
  {| ModuleInfoByClassName := {[ "AFoo" := {| ModuleName := "Game" |} ]};
     CPPClassInfoMap :=
       {[ "AFoo" := {| HeadFilePath := "Project/Source/Game/Foo.h";
                       ModuleInfo := {| ModuleName := "Game" |} |} ]};
     IllegalClassNameIndex := 0;
     TargetActorSameNameCounter := ∅ |}.

Definition SampleManager : FReplicatorGeneratorManager :=
  {| CodeGenerator := SampleGenerator;
     DefaultModuleDir := EmptyString;
     ReplicatorStorageDir := EmptyString;
     IgnoreActorClasses := [];
     IgnoreActorClassPaths := ["/Script/Game.Hidden"] |}.

Definition SampleNow : FDateTime := {| Ticks := 638000000012345678 |}.

(** A world with the given directories and write-protected paths and no
    file. *)
Definition SampleWorld (Dirs Protected : list FString) : World :=
  {| Files := ∅;
     Directories := list_to_set Dirs;
     WriteProtected := list_to_set Protected;
     Now := SampleNow;
     Uninitialized := 7;
     Trace := [] |}.

Definition WithFile (Filename Content : FString) (W : World) : World :=
  {| Files := <[Filename := Content]> (Files W);
     Directories := Directories W;
     WriteProtected := WriteProtected W;
     Now := Now W;
     Uninitialized := Uninitialized W;
     Trace := Trace W |}.

Definition WithUninitialized (Garbage : Z) (W : World) : World :=
  {| Files := Files W;
     Directories := Directories W;
     WriteProtected := WriteProtected W;
     Now := Now W;
     Uninitialized := Garbage;
     Trace := Trace W |}.

Definition SampleManifestPath : FString :=
  "Intermediate/ReplicatorGenerator/GeneratedManifest.json".

Definition SampleManifest : FGeneratedManifest :=
  {| GeneratedTime := SampleNow; ProtoPackageName := "generatedpb" |}.

Definition DefaultManifest : FGeneratedManifest :=
  {| GeneratedTime := {| Ticks := 0 |}; ProtoPackageName := EmptyString |}.

(** A generator whose assembly fails and one whose assembly succeeds with an
    empty bundle. *)
Definition FailingGenerate (TargetActors : list UClass)
    (DefaultModuleDir ProtoPackageName GoPackageImportPath : FString)
    (Bundle : FGeneratedCodeBundle) (G : FReplicatorCodeGenerator)
  : (bool * FGeneratedCodeBundle) * FReplicatorCodeGenerator :=
  ((false, Bundle), G).

Definition EmptyGenerate (TargetActors : list UClass)
    (DefaultModuleDir ProtoPackageName GoPackageImportPath : FString)
    (Bundle : FGeneratedCodeBundle) (G : FReplicatorCodeGenerator)
  : (bool * FGeneratedCodeBundle) * FReplicatorCodeGenerator :=
  ((true, Bundle), G).

Definition Foo : UClass :=
  {| Name := "Foo"; PrefixCPP := "A"; PathName := "/Script/Game.Foo";
     PackagePathName := "/Script/Game" |}.

Definition SampleTypesHeadPath : FString :=
  "Project/Source/Game/ChanneldGenerated/ChanneldGeneratedTypes.h".

(** A manifest file without the member [GeneratedTime]. *)
Definition NoTimeJson : FString :=
  "{" +:+ QuotedJsonString "ProtoPackageName" +:+ ":"
    +:+ QuotedJsonString "generatedpb" +:+ "}".


(** A world with the header of one generated replicator in the storage
    directory of the sample project. *)
Definition SampleHeaderWorld : World :=
  WithFile "Project/Source/Game/ChanneldGenerated/ChanneldFooReplicator.h"
    "class FChanneldFooReplicator;" (SampleWorld [] []).

(** ** Notions used in the statements and their proofs *)

Fixpoint AllDigits (S : FString) : bool :=
  match S with
  | EmptyString => true
  | String c rest => IsDigit c && AllDigits rest
  end.

Definition StartsWithDigit (S : FString) : bool :=
  match S with
  | EmptyString => false
  | String c _ => IsDigit c
  end.

(** The members of the JSON object that [ManifestJson] writes. *)
Definition ManifestMembers (Manifest : FGeneratedManifest)
  : list (FString * FJsonValue) :=
  [ ("GeneratedTime"%string,
     JsonNumber (RoundToDouble (ToUnixTimestamp (GeneratedTime Manifest))));
    ("ProtoPackageName"%string, JsonString (ProtoPackageName Manifest)) ].

(** The rest of [MatherPatter] after the capture group. *)
Definition AfterCapture (Input Taken : FString) : option (option FString) :=
  MatchHere (RegexLiteral "Replicator.h" ++ [RegexEnd]) false Input (Some Taken).

(** What every step of a generation run keeps: the directories the getters
    of the manager return, the write-protected paths, the clock and, between
    two calls of the generator, its fields. *)
Record Frame := {
  FrameModuleDir : FString;
  FrameStorageDir : FString;
  FrameProtected : gset string;
  FrameNow : FDateTime;
  FrameGenerator : FReplicatorCodeGenerator
}.

Section Frames.
Context `{ReplicatorGeneratorDefinition}.

Definition ManagerInFrame (F : Frame) (Mgr : FReplicatorGeneratorManager)
  : Prop :=
  ModuleDirOf Mgr = FrameModuleDir F
  ∧ StorageDirOf Mgr = FrameStorageDir F
  ∧ CodeGenerator Mgr = FrameGenerator F.

Definition InFrame (F : Frame) (St : State) : Prop :=
  ManagerInFrame F St.1
  ∧ WriteProtected St.2 = FrameProtected F
  ∧ Now St.2 = FrameNow F.

Definition FrameOf (St : State) : Frame :=
  {| FrameModuleDir := ModuleDirOf St.1;
     FrameStorageDir := StorageDirOf St.1;
     FrameProtected := WriteProtected St.2;
     FrameNow := Now St.2;
     FrameGenerator := CodeGenerator St.1 |}.

(** [Runs F F' m P]: from any state of the frame [F], [m] ends in the frame
    [F'], and the files [Written] it hands to the file writer, in the order
    of the calls, and the value [a] it returns satisfy [P Written a]. *)
Definition Runs {A} (F F' : Frame) (m : Exec A)
    (P : list FString → A → Prop) : Prop :=
  ∀ St, InFrame F St →
    InFrame F' (m St).2
    ∧ ∃ Written,
        WriteAttempts (Trace (m St).2.2)
          = WriteAttempts (Trace St.2) ++ Written
        ∧ P Written (m St).1.

(** A step that writes nothing. *)
Definition Silent {A} (Q : A → Prop) (Written : list FString) (a : A) : Prop :=
  Written = [] ∧ Q a.

(** A step that hands one file to the file writer. *)
Definition Writes {A} (Filename : FString) (Q : A → Prop)
    (Written : list FString) (a : A) : Prop :=
  Written = [Filename] ∧ Q a.

(** The manifest save hands at most the manifest file to the file writer;
    it returns [true] only when that write was attempted and failed. *)
Definition ManifestSaved (F : Frame) (Filename : FString)
    (Written : list FString) (R : bool * FString) : Prop :=
  (Written = [] ∨ Written = [Filename])
  ∧ (R.1 = true → Written = [Filename] ∧ Filename ∈ FrameProtected F).

Variable CodeGenerator_Generate :
  list UClass → FString → FString → FString → FGeneratedCodeBundle
  → FReplicatorCodeGenerator
  → (bool * FGeneratedCodeBundle) * FReplicatorCodeGenerator.

(** The bundle a run works on and the frame it ends in. *)
Definition BundleOf (F : Frame) (TargetClasses : list UClass)
    (GoPackageImportPathPrefix : FString) : FGeneratedCodeBundle :=
  (CodeGenerator_Generate TargetClasses (FrameModuleDir F)
     GetDefaultProtoPackageName
     (GoPackageImportPathPrefix +:+ GetDefaultProtoPackageName)
     EmptyCodeBundle (FrameGenerator F)).1.2.

Definition FrameAfterGenerate (F : Frame) (TargetClasses : list UClass)
    (GoPackageImportPathPrefix : FString) : Frame :=
  {| FrameModuleDir := FrameModuleDir F;
     FrameStorageDir := FrameStorageDir F;
     FrameProtected := FrameProtected F;
     FrameNow := FrameNow F;
     FrameGenerator :=
       (CodeGenerator_Generate TargetClasses (FrameModuleDir F)
          GetDefaultProtoPackageName
          (GoPackageImportPathPrefix +:+ GetDefaultProtoPackageName)
          EmptyCodeBundle (FrameGenerator F)).2 |}.
End Frames.

(** ** Notions used in the further properties *)

Definition DeleteCall (e : Event) : option FString :=
  match e with
  | DeleteFileCall Filename _ => Some Filename
  | _ => None
  end.

(** The files handed to [DeleteFile], in the order of the calls. *)
Definition DeleteCalls (T : list Event) : list FString := omap DeleteCall T.

(** The world after [DeleteFile Filename]. *)
Definition WorldAfterDelete (W : World) (Filename : FString) : World :=
  let bSuccess :=
    bool_decide (Filename ∈ dom (Files W))
    && negb (bool_decide (Filename ∈ WriteProtected W)) in
  {| Files := if bSuccess then delete Filename (Files W) else Files W;
     Directories := Directories W;
     WriteProtected := WriteProtected W;
     Now := Now W;
     Uninitialized := Uninitialized W;
     Trace := Trace W ++ [DeleteFileCall Filename bSuccess] |}.

(** The world after [IFileManager_Delete Filename]. *)
Definition WorldAfterManagerDelete (W : World) (Filename : FString) : World :=
  if bool_decide (Filename ∈ dom (Files W)) then WorldAfterDelete W Filename
  else W.

(** What deletion requests for [Targets] leave of a file system: a file is
    gone when it was a target and could be deleted. *)
Definition FilesWithout (Targets : list FString) (W : World) (P : FString)
  : option FString :=
  if bool_decide (P ∈ Targets ∧ P ∉ WriteProtected W) then None
  else Files W !! P.

Section Caches.
Context `{ReplicatorGeneratorDefinition}.

(** The manager once [GetDefaultModuleDir] has filled its cache. *)
Definition CacheModuleDir (Mgr : FReplicatorGeneratorManager)
  : FReplicatorGeneratorManager :=
  {| CodeGenerator := CodeGenerator Mgr;
     DefaultModuleDir := ModuleDirOf Mgr;
     ReplicatorStorageDir := ReplicatorStorageDir Mgr;
     IgnoreActorClasses := IgnoreActorClasses Mgr;
     IgnoreActorClassPaths := IgnoreActorClassPaths Mgr |}.

(** The manager once [GetReplicatorStorageDir] has filled its cache, and
    with it the cache of [GetDefaultModuleDir]. *)
Definition CacheStorageDir (Mgr : FReplicatorGeneratorManager)
  : FReplicatorGeneratorManager :=
  if IsEmpty (ReplicatorStorageDir Mgr) then
    {| CodeGenerator := CodeGenerator Mgr;
       DefaultModuleDir := ModuleDirOf Mgr;
       ReplicatorStorageDir := StorageDirOf Mgr;
       IgnoreActorClasses := IgnoreActorClasses Mgr;
       IgnoreActorClassPaths := IgnoreActorClassPaths Mgr |}
  else Mgr.
End Caches.

Definition SaveCall (e : Event) : option (FString * FString * bool) :=
  match e with
  | SaveStringToFileCall Filename Content bSuccess =>
      Some (Filename, Content, bSuccess)
  | _ => None
  end.

(** The calls of [SaveStringToFile] in a trace, each with the file, the text
    and the result, in the order of the calls. *)
Definition SaveCalls (T : list Event) : list (FString * FString * bool) :=
  omap SaveCall T.

Definition LogLineOf (e : Event) : option (ELogVerbosity * FString) :=
  match e with
  | LogLine Verbosity Text => Some (Verbosity, Text)
  | _ => None
  end.

(** The log lines of a trace. *)
Definition LogLines (T : list Event) : list (ELogVerbosity * FString) :=
  omap LogLineOf T.

(** The files after an event, and after the events of a trace. *)
Definition FilesAfter1 (Fs : gmap string string) (e : Event)
  : gmap string string :=
  match e with
  | SaveStringToFileCall Filename Content true => <[Filename := Content]> Fs
  | DeleteFileCall Filename true => delete Filename Fs
  | _ => Fs
  end.

Definition FilesAfter (Events : list Event) (Fs : gmap string string)
  : gmap string string :=
  foldl FilesAfter1 Fs Events.

(** [Triple Pre m Post]: from a state that satisfies [Pre], the value [m]
    returns and the state it ends in satisfy [Post]. *)
Definition Triple {A} (Pre : State → Prop) (m : Exec A)
    (Post : A → State → Prop) : Prop :=
  ∀ St, Pre St → Post (m St).1 (m St).2.

Section RunEffects.
Context `{ReplicatorGeneratorDefinition}.

(** A write as the file writer answers it. *)
Definition WriteEvent (Protected : gset string) (Write : FString * FString)
  : Event :=
  SaveStringToFileCall Write.1 Write.2 (bool_decide (Write.1 ∉ Protected)).

(** The three files of a replicator, each with its text. *)
Definition ReplicatorCodeTexts (Dir : FString) (Code : FReplicatorCode)
  : list (FString * FString) :=
  [ (Dir // HeadFileName Code, HeadCode Code);
    (Dir // CppFileName Code, CppCode Code);
    (Dir // ProtoFileName Code, ProtoDefinitionsFile Code) ].

(** The artifact files of a bundle, each with its text, in the order
    [GeneratedReplicators] writes them. *)
Definition ArtifactTexts (Dir ModuleName : FString)
    (Bundle : FGeneratedCodeBundle) : list (FString * FString) :=
  [ (Dir // GenManager_TypeDefinitionHeadFile, TypeDefinitionsHeadCode Bundle);
    (Dir // GenManager_TypeDefinitionCppFile, TypeDefinitionsCppCode Bundle) ]
    ++ (ReplicatorCodes Bundle ≫= ReplicatorCodeTexts Dir)
    ++ [ (Dir // GenManager_RepRegistrationHeadFile,
          ReplicatorRegistrationHeadCode Bundle);
         (Dir // GenManager_GlobalStructHeaderFile, GlobalStructCodes Bundle);
         (Dir // GenManager_GlobalStructProtoFile,
          GlobalStructProtoDefinitions Bundle);
         (Dir // "ChannelData_" +:+ ModuleName +:+ CodeGen_HeadFileExtension,
          ChannelDataProcessorHeadCode Bundle);
         (Dir // "ChannelData_" +:+ ModuleName +:+ CodeGen_ProtoFileExtension,
          ChannelDataProtoDefsFile Bundle) ].

(** The log lines of [GeneratedReplicators]. *)
Definition StartLogText (Requested : nat) : FString :=
  "Start generating " +:+ itoa (Z.of_nat Requested) +:+ " replicators".

Definition GeneratedLogText (Code : FReplicatorCode) : FString :=
  "The replicator for the target class ["
    +:+ GetOriginActorName (ActorDecorator Code)
    +:+ "] was generated successfully."
    +:+ String LineFeed "    Package path: "
    +:+ GetPackagePathName (ActorDecorator Code)
    +:+ String LineFeed "    Head file: " +:+ HeadFileName Code
    +:+ String LineFeed "    CPP file: " +:+ CppFileName Code
    +:+ String LineFeed "    Proto file: " +:+ ProtoFileName Code
    +:+ String LineFeed EmptyString.

Definition CompletedLogText (Requested Generated : nat) : FString :=
  "The generation of replicators is completed, "
    +:+ itoa (Z.of_nat Requested)
    +:+ " replicators need to be generated, a total of "
    +:+ itoa (Z.of_nat Generated)
    +:+ " replicators are generated".

Definition SaveFailedLogText : FString :=
  "Failed to save the generated manifest file, error message: ".

(** The manifest a run saves. *)
Definition ManifestOf (W : World) : FGeneratedManifest :=
  {| GeneratedTime := Now W; ProtoPackageName := GetDefaultProtoPackageName |}.

Definition ReplicatorCodeEvents (Protected : gset string) (Dir : FString)
    (Code : FReplicatorCode) : list Event :=
  (WriteEvent Protected <$> ReplicatorCodeTexts Dir Code)
    ++ [LogLine Verbose (GeneratedLogText Code)].

(** The events of a run up to the manifest. *)
Definition ArtifactEvents (Protected : gset string) (Dir ModuleName : FString)
    (Bundle : FGeneratedCodeBundle) (Requested : nat) : list Event :=
  [LogLine Display (StartLogText Requested)]
    ++ (WriteEvent Protected <$>
          [ (Dir // GenManager_TypeDefinitionHeadFile,
             TypeDefinitionsHeadCode Bundle);
            (Dir // GenManager_TypeDefinitionCppFile,
             TypeDefinitionsCppCode Bundle) ])
    ++ (ReplicatorCodes Bundle ≫= ReplicatorCodeEvents Protected Dir)
    ++ (WriteEvent Protected <$>
          [ (Dir // GenManager_RepRegistrationHeadFile,
             ReplicatorRegistrationHeadCode Bundle);
            (Dir // GenManager_GlobalStructHeaderFile, GlobalStructCodes Bundle);
            (Dir // GenManager_GlobalStructProtoFile,
             GlobalStructProtoDefinitions Bundle);
            (Dir // "ChannelData_" +:+ ModuleName +:+ CodeGen_HeadFileExtension,
             ChannelDataProcessorHeadCode Bundle);
            (Dir // "ChannelData_" +:+ ModuleName +:+ CodeGen_ProtoFileExtension,
             ChannelDataProtoDefsFile Bundle) ])
    ++ [LogLine Display
          (CompletedLogText Requested (length (ReplicatorCodes Bundle)))].

(** The events of the manifest save that ends a run which returns
    [bResult]: the directory is made when it is missing, the manifest is
    written when its directory is there, and the error line is logged when
    the write fails. *)
Definition ManifestEvents (St0 : State) (bResult : bool) (Events : list Event)
  : Prop :=
  ∃ Made Saved,
    Events = Made ++ Saved
    ∧ (Made = []
       ∨ ((GenManager_IntermediateDir ∉ Directories St0.2)
          ∧ Made =
              [MakeDirectoryCall GenManager_IntermediateDir
                 (bool_decide
                    (GenManager_IntermediateDir ∉ WriteProtected St0.2))]))
    ∧ ((Saved = [] ∧ bResult = true)
       ∨ (Saved =
            [SaveStringToFileCall GenManager_GeneratedManifestFilePath
               (ManifestJson (ManifestOf St0.2)) true]
          ∧ bResult = true
          ∧ GenManager_GeneratedManifestFilePath ∉ WriteProtected St0.2)
       ∨ (Saved =
            [SaveStringToFileCall GenManager_GeneratedManifestFilePath
               (ManifestJson (ManifestOf St0.2)) false;
             LogLine Error SaveFailedLogText]
          ∧ bResult = false
          ∧ GenManager_GeneratedManifestFilePath ∈ WriteProtected St0.2))
    ∧ ((GetPath GenManager_GeneratedManifestFilePath ∈ Directories St0.2
        ∨ (GetPath GenManager_GeneratedManifestFilePath
             = GenManager_IntermediateDir
           ∧ GenManager_IntermediateDir ≠ EmptyString
           ∧ GenManager_IntermediateDir ∉ WriteProtected St0.2)) →
       Saved ≠ []).

(** [Reached St0 G Events St]: the state [St] of a run that started in
    [St0], whose generator is now [G] and whose events so far are [Events]:
    the getters of the manager return what they returned in [St0], the ignore
    lists, the write-protected paths and the clock are those of [St0], the
    files are those of [St0] after the events, and no directory is lost. *)
Record Reached (St0 : State) (G : FReplicatorCodeGenerator)
    (Events : list Event) (St : State) : Prop := {
  reached_module_dir : ModuleDirOf St.1 = ModuleDirOf St0.1;
  reached_storage_dir : StorageDirOf St.1 = StorageDirOf St0.1;
  reached_generator : CodeGenerator St.1 = G;
  reached_classes : IgnoreActorClasses St.1 = IgnoreActorClasses St0.1;
  reached_paths : IgnoreActorClassPaths St.1 = IgnoreActorClassPaths St0.1;
  reached_protected : WriteProtected St.2 = WriteProtected St0.2;
  reached_now : Now St.2 = Now St0.2;
  reached_trace : Trace St.2 = Trace St0.2 ++ Events;
  reached_files : Files St.2 = FilesAfter Events (Files St0.2);
  reached_directories : Directories St0.2 ⊆ Directories St.2
}.
End RunEffects.

(** A call of [SaveStringToFile] as the file writer answers it. *)
Definition WriteCall (Protected : gset string) (Write : FString * FString)
  : FString * FString * bool :=
  (Write.1, Write.2, bool_decide (Write.1 ∉ Protected)).

(** The files after the given calls of [SaveStringToFile]. *)
Definition FilesSaved (Calls : list (FString * FString * bool))
    (Fs : gmap string string) : gmap string string :=
  foldl (λ Fs (Call : FString * FString * bool),
           if Call.2 then <[Call.1.1 := Call.1.2]> Fs else Fs) Fs Calls.

(** * Proofs *)

#[local] Arguments String.append !s1 s2 / : simpl nomatch.

(** ** Strings *)

Lemma append_assoc (a b c : string) : (a +:+ b) +:+ c = a +:+ (b +:+ c).
Proof. induction a; cbn; congruence. Qed.

Lemma append_nil_r (a : string) : a +:+ EmptyString = a.
Proof. induction a; cbn; congruence. Qed.

Lemma append_length (a b : string) :
  String.length (a +:+ b) = (String.length a + String.length b)%nat.
Proof. induction a; cbn; congruence. Qed.

Lemma append_inv_r (a b c : string) : a +:+ c = b +:+ c → a = b.
Proof.
  revert b. induction a as [|x a IH]; intros [|y b] E; cbn in E.
  - done.
  - apply (f_equal String.length) in E. cbn in E. rewrite append_length in E. lia.
  - apply (f_equal String.length) in E. cbn in E. rewrite append_length in E. lia.
  - injection E as -> E. f_equal. by apply IH.
Qed.

Lemma IsEmpty_true S : IsEmpty S = true ↔ S = EmptyString.
Proof. destruct S; cbn; split; congruence. Qed.

(** ** Decimal numbers *)

Lemma string_of_uint_digits d : AllDigits (NilEmpty.string_of_uint d) = true.
Proof. induction d; cbn; done. Qed.

Lemma TakeDigits_app ds rest :
  AllDigits ds = true → StartsWithDigit rest = false →
  TakeDigits (ds +:+ rest) = (ds, rest).
Proof.
  intros Hds Hrest.
  induction ds as [|c ds IH];
    cbn [TakeDigits String.append AllDigits StartsWithDigit] in *.
  - destruct rest as [|c rest]; [done|].
    cbn [TakeDigits StartsWithDigit] in *. by rewrite Hrest.
  - apply andb_true_iff in Hds as [-> Hds]. by rewrite IH.
Qed.

Lemma itoa_nonneg z :
  0 <= z → ∃ c ds, itoa z = String c ds ∧ IsDigit c = true ∧ AllDigits ds = true.
Proof.
  intros Hz. unfold itoa. destruct z as [|p|p]; [| |lia].
  - by exists "0"%char, EmptyString.
  - cbn. pose proof (string_of_uint_digits (Pos.to_uint p)) as Hd.
    pose proof (DecimalPos.Unsigned.to_uint_nonnil p) as Hn.
    destruct (Pos.to_uint p) eqn:E; [done|..];
      cbn in *; eauto.
Qed.

Lemma itoa_neg z :
  z < 0 → ∃ ds, itoa z = String "-" ds ∧ AllDigits ds = true.
Proof.
  intros Hz. unfold itoa. destruct z as [|p|p]; [lia|lia|].
  cbn. pose proof (string_of_uint_digits (Pos.to_uint p)) as Hd.
  destruct (Pos.to_uint p); cbn in *; eauto.
Qed.

Lemma int_of_string_itoa z : NilZero.int_of_string (itoa z) = Some (Z.to_int z).
Proof.
  unfold itoa. apply NilZero.isi; destruct z; cbn; try done.
  - intros [= E]. by apply (DecimalPos.Unsigned.to_uint_nonnil p).
  - intros [= E]. by apply (DecimalPos.Unsigned.to_uint_nonnil p).
Qed.

Lemma ParseNumberToken_itoa z rest :
  StartsWithDigit rest = false →
  ParseNumberToken (itoa z +:+ rest) = Some (RoundToDouble z, rest).
Proof.
  intros Hrest. unfold ParseNumberToken.
  assert (∀ token, itoa z = token →
    (d ← NilZero.int_of_string token; Some (RoundToDouble (Z.of_int d), rest))
    = Some (RoundToDouble z, rest)) as Hconv.
  { intros ? <-. rewrite int_of_string_itoa. cbn. by rewrite DecimalZ.of_to. }
  destruct (Z_lt_le_dec z 0) as [Hz|Hz].
  - destruct (itoa_neg z Hz) as (ds & E & Hds). rewrite E. cbn.
    rewrite (TakeDigits_app _ _ Hds Hrest). by apply Hconv.
  - destruct (itoa_nonneg z Hz) as (c & ds & E & Hc & Hds). rewrite E.
    assert (c ≠ "-"%char) as Hne by (intros ->; done).
    assert (TakeDigits (String c ds +:+ rest) = (String c ds, rest)) as HT.
    { apply TakeDigits_app; [|done]. cbn. by rewrite Hc. }
    cbn [append] in *.
    destruct c as [[] [] [] [] [] [] [] []]; try done; rewrite HT; by apply Hconv.
Qed.

(** ** Escaped strings *)

Lemma ParseStringToken_escaped_char c rest :
  ParseStringToken (EscapeJsonChar c +:+ rest) =
  '(text, after) ← ParseStringToken rest; Some (String c text, after).
Proof.
  destruct c as [[] [] [] [] [] [] [] []]; reflexivity.
Qed.

Lemma ParseStringToken_escaped S rest :
  ParseStringToken (EscapeJsonString S +:+ String DoubleQuote rest)
  = Some (S, rest).
Proof.
  induction S as [|c S IH]; [done|].
  cbn [EscapeJsonString]. rewrite append_assoc, ParseStringToken_escaped_char.
  by rewrite IH.
Qed.

(** ** The manifest text *)

Lemma SkipWhitespace_itoa z rest :
  SkipWhitespace (itoa z +:+ rest) = itoa z +:+ rest.
Proof.
  destruct (Z_lt_le_dec z 0) as [Hz|Hz].
  - destruct (itoa_neg z Hz) as (ds & -> & _). done.
  - destruct (itoa_nonneg z Hz) as (c & ds & -> & Hc & _).
    destruct c as [[] [] [] [] [] [] [] []]; done.
Qed.

Lemma ParseValue_number fuel z rest :
  StartsWithDigit rest = false →
  ParseValue (S fuel) (String " " (itoa z +:+ rest))
  = Some (JsonNumber (RoundToDouble z), rest).
Proof.
  intros Hrest.
  pose proof (ParseNumberToken_itoa z rest Hrest) as HP.
  pose proof (SkipWhitespace_itoa z rest) as HS.
  cbn [ParseValue].
  change (SkipWhitespace (String " " ?x)) with (SkipWhitespace x).
  rewrite HS.
  destruct (Z_lt_le_dec z 0) as [Hz|Hz].
  - destruct (itoa_neg z Hz) as (ds & E & _). rewrite E in *.
    cbn [String.append] in *. rewrite HP. done.
  - destruct (itoa_nonneg z Hz) as (c & ds & E & Hc & _). rewrite E in *.
    cbn [String.append] in *. rewrite HP, Hc.
    destruct c as [[] [] [] [] [] [] [] []]; done.
Qed.

Lemma ParseValue_string fuel S rest :
  ParseValue (Datatypes.S fuel) (String " " (QuotedJsonString S +:+ rest))
  = Some (JsonString S, rest).
Proof.
  unfold QuotedJsonString. cbn [String.append].
  rewrite append_assoc. cbn [String.append ParseValue].
  change (SkipWhitespace (String " " (String DoubleQuote ?x)))
    with (String DoubleQuote x).
  change (("{" =? DoubleQuote)%char) with false.
  change (("[" =? DoubleQuote)%char) with false.
  change ((DoubleQuote =? "{")%char) with false.
  change ((DoubleQuote =? "[")%char) with false.
  change ((DoubleQuote =? DoubleQuote)%char) with true.
  cbv iota. by rewrite ParseStringToken_escaped.
Qed.

Lemma ManifestJson_eq Manifest :
  ManifestJson Manifest =
  String "{" (String LineFeed (String Tab
    (QuotedJsonString "GeneratedTime" +:+ String ":" (String " "
      (itoa (ToUnixTimestamp (GeneratedTime Manifest)) +:+
        String "," (String LineFeed (String Tab
          (QuotedJsonString "ProtoPackageName" +:+ String ":" (String " "
            (QuotedJsonString (ProtoPackageName Manifest) +:+
               String LineFeed "}")))))))))).
Proof.
  unfold ManifestJson, WriteObjectEnd, WriteValue_FString, WriteValue_int64,
    WriteIdentifier, WriteObjectStart, WriteCommaIfNeeded,
    TJsonWriterFactory_Create.
  cbn [Stream IndentLevel PreviousTokenWritten Tabs Nat.pred].
  generalize (itoa (ToUnixTimestamp (GeneratedTime Manifest))) as t.
  generalize (QuotedJsonString (ProtoPackageName Manifest)) as n.
  intros n t.
  change (QuotedJsonString "GeneratedTime")
    with (String DoubleQuote ("GeneratedTime" +:+ String DoubleQuote EmptyString)).
  change (QuotedJsonString "ProtoPackageName")
    with (String DoubleQuote ("ProtoPackageName" +:+ String DoubleQuote EmptyString)).
  repeat (progress (rewrite ?append_assoc; cbn [String.append])). done.
Qed.

Lemma ParseValue_object fuel k rest :
  ParseValue (S fuel)
    (String "{" (String LineFeed (String Tab (QuotedJsonString k +:+ rest))))
  = '(o, after) ←
      ParseMembers fuel (String LineFeed (String Tab (QuotedJsonString k +:+ rest)));
    Some (JsonObject o, after).
Proof. reflexivity. Qed.

Lemma ParseMembers_member fuel k rest :
  ParseMembers (S fuel)
    (String LineFeed (String Tab (QuotedJsonString k +:+ String ":" rest)))
  = '(v, after) ← ParseValue fuel rest;
    match NextTokenIs "," after, NextTokenIs "}" after with
    | Some more, _ =>
        '(o, final) ← ParseMembers fuel more; Some ((k, v) :: o, final)
    | None, Some final => Some ([(k, v)], final)
    | None, None => None
    end.
Proof.
  cbn [ParseMembers].
  change (NextTokenIs DoubleQuote
            (String LineFeed (String Tab (QuotedJsonString k +:+ String ":" rest))))
    with (Some ((EscapeJsonString k +:+ String DoubleQuote EmptyString)
                  +:+ String ":" rest)).
  cbn [mbind option_bind].
  rewrite append_assoc. cbn [String.append].
  rewrite ParseStringToken_escaped. reflexivity.
Qed.

Lemma ParseValue_ManifestJson Manifest fuel :
  ParseValue (S (S (S (S fuel)))) (ManifestJson Manifest)
  = Some (JsonObject (ManifestMembers Manifest), EmptyString).
Proof.
  rewrite ManifestJson_eq.
  rewrite ParseValue_object, ParseMembers_member.
  rewrite ParseValue_number by done.
  cbn [mbind option_bind].
  change (NextTokenIs "," (String "," ?x)) with (Some x). cbv iota.
  rewrite ParseMembers_member, ParseValue_string.
  reflexivity.
Qed.

Lemma ManifestJson_length Manifest :
  ∃ fuel, S (String.length (ManifestJson Manifest)) = S (S (S (S fuel))).
Proof. rewrite ManifestJson_eq. cbn [String.length]. eauto. Qed.

Lemma Deserialize_ManifestJson Manifest :
  Deserialize (ManifestJson Manifest)
  = Some (MakeJsonObject (ManifestMembers Manifest)).
Proof.
  unfold Deserialize.
  destruct (ManifestJson_length Manifest) as [fuel ->].
  by rewrite ParseValue_ManifestJson.
Qed.

Lemma ManifestMembers_time Manifest :
  TryGetNumberField "GeneratedTime" (MakeJsonObject (ManifestMembers Manifest))
  = Some (RoundToDouble (ToUnixTimestamp (GeneratedTime Manifest))).
Proof.
  unfold TryGetNumberField, MakeJsonObject, ManifestMembers. cbn [foldl fst snd].
  rewrite lookup_insert_ne by done. by rewrite lookup_insert_eq.
Qed.

Lemma ManifestMembers_name Manifest :
  TryGetStringField "ProtoPackageName" (MakeJsonObject (ManifestMembers Manifest))
  = Some (ProtoPackageName Manifest).
Proof.
  unfold TryGetStringField, MakeJsonObject, ManifestMembers. cbn [foldl fst snd].
  by rewrite lookup_insert_eq.
Qed.

Lemma wrap64_small z : - 2 ^ 63 <= z < 2 ^ 63 → wrap64 z = z.
Proof.
  intros Hz. unfold wrap64. rewrite Z.mod_small; lia.
Qed.

Lemma RoundToDouble_small z : Z.abs z < 2 ^ 53 → RoundToDouble z = z.
Proof.
  intros Hz. unfold RoundToDouble.
  destruct (Z.eq_dec (Z.abs z) 0) as [E|E].
  - rewrite E. done.
  - assert (Z.log2 (Z.abs z) < 53) by (apply Z.log2_lt_pow2; lia).
    destruct (Z.leb_spec (Z.log2 (Z.abs z) - 52) 0); [done|lia].
Qed.

Lemma ToUnixTimestamp_bounds T :
  ValidDateTime T →
  ToUnixTimestamp T = Z.quot (Ticks T - UnixEpochTicks) TicksPerSecond
  ∧ -62135596800 <= ToUnixTimestamp T <= 253402300799.
Proof.
  unfold ValidDateTime, ToUnixTimestamp, MaxTicks, UnixEpochTicks, TicksPerSecond.
  intros HT. rewrite wrap64_small by lia. split; [done|].
  split.
  - change (-62135596800) with (Z.quot (0 - 621355968000000000) 10000000).
    apply Z.quot_le_mono; lia.
  - change 253402300799
      with (Z.quot (3155378975999999999 - 621355968000000000) 10000000).
    apply Z.quot_le_mono; lia.
Qed.

Lemma FromUnixTimestamp_ToUnixTimestamp T :
  ValidDateTime T →
  let T' := FromUnixTimestamp (DoubleToInt64 (RoundToDouble (ToUnixTimestamp T))) in
  ToUnixTimestamp T' = ToUnixTimestamp T
  ∧ Z.abs (Ticks T' - Ticks T) < TicksPerSecond.
Proof.
  intros HT T'. destruct (ToUnixTimestamp_bounds T HT) as [Eq Hb].
  assert (Ticks T' = UnixEpochTicks + ToUnixTimestamp T * TicksPerSecond) as ET'.
  { unfold T', FromUnixTimestamp, DoubleToInt64. cbn [Ticks].
    rewrite RoundToDouble_small by lia.
    unfold UnixEpochTicks, TicksPerSecond in *.
    rewrite (wrap64_small (ToUnixTimestamp T)) by lia.
    rewrite (wrap64_small (_ * _)) by lia. rewrite wrap64_small; lia. }
  pose proof (Z.quot_rem' (Ticks T - UnixEpochTicks) TicksPerSecond) as Hqr.
  rewrite <- Eq in Hqr.
  assert (Z.abs (Z.rem (Ticks T - UnixEpochTicks) TicksPerSecond) < TicksPerSecond)
    as Hrem.
  { pose proof (Z.rem_bound_abs (Ticks T - UnixEpochTicks) TicksPerSecond).
    unfold TicksPerSecond in *. lia. }
  split; [|lia].
  unfold ToUnixTimestamp at 1. rewrite ET'.
  unfold UnixEpochTicks, TicksPerSecond in *.
  rewrite wrap64_small by lia.
  replace (621355968000000000 + ToUnixTimestamp T * 10000000 - 621355968000000000)
    with (ToUnixTimestamp T * 10000000) by lia.
  apply Z.quot_mul. lia.
Qed.

(** ** Reasoning about [Exec] *)

Ltac exec_unfold :=
  repeat (progress unfold mbind, mret, Exec_bind, Exec_ret, GetWorld, SetWorld,
            GetManager, SetManager, UE_LOG, Emit);
  cbn [fst snd Files Directories WriteProtected Now Uninitialized Trace negb].


Lemma Emit_eq e (St : State) :
  Emit e St =
  (tt, (St.1, {| Files := Files St.2; Directories := Directories St.2;
                 WriteProtected := WriteProtected St.2; Now := Now St.2;
                 Uninitialized := Uninitialized St.2;
                 Trace := Trace St.2 ++ [e] |})).
Proof. by destruct St. Qed.


(** ** The manifest store *)

Lemma SaveStringToFile_eq Content Filename (St : State) :
  SaveStringToFile Content Filename St =
  if bool_decide (Filename ∈ WriteProtected St.2) then
    (false,
     (St.1,
      {| Files := Files St.2; Directories := Directories St.2;
         WriteProtected := WriteProtected St.2; Now := Now St.2;
         Uninitialized := Uninitialized St.2;
         Trace := Trace St.2 ++ [SaveStringToFileCall Filename Content false] |}))
  else
    (true,
     (St.1,
      {| Files := <[Filename := Content]> (Files St.2);
         Directories :=
           list_to_set (DirectoryTree (String.length Filename) (GetPath Filename))
             ∪ Directories St.2;
         WriteProtected := WriteProtected St.2; Now := Now St.2;
         Uninitialized := Uninitialized St.2;
         Trace := Trace St.2 ++ [SaveStringToFileCall Filename Content true] |})).
Proof.
  destruct St as [Mgr W]. unfold SaveStringToFile. exec_unfold.
  by destruct (bool_decide (Filename ∈ WriteProtected W)).
Qed.

(** What [SaveGeneratedManifest] returns: [true] exactly when the directory
    exists and the write fails. *)
Lemma SaveGeneratedManifest_result Manifest Filename Message (St : State) :
  (SaveGeneratedManifest Manifest Filename Message St).1 =
  if bool_decide (GetPath Filename ∈ Directories St.2) then
    if bool_decide (Filename ∈ WriteProtected St.2) then (true, Message)
    else (false, "Unable to save GeneratedManifest: " +:+ Filename)
  else (false, "Unable to find the directory of GeneratedManifest: " +:+ Filename).
Proof.
  destruct St as [Mgr W]. unfold SaveGeneratedManifest, DirectoryExists.
  exec_unfold.
  destruct (bool_decide (GetPath Filename ∈ Directories W)); cbn; [|done].
  rewrite SaveStringToFile_eq. cbn.
  by destruct (bool_decide (Filename ∈ WriteProtected W)).
Qed.

Lemma SaveGeneratedManifest_file Manifest Filename Message (St : State) :
  GetPath Filename ∈ Directories St.2 →
  Filename ∉ WriteProtected St.2 →
  Files (SaveGeneratedManifest Manifest Filename Message St).2.2 !! Filename
  = Some (ManifestJson Manifest).
Proof.
  destruct St as [Mgr W]. cbn [fst snd]. intros HD HW.
  unfold SaveGeneratedManifest, DirectoryExists. exec_unfold.
  rewrite bool_decide_true by done. cbn.
  rewrite SaveStringToFile_eq. cbn. rewrite bool_decide_false by done. cbn.
  apply lookup_insert_eq.
Qed.

(** C2: [SaveGeneratedManifest] is to return ok exactly when the manifest
    file is written, and an error when the file writer fails.  It tests the
    result of [SaveStringToFile] the wrong way round: with the directory of
    the manifest in place it returns [false], with the message of a failed
    save, after the file was written, and [true], with the message
    untouched, when the file writer refuses the file and nothing is
    written. *)
Theorem SaveGeneratedManifest_inverted_result :
  let Written :=
    SaveGeneratedManifest SampleManifest SampleManifestPath EmptyString
      (SampleManager, SampleWorld ["Intermediate/ReplicatorGenerator"] []) in
  let Refused :=
    SaveGeneratedManifest SampleManifest SampleManifestPath EmptyString
      (SampleManager,
       SampleWorld ["Intermediate/ReplicatorGenerator"] [SampleManifestPath]) in
  Written.1 =
    (false,
     "Unable to save GeneratedManifest: Intermediate/ReplicatorGenerator/GeneratedManifest.json")
  ∧ Files Written.2.2 !! SampleManifestPath = Some (ManifestJson SampleManifest)
  ∧ Trace Written.2.2 =
      [SaveStringToFileCall SampleManifestPath (ManifestJson SampleManifest) true]
  ∧ Refused.1 = (true, EmptyString)
  ∧ Files Refused.2.2 !! SampleManifestPath = None
  ∧ Trace Refused.2.2 =
      [SaveStringToFileCall SampleManifestPath (ManifestJson SampleManifest) false].
Proof. vm_compute. done. Qed.

(** [LoadLatestGeneratedManifest]: the three outcomes. *)
Lemma LoadLatestGeneratedManifest_not_found Filename Result Message (St : State) :
  Files St.2 !! Filename = None →
  LoadLatestGeneratedManifest Filename Result Message St
  = ((false, Result, "Unable to load GeneratedManifest: " +:+ Filename), St).
Proof.
  destruct St as [Mgr W]. cbn [fst snd]. intros E.
  unfold LoadLatestGeneratedManifest, LoadFileToString. exec_unfold.
  by rewrite E.
Qed.

Lemma LoadLatestGeneratedManifest_malformed Filename Json Result Message
    (St : State) :
  Files St.2 !! Filename = Some Json →
  Deserialize Json = None →
  LoadLatestGeneratedManifest Filename Result Message St
  = ((false, Result, "GeneratedManifest is malformed: " +:+ Filename), St).
Proof.
  destruct St as [Mgr W]. cbn [fst snd]. intros E EJ.
  unfold LoadLatestGeneratedManifest, LoadFileToString. exec_unfold.
  by rewrite E, EJ.
Qed.

Lemma LoadLatestGeneratedManifest_parsed Filename Json RootObject Result Message
    (St : State) :
  Files St.2 !! Filename = Some Json →
  Deserialize Json = Some RootObject →
  let R := LoadLatestGeneratedManifest Filename Result Message St in
  R.1 =
    (true,
     {| GeneratedTime :=
          FromUnixTimestamp
            (DoubleToInt64 (default (Uninitialized St.2)
                              (TryGetNumberField "GeneratedTime" RootObject)));
        ProtoPackageName :=
          default (ProtoPackageName Result)
            (TryGetStringField "ProtoPackageName" RootObject) |},
     Message)
  ∧ Trace R.2.2 =
      Trace St.2
        ++ (if TryGetNumberField "GeneratedTime" RootObject is Some _ then []
            else [LogLine Warning "Unable to find field 'GeneratedTime'"])
        ++ (if TryGetStringField "ProtoPackageName" RootObject is Some _ then []
            else [LogLine Warning "Unable to find field 'ProtoPackageName'"]).
Proof.
  destruct St as [Mgr W]. cbn [fst snd]. intros E EJ.
  unfold LoadLatestGeneratedManifest, LoadFileToString, UninitializedDouble.
  exec_unfold. rewrite E, EJ.
  destruct (TryGetNumberField "GeneratedTime" RootObject);
    destruct (TryGetStringField "ProtoPackageName" RootObject);
    cbn [fst snd default from_option id Trace app GeneratedTime ProtoPackageName];
    rewrite ?app_nil_r, <- ?app_assoc; done.
Qed.

(** C5: a manifest file that parses but lacks the member [GeneratedTime] is
    to load with that field at a default value.  The load succeeds and logs
    the warning, but the loaded time is the Unix time found in the local
    [double GeneratedTime], which was never assigned: the same file loads
    with two different times under two values of that local. *)
Theorem LoadLatestGeneratedManifest_missing_time_is_indeterminate :
  let Load Garbage :=
    LoadLatestGeneratedManifest SampleManifestPath DefaultManifest EmptyString
      (SampleManager,
       WithUninitialized Garbage
         (WithFile SampleManifestPath NoTimeJson (SampleWorld [] []))) in
  (Load 7).1 =
    (true,
     {| GeneratedTime := {| Ticks := 621355968070000000 |};
        ProtoPackageName := "generatedpb" |}, EmptyString)
  ∧ (Load 1664403201).1 =
    (true,
     {| GeneratedTime := {| Ticks := 638000000010000000 |};
        ProtoPackageName := "generatedpb" |}, EmptyString)
  ∧ Trace (Load 7).2.2 = [LogLine Warning "Unable to find field 'GeneratedTime'"].
Proof. vm_compute. done. Qed.

(** C6: saving a manifest and loading it from the same path gives back its
    package name and its time up to the whole second.  For every manifest
    with a time in the range of [FDateTime], every path whose directory
    exists and which the file writer accepts, and whatever the caller passes
    as [Message] and [Result]: after [SaveGeneratedManifest],
    [LoadLatestGeneratedManifest] returns [true], leaves the message as it
    was, and loads a manifest with the saved [ProtoPackageName], the saved
    Unix timestamp, and a time less than one second away from the saved
    one. *)
Theorem Manifest_save_load_roundtrip Manifest Filename Message Result Message'
    (St : State) :
  ValidDateTime (GeneratedTime Manifest) →
  GetPath Filename ∈ Directories St.2 →
  Filename ∉ WriteProtected St.2 →
  let Saved := (SaveGeneratedManifest Manifest Filename Message St).2 in
  ∃ Loaded,
    (LoadLatestGeneratedManifest Filename Result Message' Saved).1
      = (true, Loaded, Message')
    ∧ ProtoPackageName Loaded = ProtoPackageName Manifest
    ∧ ToUnixTimestamp (GeneratedTime Loaded)
        = ToUnixTimestamp (GeneratedTime Manifest)
    ∧ Z.abs (Ticks (GeneratedTime Loaded) - Ticks (GeneratedTime Manifest))
        < TicksPerSecond.
Proof.
  intros HT HD HW Saved.
  pose proof (SaveGeneratedManifest_file Manifest Filename Message St HD HW) as HF.
  fold Saved in HF.
  destruct (LoadLatestGeneratedManifest_parsed Filename _ _ Result Message' Saved
              HF (Deserialize_ManifestJson Manifest)) as [HR _].
  rewrite ManifestMembers_time, ManifestMembers_name in HR. cbn [default] in HR.
  eexists. split; [exact HR|]. cbn [ProtoPackageName GeneratedTime].
  split; [done|]. by apply FromUnixTimestamp_ToUnixTimestamp.
Qed.

Lemma Manifest_save_load_roundtrip_witness :
  ∃ Loaded,
    (LoadLatestGeneratedManifest SampleManifestPath DefaultManifest EmptyString
       (SaveGeneratedManifest SampleManifest SampleManifestPath EmptyString
          (SampleManager, SampleWorld ["Intermediate/ReplicatorGenerator"] [])).2).1
      = (true, Loaded, EmptyString)
    ∧ ProtoPackageName Loaded = ProtoPackageName SampleManifest
    ∧ ToUnixTimestamp (GeneratedTime Loaded)
        = ToUnixTimestamp (GeneratedTime SampleManifest)
    ∧ Z.abs (Ticks (GeneratedTime Loaded) - Ticks (GeneratedTime SampleManifest))
        < TicksPerSecond.
Proof.
  apply (Manifest_save_load_roundtrip SampleManifest SampleManifestPath
           EmptyString DefaultManifest EmptyString
           (SampleManager, SampleWorld ["Intermediate/ReplicatorGenerator"] [])).
  - unfold ValidDateTime. vm_compute. split; discriminate.
  - vm_compute. set_solver.
  - vm_compute. set_solver.
Defined.

(** ** The generation run *)

Lemma WriteAttempts_app T1 T2 :
  WriteAttempts (T1 ++ T2) = WriteAttempts T1 ++ WriteAttempts T2.
Proof. apply omap_app. Qed.

Section Run.
Context `{ReplicatorGeneratorDefinition}.

Lemma Runs_bind {A B} (F F' F'' : Frame) (m : Exec A) (f : A → Exec B) P1 P2 :
  Runs F F' m P1 →
  (∀ W1 a, P1 W1 a → Runs F' F'' (f a) (λ W2 b, P2 (W1 ++ W2) b)) →
  Runs F F'' (m ≫= f) P2.
Proof.
  intros Hm Hf St HSt. destruct (Hm St HSt) as (HF & W1 & HT & HQ).
  unfold mbind, Exec_bind. destruct (m St) as [a St'] eqn:E.
  cbn [fst snd] in *. destruct (Hf W1 a HQ St' HF) as (HF' & W2 & HT' & HQ').
  split; [done|]. exists (W1 ++ W2). split; [|done].
  rewrite HT', HT. by rewrite app_assoc.
Qed.

Lemma Runs_ret {A} (F : Frame) (a : A) (P : list string → A → Prop) :
  P [] a → Runs F F (mret a) P.
Proof. intros HP St HSt. split; [done|]. exists []. by rewrite app_nil_r. Qed.

Variable F : Frame.

Lemma Runs_UE_LOG Verbosity Text :
  Runs F F (UE_LOG Verbosity Text) (Silent (λ _, True)).
Proof.
  intros [Mgr W] HSt. unfold UE_LOG. rewrite Emit_eq.
  cbn [fst snd Trace]. split; [done|]. exists [].
  rewrite WriteAttempts_app. cbn. by rewrite !app_nil_r.
Qed.

Lemma Runs_FDateTime_Now : Runs F F FDateTime_Now (Silent (λ T, T = FrameNow F)).
Proof.
  intros [Mgr W] HSt. split; [done|]. exists []. cbn. rewrite app_nil_r.
  repeat split. apply HSt.
Qed.

Lemma Runs_GetDefaultModuleDir :
  Runs F F GetDefaultModuleDir (Silent (λ Dir, Dir = FrameModuleDir F)).
Proof.
  intros [Mgr W] ((H1 & H2 & H5) & H3 & H4). cbn [fst snd] in *.
  unfold GetDefaultModuleDir. exec_unfold. unfold InFrame, ManagerInFrame.
  revert H1 H2. unfold StorageDirOf, ModuleDirOf.
  destruct (IsEmpty (DefaultModuleDir Mgr)) eqn:E;
    cbn [fst snd DefaultModuleDir ReplicatorStorageDir CodeGenerator];
    rewrite ?E; intros H1 H2.
  - split.
    + destruct (IsEmpty (NormalizeDirectoryName Utils_GetDefaultModuleDir)) eqn:E';
        rewrite ?E'; done.
    + exists []. by rewrite app_nil_r.
  - split; [done|]. exists []. by rewrite app_nil_r.
Qed.

Lemma Runs_GetReplicatorStorageDir :
  Runs F F GetReplicatorStorageDir (Silent (λ Dir, Dir = FrameStorageDir F)).
Proof.
  intros [Mgr W] HSt. unfold GetReplicatorStorageDir.
  destruct (Runs_GetDefaultModuleDir (Mgr, W) HSt)
    as (((G1&G2&G5)&G3&G4) & W1 & GT & -> & GQ).
  destruct HSt as ((H1 & H2 & H5) & H3 & H4). cbn [fst snd] in *.
  exec_unfold.
  destruct (IsEmpty (ReplicatorStorageDir Mgr)) eqn:E.
  - destruct (GetDefaultModuleDir (Mgr, W)) as [Dir [Mgr' W']] eqn:ED.
    cbn [fst snd] in *. subst Dir.
    assert (ReplicatorStorageDir Mgr' = ReplicatorStorageDir Mgr) as ER.
    { revert ED. unfold GetDefaultModuleDir. exec_unfold.
      destruct (IsEmpty (DefaultModuleDir Mgr)); by intros [= _ <- _]. }
    unfold InFrame, ManagerInFrame, StorageDirOf in *. rewrite E in *.
    rewrite ER, E in G2.
    cbn [fst snd DefaultModuleDir ReplicatorStorageDir CodeGenerator].
    unfold ModuleDirOf at 1 2. cbn [DefaultModuleDir]. fold (ModuleDirOf Mgr').
    rewrite G1 in *.
    split.
    + destruct (IsEmpty (NormalizeDirectoryName
                           (FrameModuleDir F // GenManager_GeneratedCodeDir)));
        repeat split; try done; congruence.
    + exists []. split; [done|]. split; [done|].
      destruct (IsEmpty (NormalizeDirectoryName
                           (FrameModuleDir F // GenManager_GeneratedCodeDir)));
        congruence.
  - cbn [fst snd]. unfold InFrame, ManagerInFrame, StorageDirOf in *.
    cbn [fst snd]. rewrite E in *. split; [done|]. exists [].
    by rewrite app_nil_r.
Qed.

Ltac runs_step L := eapply Runs_bind; [apply L|]; cbv beta.

Lemma Runs_GetDefaultModuleName :
  Runs F F GetDefaultModuleName
    (Silent (λ ModuleName, ModuleName = GetBaseFilename (FrameModuleDir F))).
Proof.
  unfold GetDefaultModuleName.
  runs_step Runs_GetDefaultModuleDir. intros W Dir [-> ->].
  by apply Runs_ret.
Qed.

Lemma Runs_SaveStringToFile Content Filename :
  Runs F F (SaveStringToFile Content Filename)
    (Writes Filename
       (λ bSuccess, bSuccess = bool_decide (Filename ∉ FrameProtected F))).
Proof.
  intros [Mgr W] (HM & H3 & H4). rewrite SaveStringToFile_eq.
  cbn [fst snd] in *. rewrite <- H3. unfold InFrame.
  case_bool_decide; cbn [fst snd Trace WriteProtected Now];
    (split; [done|]); exists [Filename]; rewrite WriteAttempts_app;
    (split; [done|]); (split; [done|]).
  - by rewrite bool_decide_false by auto.
  - by rewrite bool_decide_true by auto.
Qed.

Lemma Runs_WriteCodeFile FilePath Code ResultMessage :
  Runs F F (WriteCodeFile FilePath Code ResultMessage)
    (Writes FilePath (λ R, R.2 = ResultMessage)).
Proof.
  unfold WriteCodeFile.
  runs_step Runs_SaveStringToFile. intros W b [-> _].
  by apply Runs_ret.
Qed.

Lemma Runs_WriteProtoFile FilePath ProtoContent ResultMessage :
  Runs F F (WriteProtoFile FilePath ProtoContent ResultMessage)
    (Writes FilePath (λ R, R.2 = ResultMessage)).
Proof. apply Runs_WriteCodeFile. Qed.

Lemma Runs_WriteReplicatorCodes Codes Message :
  Runs F F (WriteReplicatorCodes Codes Message)
    (λ Written M,
       Written = Codes ≫= ReplicatorCodeFiles (FrameStorageDir F)
       ∧ M = Message).
Proof.
  revert Message. induction Codes as [|Code Codes IH]; intros Message.
  - by apply Runs_ret.
  - cbn [WriteReplicatorCodes].
    runs_step Runs_GetReplicatorStorageDir. intros ? Dir1 [-> ->].
    runs_step Runs_WriteCodeFile. intros ? [b1 M1] [-> E1]. cbn in E1. subst M1.
    runs_step Runs_GetReplicatorStorageDir. intros ? Dir2 [-> ->].
    runs_step Runs_WriteCodeFile. intros ? [b2 M2] [-> E2]. cbn in E2. subst M2.
    runs_step Runs_GetReplicatorStorageDir. intros ? Dir3 [-> ->].
    runs_step Runs_WriteProtoFile. intros ? [b3 M3] [-> E3]. cbn in E3. subst M3.
    runs_step Runs_UE_LOG. intros ? _ [-> _].
    intros St HSt. destruct (IH Message St HSt) as (HF & W & HT & -> & HM).
    split; [done|]. exists (Codes ≫= ReplicatorCodeFiles (FrameStorageDir F)).
    done.
Qed.

Lemma Runs_EnsureReplicatorGeneratedIntermediateDir :
  Runs F F EnsureReplicatorGeneratedIntermediateDir (Silent (λ _, True)).
Proof.
  intros [Mgr W] (HM & H3 & H4).
  unfold EnsureReplicatorGeneratedIntermediateDir, DirectoryExists, MakeDirectory.
  exec_unfold. unfold InFrame.
  destruct (bool_decide (GenManager_IntermediateDir ∈ Directories W));
    cbn [negb fst snd]; [split; [done|]; exists []; by rewrite app_nil_r|].
  destruct (bool_decide (GenManager_IntermediateDir ∈ WriteProtected W));
    cbn [fst snd Trace WriteProtected Now]; (split; [done|]); exists [];
    rewrite WriteAttempts_app; cbn; by rewrite !app_nil_r.
Qed.

Lemma Runs_DirectoryExists Path :
  Runs F F (DirectoryExists Path) (Silent (λ _, True)).
Proof.
  intros [Mgr W] HSt. unfold DirectoryExists. exec_unfold.
  split; [done|]. exists []. by rewrite app_nil_r.
Qed.

Lemma Runs_SaveGeneratedManifest Manifest Filename Message :
  Runs F F (SaveGeneratedManifest Manifest Filename Message)
    (ManifestSaved F Filename).
Proof.
  unfold SaveGeneratedManifest.
  runs_step Runs_DirectoryExists. intros ? bExists [-> _].
  destruct bExists; cbn [negb].
  - runs_step Runs_SaveStringToFile. intros ? bSaved [-> ->].
    case_bool_decide as HP; apply Runs_ret; unfold ManifestSaved; cbn [app fst].
    + split; [by right|done].
    + split; [by right|]. intros _. split; [done|].
      by destruct (decide (Filename ∈ FrameProtected F)).
  - apply Runs_ret. split; [by left|done].
Qed.

Lemma Runs_SaveGeneratedManifest_Default Manifest Message :
  Runs F F (SaveGeneratedManifest_Default Manifest Message)
    (ManifestSaved F GenManager_GeneratedManifestFilePath).
Proof.
  unfold SaveGeneratedManifest_Default.
  runs_step Runs_EnsureReplicatorGeneratedIntermediateDir. intros ? _ [-> _].
  apply Runs_SaveGeneratedManifest.
Qed.
End Run.

Section GeneratedReplicators.
Context `{ReplicatorGeneratorDefinition}.
Variable CodeGenerator_Generate :
  list UClass → string → string → string → FGeneratedCodeBundle
  → FReplicatorCodeGenerator
  → (bool * FGeneratedCodeBundle) * FReplicatorCodeGenerator.

Ltac runs_step L := eapply Runs_bind; [apply L|]; cbv beta.

Lemma Runs_GetManager F :
  Runs F F GetManager (Silent (ManagerInFrame F)).
Proof.
  intros [Mgr W] HSt. split; [done|]. exists []. cbn. rewrite app_nil_r.
  repeat split; apply HSt.
Qed.

Lemma Runs_SetManager F F' Mgr :
  ManagerInFrame F' Mgr →
  FrameProtected F' = FrameProtected F →
  FrameNow F' = FrameNow F →
  Runs F F' (SetManager Mgr) (Silent (λ _, True)).
Proof.
  intros HM HP HN [Mgr0 W] (_ & H3 & H4). unfold SetManager.
  cbn [fst snd] in *. split.
  - split; [done|]. cbn [fst snd]. split; congruence.
  - exists []. cbn. by rewrite app_nil_r.
Qed.

Lemma Runs_GeneratedReplicators F TargetClasses GoPackageImportPathPrefix :
  Runs F (FrameAfterGenerate CodeGenerator_Generate F TargetClasses GoPackageImportPathPrefix)
    (GeneratedReplicators CodeGenerator_Generate TargetClasses
       GoPackageImportPathPrefix)
    (λ Written bResult,
       ∃ Attempt,
         Written =
           ArtifactFiles (FrameStorageDir F)
             (GetBaseFilename (FrameModuleDir F))
             (BundleOf CodeGenerator_Generate F TargetClasses GoPackageImportPathPrefix)
           ++ Attempt
         ∧ (Attempt = [] ∨ Attempt = [GenManager_GeneratedManifestFilePath])
         ∧ (bResult = false →
            Attempt = [GenManager_GeneratedManifestFilePath]
            ∧ GenManager_GeneratedManifestFilePath ∈ FrameProtected F)).
Proof.
  unfold GeneratedReplicators, BundleOf.
  set (F' := FrameAfterGenerate CodeGenerator_Generate F TargetClasses GoPackageImportPathPrefix).
  runs_step Runs_UE_LOG. intros ? _ [-> _].
  runs_step Runs_GetDefaultModuleDir. intros ? ModuleDir [-> ->].
  runs_step Runs_GetManager. intros ? Mgr [-> (HM1 & HM2 & HM3)].
  rewrite HM3.
  assert (F' = FrameAfterGenerate CodeGenerator_Generate F TargetClasses GoPackageImportPathPrefix)
    as EF' by done.
  unfold FrameAfterGenerate in EF'.
  destruct (CodeGenerator_Generate TargetClasses (FrameModuleDir F)
              GetDefaultProtoPackageName
              (GoPackageImportPathPrefix +:+ GetDefaultProtoPackageName)
              EmptyCodeBundle (FrameGenerator F))
    as [[bGenerated Bundle] Generator].
  cbn [fst snd] in *.
  eapply (Runs_bind F F' F').
  { apply Runs_SetManager; subst F'; [|done|done].
    unfold ManagerInFrame, ModuleDirOf, StorageDirOf, ModuleDirOf in *.
    cbn [DefaultModuleDir ReplicatorStorageDir CodeGenerator
         FrameModuleDir FrameStorageDir FrameGenerator].
    rewrite EF'. done. }
  cbv beta. intros ? _ [-> _].
  assert (FrameStorageDir F' = FrameStorageDir F) as ES by by subst F'.
  assert (FrameModuleDir F' = FrameModuleDir F) as EM by by subst F'.
  assert (FrameProtected F' = FrameProtected F) as EP by by subst F'.
  clearbody F'.
  runs_step Runs_GetReplicatorStorageDir. intros ? Dir [-> ->].
  runs_step Runs_WriteCodeFile. intros ? [b1 M1] [-> E1]. cbn in E1. subst M1.
  runs_step Runs_GetReplicatorStorageDir. intros ? Dir [-> ->].
  runs_step Runs_WriteCodeFile. intros ? [b2 M2] [-> E2]. cbn in E2. subst M2.
  runs_step Runs_WriteReplicatorCodes. intros ? M3 [-> ->].
  runs_step Runs_GetReplicatorStorageDir. intros ? Dir [-> ->].
  runs_step Runs_WriteCodeFile. intros ? [b4 M4] [-> E4]. cbn in E4. subst M4.
  runs_step Runs_GetReplicatorStorageDir. intros ? Dir [-> ->].
  runs_step Runs_WriteCodeFile. intros ? [b5 M5] [-> E5]. cbn in E5. subst M5.
  runs_step Runs_GetReplicatorStorageDir. intros ? Dir [-> ->].
  runs_step Runs_WriteProtoFile. intros ? [b6 M6] [-> E6]. cbn in E6. subst M6.
  runs_step Runs_GetDefaultModuleName. intros ? ModuleName [-> ->].
  runs_step Runs_GetReplicatorStorageDir. intros ? Dir [-> ->].
  runs_step Runs_WriteCodeFile. intros ? [b7 M7] [-> E7]. cbn in E7. subst M7.
  runs_step Runs_GetReplicatorStorageDir. intros ? Dir [-> ->].
  runs_step Runs_WriteProtoFile. intros ? [b8 M8] [-> E8]. cbn in E8. subst M8.
  runs_step Runs_UE_LOG. intros ? _ [-> _].
  runs_step Runs_FDateTime_Now. intros ? Time [-> _].
  runs_step Runs_SaveGeneratedManifest_Default.
  intros Attempt [bResult Message] [HA HR]. cbn [fst] in HR.
  rewrite ES, EM, EP in *.
  destruct bResult.
  - runs_step Runs_UE_LOG. intros ? _ [-> _]. apply Runs_ret.
    exists Attempt. split.
    + unfold ArtifactFiles. cbn [app]. rewrite ?app_nil_r, <- ?app_assoc. done.
    + destruct (HR eq_refl) as [-> ?]. split; [by right|done].
  - apply Runs_ret. exists Attempt. split.
    + unfold ArtifactFiles. cbn [app]. rewrite ?app_nil_r, <- ?app_assoc. done.
    + split; [done|]. intros [=].
Qed.
End GeneratedReplicators.

(** C1: the run is to fail exactly when the assembly of the bundle fails or
    the manifest cannot be saved.  [GeneratedReplicators] does not look at
    what [Generate] returns: with a generator that returns [false] the run
    saves a manifest and returns [true].  And when the directory of the
    manifest can neither be found nor created, so that
    [SaveGeneratedManifest] writes nothing, the run returns [true] as well,
    after handing every artifact to the file writer. *)
Theorem GeneratedReplicators_succeeds_when_assembly_fails :
  let Failed :=
    GeneratedReplicators (H := SampleDefinition) FailingGenerate [Foo]
      "example.com/" (SampleManager, SampleWorld [] []) in
  let Unsaved :=
    GeneratedReplicators (H := SampleDefinition) EmptyGenerate []
      "example.com/"
      (SampleManager, SampleWorld [] ["Intermediate/ReplicatorGenerator"]) in
  (FailingGenerate [Foo] "Project/Source/Game" "generatedpb"
     "example.com/generatedpb" EmptyCodeBundle SampleGenerator).1.1 = false
  ∧ Failed.1 = true
  ∧ Files Failed.2.2 !! SampleManifestPath = Some (ManifestJson SampleManifest)
  ∧ Unsaved.1 = true
  ∧ Files Unsaved.2.2 !! SampleManifestPath = None
  ∧ WriteAttempts (Trace Unsaved.2.2)
      = ArtifactFiles (H := SampleDefinition)
          "Project/Source/Game/ChanneldGenerated" "Game" EmptyCodeBundle.
Proof. vm_compute. done. Qed.

(** C7: every artifact is to be written whatever happened to the earlier
    ones, the first write error is to be recorded in the message of the run,
    and the manifest is to be saved after all of them.  [WriteCodeFile]
    never assigns [ResultMessage]: when the first artifact cannot be
    written, it returns [false] and the message it was given.  The run then
    still hands every artifact to the file writer and the manifest after
    them, but its message stays empty: the only line that prints it, logged
    when the manifest write fails in its turn, ends with an empty
    message. *)
Theorem GeneratedReplicators_drops_write_errors :
  let St :=
    (SampleManager,
     SampleWorld ["Intermediate/ReplicatorGenerator"]
       [SampleTypesHeadPath; SampleManifestPath]) in
  let Run :=
    GeneratedReplicators (H := SampleDefinition) EmptyGenerate []
      "example.com/" St in
  (WriteCodeFile SampleTypesHeadPath EmptyString EmptyString St).1
    = (false, EmptyString)
  ∧ Run.1 = false
  ∧ WriteAttempts (Trace Run.2.2)
      = ArtifactFiles (H := SampleDefinition)
          "Project/Source/Game/ChanneldGenerated" "Game" EmptyCodeBundle
          ++ [SampleManifestPath]
  ∧ Trace Run.2.2 !! 1%nat
      = Some (SaveStringToFileCall SampleTypesHeadPath EmptyString false)
  ∧ last (Trace Run.2.2)
      = Some (LogLine Error
                "Failed to save the generated manifest file, error message: ").
Proof. vm_compute. done. Qed.

(** ** Removal of generated files *)

Section Removal.
Context `{ReplicatorGeneratorDefinition}.

End Removal.

Example GeneratedFilesOf_Foo :
  GeneratedFilesOf (H := SampleDefinition) "Foo"
  = [ "ChanneldFooReplicator.cpp"; "ChanneldFooReplicator.h"; "Foo.proto";
      "Foo.pb.h"; "Foo.pb.cpp" ]%string.
Proof. reflexivity. Qed.

(** ** The file name pattern *)

Lemma ascii_eqb_true (c d : ascii) : (c =? d)%char = true ↔ c = d.
Proof. apply Ascii.eqb_eq. Qed.

Lemma StripPrefix_Some Prefix S rest :
  StripPrefix Prefix S = Some rest ↔ S = Prefix +:+ rest.
Proof.
  revert S. induction Prefix as [|p Prefix IH]; intros S; cbn.
  - split; congruence.
  - destruct S as [|c S]; [done|].
    destruct (Ascii.eqb_spec p c) as [->|Hne].
    + rewrite IH. split; congruence.
    + split; congruence.
Qed.

Lemma StripSuffix_Some Suffix S N :
  StripSuffix Suffix S = Some N ↔ S = N +:+ Suffix.
Proof.
  revert N. induction S as [|c S IH]; intros N; cbn [StripSuffix].
  - case_bool_decide as E.
    + subst Suffix. split.
      * by intros [= <-].
      * intros E. destruct N; [done|discriminate].
    + split; [done|]. intros E'. destruct N; cbn in E'; [done|discriminate].
  - case_bool_decide as E.
    + subst Suffix. split.
      * by intros [= <-].
      * intros E. f_equal. symmetry. apply (append_inv_r _ _ (String c S)).
        by rewrite <- E.
    + destruct (StripSuffix Suffix S) as [N'|] eqn:EN; cbn.
      * pose proof (proj1 (IH N') eq_refl) as ->. split.
        -- by intros [= <-].
        -- intros E'. destruct N as [|d N]; cbn in E'; [done|].
           injection E' as -> E'. apply append_inv_r in E'. by subst.
      * split; [done|]. intros E'.
        destruct N as [|d N]; cbn in E'; [done|].
        injection E' as -> E'. by apply IH in E'.
Qed.

Lemma TemplateClassName_Some HeadFile ClassName :
  TemplateClassName HeadFile = Some ClassName
  ↔ HeadFile = ReplicatorHeadFileName ClassName ∧ IsWordName ClassName = true.
Proof.
  unfold TemplateClassName, ReplicatorHeadFileName. split.
  - intros E.
    destruct (StripPrefix "Channeld" HeadFile) as [rest|] eqn:E1; [|done].
    cbn [mbind option_bind] in E.
    destruct (StripSuffix "Replicator.h" rest) as [N|] eqn:E2; [|done].
    cbn [mbind option_bind] in E.
    destruct (IsWordName N) eqn:E3; [|done]. injection E as ->.
    apply StripPrefix_Some in E1. apply StripSuffix_Some in E2. by subst.
  - intros [-> HW].
    rewrite (proj2 (StripPrefix_Some "Channeld" _ (ClassName +:+ "Replicator.h")))
      by done.
    cbn [mbind option_bind].
    rewrite (proj2 (StripSuffix_Some "Replicator.h" _ ClassName)) by done.
    cbn [mbind option_bind]. by rewrite HW.
Qed.

Lemma MatchHere_literal_end Literal bAtStart Input Capture :
  MatchHere (RegexLiteral Literal ++ [RegexEnd]) bAtStart Input Capture
  = if bool_decide (Input = Literal) then Some Capture else None.
Proof.
  revert bAtStart Input.
  induction Literal as [|c Literal IH]; intros bAtStart Input; cbn.
  - destruct Input; by cbn.
  - destruct Input as [|d Input]; [done|].
    destruct (Ascii.eqb_spec c d) as [->|Hne].
    + rewrite IH. repeat case_bool_decide; congruence.
    + rewrite bool_decide_false; congruence.
Qed.

Lemma MatchHere_literal Literal c Pattern bAtStart Input Capture :
  MatchHere (RegexLiteral (String c Literal) ++ Pattern) bAtStart Input Capture
  = rest ← StripPrefix (String c Literal) Input;
    MatchHere Pattern false rest Capture.
Proof.
  revert c bAtStart Input.
  induction Literal as [|c' Literal IH]; intros c bAtStart Input.
  - cbn. destruct Input as [|d Input]; [done|]. by destruct (c =? d)%char.
  - cbn [RegexLiteral app MatchHere StripPrefix].
    destruct Input as [|d Input]; [done|].
    destruct (c =? d)%char; [|done].
    apply (IH c' false Input).
Qed.

Lemma GreedyWordPlus_suffix Taken :
  GreedyWordPlus AfterCapture "Replicator.h" Taken = None.
Proof. reflexivity. Qed.

Lemma GreedyWordPlus_AfterCapture Input Taken :
  GreedyWordPlus AfterCapture Input Taken
  = ClassName ← StripSuffix "Replicator.h" Input;
    if IsWordName ClassName then Some (Some (Taken +:+ ClassName)) else None.
Proof.
  revert Taken. induction Input as [|d Input IH]; intros Taken.
  - reflexivity.
  - cbn [GreedyWordPlus StripSuffix].
    case_bool_decide as E.
    { injection E as -> ->. reflexivity. }
    rewrite IH. unfold AfterCapture. rewrite MatchHere_literal_end.
    destruct (StripSuffix "Replicator.h" Input) as [N|] eqn:EN;
      cbn [mbind option_bind fmap option_fmap option_map].
    + apply StripSuffix_Some in EN. subst Input.
      unfold IsWordName. cbn [IsEmpty negb andb AllWordChars].
      destruct (IsWordChar d); cbn [andb]; [|by destruct N].
      destruct N as [|n N]; cbn [IsEmpty negb andb AllWordChars].
      * by rewrite bool_decide_true.
      * rewrite bool_decide_false.
        2:{ intros E'. apply (f_equal String.length) in E'. cbn in E'.
            rewrite append_length in E'. cbn in E'. lia. }
        destruct (IsWordChar n && AllWordChars N); [|done].
        by rewrite append_assoc.
    + rewrite bool_decide_false.
      2:{ intros ->. by vm_compute in EN. }
      by destruct (IsWordChar d).
Qed.

Lemma FindFrom_anchored Pattern Input :
  FindFrom (RegexStart :: Pattern) false Input = None.
Proof. induction Input; cbn; done. Qed.

Lemma FindNext_MatherPatter HeadFile :
  FindNext MatherPatter HeadFile = Some <$> TemplateClassName HeadFile.
Proof.
  assert (FindNext MatherPatter HeadFile
          = MatchHere MatherPatter true HeadFile None) as ->.
  { unfold FindNext. destruct HeadFile; cbn [FindFrom].
    - by destruct (MatchHere MatherPatter true "" None).
    - destruct (MatchHere MatherPatter true _ None); [done|].
      apply FindFrom_anchored. }
  change MatherPatter
    with (RegexStart ::
            (RegexLiteral "Channeld" ++
               RegexCaptureWordPlus :: (RegexLiteral "Replicator.h" ++ [RegexEnd]))).
  cbn [MatchHere]. rewrite MatchHere_literal.
  unfold TemplateClassName.
  destruct (StripPrefix "Channeld" HeadFile) as [rest|];
    cbn [mbind option_bind fmap option_map]; [|done].
  cbn [MatchHere].
  change (GreedyWordPlus _ rest EmptyString)
    with (GreedyWordPlus AfterCapture rest EmptyString).
  rewrite GreedyWordPlus_AfterCapture.
  destruct (StripSuffix "Replicator.h" rest) as [N|];
    cbn [mbind option_bind fmap option_map]; [|done].
  by destruct (IsWordName N).
Qed.

Lemma CaptureTargetClasses_omap HeadFiles :
  CaptureTargetClasses HeadFiles = omap TemplateClassName HeadFiles.
Proof.
  induction HeadFiles as [|HeadFile HeadFiles IH]; [done|].
  cbn [CaptureTargetClasses omap list_omap]. rewrite FindNext_MatherPatter, IH.
  by destruct (TemplateClassName HeadFile).
Qed.

Section Enumeration.
Context `{ReplicatorGeneratorDefinition}.

Lemma GetDefaultModuleDir_world St : (GetDefaultModuleDir St).2.2 = St.2.
Proof.
  destruct St as [Mgr W]. unfold GetDefaultModuleDir. exec_unfold.
  by destruct (IsEmpty (DefaultModuleDir Mgr)).
Qed.

Lemma GetReplicatorStorageDir_world St :
  (GetReplicatorStorageDir St).2.2 = St.2.
Proof.
  destruct St as [Mgr W]. unfold GetReplicatorStorageDir. exec_unfold.
  destruct (IsEmpty (ReplicatorStorageDir Mgr)); [|done].
  pose proof (GetDefaultModuleDir_world (Mgr, W)) as HW.
  by destruct (GetDefaultModuleDir (Mgr, W)) as [Dir [Mgr' W']].
Qed.

Lemma InFrame_FrameOf St : InFrame (FrameOf St) St.
Proof. by destruct St. Qed.

Lemma FindFiles_world Directory FileExtension Mgr Mgr' W :
  (FindFiles Directory FileExtension (Mgr, W)).1
  = (FindFiles Directory FileExtension (Mgr', W)).1.
Proof. done. Qed.

(** C10: [GetGeneratedTargetClasses] returns, in the order of the header
    files that [FindFiles] lists in the storage directory, the class name of
    every file name that has the form of the template, and nothing for the
    others: a file name contributes [ClassName] exactly when it is
    [Channeld], then [ClassName], then [Replicator.h], with [ClassName] one
    or more word characters. *)
Theorem GetGeneratedTargetClasses_template (St : State) :
  (GetGeneratedTargetClasses St).1
    = omap TemplateClassName
        (FindFiles (StorageDirOf St.1) CodeGen_HeadFileExtension St).1
  ∧ ∀ HeadFile ClassName,
      TemplateClassName HeadFile = Some ClassName
      ↔ HeadFile = ReplicatorHeadFileName ClassName
        ∧ IsWordName ClassName = true.
Proof.
  split; [|apply TemplateClassName_Some].
  unfold GetGeneratedTargetClasses.
  destruct (Runs_GetReplicatorStorageDir (FrameOf St) St (InFrame_FrameOf St))
    as (_ & ? & _ & _ & HD).
  pose proof (GetReplicatorStorageDir_world St) as HW.
  unfold mbind, Exec_bind.
  destruct (GetReplicatorStorageDir St) as [Dir [Mgr' W']].
  cbn [fst snd FrameStorageDir FrameOf] in *. subst Dir W'.
  destruct St as [Mgr W]. cbn [fst snd].
  rewrite (FindFiles_world _ _ Mgr Mgr').
  destruct (FindFiles (StorageDirOf Mgr) CodeGen_HeadFileExtension (Mgr', W))
    as [HeadFiles St'].
  cbn [fst snd mret Exec_ret]. unfold mret, Exec_ret. cbn [fst].
  apply CaptureTargetClasses_omap.
Qed.
End Enumeration.

(** ** The ignore lists *)

Lemma EqualsIgnoreCase_refl S : EqualsIgnoreCase S S = true.
Proof.
  induction S as [|c S IH]; [done|]. cbn. by rewrite Ascii.eqb_refl, IH.
Qed.

(** A class whose path name is in [IgnoreActorClassPaths] is ignored, and so
    is one whose path name differs from an entry in the case of letters. *)
Lemma IsIgnoredActor_path Mgr TargetClass :
  PathName TargetClass ∈ IgnoreActorClassPaths Mgr →
  IsIgnoredActor Mgr TargetClass = true.
Proof.
  intros HP. unfold IsIgnoredActor. apply orb_true_iff. right.
  apply existsb_exists. exists (PathName TargetClass).
  split; [by apply list_elem_of_In|apply EqualsIgnoreCase_refl].
Qed.

Example IsIgnoredActor_ignores_case :
  IsIgnoredActor SampleManager
    {| Name := "Hidden"; PrefixCPP := "A"; PathName := "/script/game.hidden";
       PackagePathName := "/script/game" |} = true
  ∧ IsIgnoredActor SampleManager Foo = false.
Proof. split; reflexivity. Qed.

(** * Further properties *)

(** ** The directories of the manager *)

Section Getters.
Context `{ReplicatorGeneratorDefinition}.

Lemma GetDefaultModuleDir_eq (St : State) :
  GetDefaultModuleDir St = (ModuleDirOf St.1, (CacheModuleDir St.1, St.2)).
Proof.
  destruct St as [Mgr W]. unfold GetDefaultModuleDir, CacheModuleDir, ModuleDirOf.
  exec_unfold.
  destruct (IsEmpty (DefaultModuleDir Mgr)) eqn:E; cbn; [done|].
  by destruct Mgr.
Qed.

Lemma ModuleDirOf_CacheModuleDir Mgr :
  ModuleDirOf (CacheModuleDir Mgr) = ModuleDirOf Mgr.
Proof.
  unfold CacheModuleDir, ModuleDirOf at 1. cbn [DefaultModuleDir].
  destruct (IsEmpty (ModuleDirOf Mgr)) eqn:E; [|done].
  unfold ModuleDirOf in *.
  destruct (IsEmpty (DefaultModuleDir Mgr)) eqn:E0; [done|].
  congruence.
Qed.

Lemma CacheModuleDir_idemp Mgr :
  CacheModuleDir (CacheModuleDir Mgr) = CacheModuleDir Mgr.
Proof.
  unfold CacheModuleDir at 1. rewrite ModuleDirOf_CacheModuleDir. done.
Qed.

Lemma GetReplicatorStorageDir_eq (St : State) :
  GetReplicatorStorageDir St = (StorageDirOf St.1, (CacheStorageDir St.1, St.2)).
Proof.
  destruct St as [Mgr W]. unfold GetReplicatorStorageDir.
  unfold mbind at 1, Exec_bind at 1, GetManager at 1. cbn [fst snd].
  unfold CacheStorageDir, StorageDirOf.
  destruct (IsEmpty (ReplicatorStorageDir Mgr)) eqn:E.
  - unfold mbind at 1, Exec_bind at 1.
    unfold mbind at 1, Exec_bind at 1.
    rewrite GetDefaultModuleDir_eq. cbn [fst snd].
    exec_unfold. cbn. done.
  - exec_unfold. done.
Qed.

Lemma ModuleDirOf_CacheStorageDir Mgr :
  ModuleDirOf (CacheStorageDir Mgr) = ModuleDirOf Mgr.
Proof.
  unfold CacheStorageDir. destruct (IsEmpty (ReplicatorStorageDir Mgr)); [|done].
  apply (ModuleDirOf_CacheModuleDir Mgr).
Qed.

Lemma StorageDirOf_CacheStorageDir Mgr :
  StorageDirOf (CacheStorageDir Mgr) = StorageDirOf Mgr.
Proof.
  unfold CacheStorageDir.
  destruct (IsEmpty (ReplicatorStorageDir Mgr)) eqn:E; [|done].
  unfold StorageDirOf at 1. cbn [ReplicatorStorageDir].
  destruct (IsEmpty (StorageDirOf Mgr)) eqn:E'; [|done].
  apply IsEmpty_true in E'. rewrite E'.
  pose proof (ModuleDirOf_CacheModuleDir Mgr) as EM.
  unfold CacheModuleDir in EM.
  unfold ModuleDirOf at 1. cbn [DefaultModuleDir].
  unfold ModuleDirOf at 1 in EM. cbn [DefaultModuleDir] in EM. rewrite EM.
  unfold StorageDirOf in E'. by rewrite E in E'.
Qed.

Lemma StorageDirOf_CacheModuleDir Mgr :
  StorageDirOf (CacheModuleDir Mgr) = StorageDirOf Mgr.
Proof.
  unfold StorageDirOf. cbn [CacheModuleDir ReplicatorStorageDir].
  by rewrite ModuleDirOf_CacheModuleDir.
Qed.

Lemma CacheStorageDir_idemp Mgr :
  CacheStorageDir (CacheStorageDir Mgr) = CacheStorageDir Mgr.
Proof.
  unfold CacheStorageDir at 1.
  destruct (IsEmpty (ReplicatorStorageDir (CacheStorageDir Mgr))) eqn:E; [|done].
  rewrite ModuleDirOf_CacheStorageDir, StorageDirOf_CacheStorageDir.
  unfold CacheStorageDir in *.
  destruct (IsEmpty (ReplicatorStorageDir Mgr)) eqn:E'; cbn; [done|].
  congruence.
Qed.

(** X1: [GetDefaultModuleDir] returns the cached module directory or, when
    the cache is empty, the normalized default module directory, which it
    stores in the cache; it changes nothing else.  A second call returns the
    same directory and changes nothing, and with a filled cache the first
    call changes nothing either. *)
Theorem GetDefaultModuleDir_caches (St : State) :
  let Cached := (CacheModuleDir St.1, St.2) in
  GetDefaultModuleDir St = (ModuleDirOf St.1, Cached)
  ∧ GetDefaultModuleDir Cached = (ModuleDirOf St.1, Cached)
  ∧ (IsEmpty (DefaultModuleDir St.1) = false → Cached = St).
Proof.
  cbv zeta. split; [apply GetDefaultModuleDir_eq|]. split.
  - rewrite GetDefaultModuleDir_eq. cbn [fst snd].
    by rewrite ModuleDirOf_CacheModuleDir, CacheModuleDir_idemp.
  - destruct St as [Mgr W]. cbn [fst snd]. intros E. f_equal.
    unfold CacheModuleDir, ModuleDirOf. rewrite E. by destruct Mgr.
Qed.

(** X2: [GetReplicatorStorageDir] returns the cached storage directory or,
    when the cache is empty, the normalized join of the module directory and
    [GenManager_GeneratedCodeDir], which it stores in the cache; it leaves
    the world alone.  A second call returns the same directory and changes
    nothing, and [GetDefaultModuleDir] returns after the call what it
    returned before. *)
Theorem GetReplicatorStorageDir_caches (St : State) :
  let Cached := (CacheStorageDir St.1, St.2) in
  GetReplicatorStorageDir St = (StorageDirOf St.1, Cached)
  ∧ GetReplicatorStorageDir Cached = (StorageDirOf St.1, Cached)
  ∧ (GetDefaultModuleDir Cached).1 = (GetDefaultModuleDir St).1
  ∧ (IsEmpty (ReplicatorStorageDir St.1) = true →
     StorageDirOf St.1
     = NormalizeDirectoryName
         ((GetDefaultModuleDir St).1 // GenManager_GeneratedCodeDir)).
Proof.
  cbv zeta. split; [apply GetReplicatorStorageDir_eq|]. split; [|split].
  - rewrite GetReplicatorStorageDir_eq. cbn [fst snd].
    by rewrite StorageDirOf_CacheStorageDir, CacheStorageDir_idemp.
  - rewrite !GetDefaultModuleDir_eq. cbn [fst snd].
    apply ModuleDirOf_CacheStorageDir.
  - intros E. rewrite GetDefaultModuleDir_eq. cbn [fst].
    unfold StorageDirOf. by rewrite E.
Qed.
End Getters.

(** ** The manifest store: further properties *)

Lemma SaveGeneratedManifest_eq Manifest Filename Message (St : State) :
  SaveGeneratedManifest Manifest Filename Message St =
  if bool_decide (GetPath Filename ∈ Directories St.2) then
    let R := SaveStringToFile (ManifestJson Manifest) Filename St in
    (if R.1 then (false, "Unable to save GeneratedManifest: " +:+ Filename)
     else (true, Message), R.2)
  else
    ((false, "Unable to find the directory of GeneratedManifest: " +:+ Filename),
     St).
Proof.
  destruct St as [Mgr W]. unfold SaveGeneratedManifest, DirectoryExists.
  exec_unfold.
  destruct (bool_decide (GetPath Filename ∈ Directories W)); cbn [negb]; [|done].
  cbv zeta.
  destruct (SaveStringToFile (ManifestJson Manifest) Filename (Mgr, W))
    as [[] St']; done.
Qed.

(** X3: when the directory of [Filename] does not exist,
    [SaveGeneratedManifest] returns [false] with the message that names the
    file, and changes nothing: no file is written and nothing is logged. *)
Theorem SaveGeneratedManifest_directory_missing Manifest Filename Message
    (St : State) :
  GetPath Filename ∉ Directories St.2 →
  SaveGeneratedManifest Manifest Filename Message St
  = ((false, "Unable to find the directory of GeneratedManifest: " +:+ Filename),
     St).
Proof.
  intros HD. rewrite SaveGeneratedManifest_eq. by rewrite bool_decide_false.
Qed.

Lemma SaveGeneratedManifest_directory_missing_witness :
  SaveGeneratedManifest SampleManifest SampleManifestPath EmptyString
    (SampleManager, SampleWorld [] [])
  = ((false,
      "Unable to find the directory of GeneratedManifest: "
        +:+ SampleManifestPath),
     (SampleManager, SampleWorld [] [])).
Proof.
  apply (SaveGeneratedManifest_directory_missing SampleManifest
           SampleManifestPath EmptyString (SampleManager, SampleWorld [] [])).
  vm_compute. set_solver.
Defined.

(** X4: [SaveGeneratedManifest] leaves the manager and every file other
    than [Filename] as they were.  It logs nothing and deletes nothing: all
    it adds to the trace is one call of the file writer, for [Filename] with
    the JSON text of the manifest, and it makes that call exactly when the
    directory of [Filename] exists.  When it returns [true], the message is
    the one the caller passed. *)
Theorem SaveGeneratedManifest_touches_one_file Manifest Filename Message
    (St : State) :
  let R := SaveGeneratedManifest Manifest Filename Message St in
  R.2.1 = St.1
  ∧ (∀ Other, Other ≠ Filename → Files R.2.2 !! Other = Files St.2 !! Other)
  ∧ (∃ Calls,
       Trace R.2.2 = Trace St.2 ++ Calls
       ∧ if bool_decide (GetPath Filename ∈ Directories St.2)
         then ∃ bSaved,
                Calls = [SaveStringToFileCall Filename (ManifestJson Manifest)
                           bSaved]
         else Calls = [])
  ∧ (R.1.1 = true → R.1.2 = Message).
Proof.
  cbv zeta. rewrite SaveGeneratedManifest_eq.
  case_bool_decide as HD; cbv zeta.
  2:{ split; [done|]. split; [done|]. split; [|done].
      exists []. by rewrite app_nil_r. }
  rewrite SaveStringToFile_eq.
  case_bool_decide as HW; cbn [fst snd Files Trace].
  - split; [done|]. split; [done|]. split; [|done].
    eexists. split; [done|]. by eexists.
  - split; [done|]. split; [|split; [|done]].
    + intros Other HO. by rewrite lookup_insert_ne.
    + eexists. split; [done|]. by eexists.
Qed.

Lemma LoadLatestGeneratedManifest_state Filename Result Message (St : State) :
  let R := LoadLatestGeneratedManifest Filename Result Message St in
  R.2.1 = St.1
  ∧ Files R.2.2 = Files St.2
  ∧ Directories R.2.2 = Directories St.2
  ∧ WriteProtected R.2.2 = WriteProtected St.2
  ∧ Now R.2.2 = Now St.2
  ∧ Uninitialized R.2.2 = Uninitialized St.2.
Proof.
  destruct St as [Mgr W]. cbv zeta.
  unfold LoadLatestGeneratedManifest, LoadFileToString, UninitializedDouble.
  exec_unfold.
  destruct (Files W !! Filename) as [Json|]; [|done].
  destruct (Deserialize Json) as [RootObject|]; [|done].
  destruct (TryGetNumberField "GeneratedTime" RootObject);
    destruct (TryGetStringField "ProtoPackageName" RootObject); done.
Qed.

(** X5: [LoadLatestGeneratedManifest] only reads: the manager, the files
    and the directories are as before, and all it adds to the trace are
    warning lines, at most two, and none when it returns [false]. *)
Theorem LoadLatestGeneratedManifest_read_only Filename Result Message
    (St : State) :
  let R := LoadLatestGeneratedManifest Filename Result Message St in
  R.2.1 = St.1
  ∧ Files R.2.2 = Files St.2
  ∧ Directories R.2.2 = Directories St.2
  ∧ ∃ Warnings,
      Trace R.2.2 = Trace St.2 ++ (LogLine Warning <$> Warnings)
      ∧ (length Warnings ≤ 2)%nat
      ∧ (R.1.1.1 = false → Warnings = []).
Proof.
  cbv zeta.
  destruct (LoadLatestGeneratedManifest_state Filename Result Message St)
    as (H1 & H2 & H3 & _).
  split; [done|]. split; [done|]. split; [done|].
  destruct (Files St.2 !! Filename) as [Json|] eqn:EF.
  2:{ rewrite LoadLatestGeneratedManifest_not_found by done.
      exists []. cbn. rewrite app_nil_r. split; [done|]. split; [lia|done]. }
  destruct (Deserialize Json) as [RootObject|] eqn:EJ.
  2:{ rewrite (LoadLatestGeneratedManifest_malformed _ Json) by done.
      exists []. cbn. rewrite app_nil_r. split; [done|]. split; [lia|done]. }
  destruct (LoadLatestGeneratedManifest_parsed Filename Json RootObject Result
              Message St EF EJ) as [HR HT].
  rewrite HT, HR. cbn [fst].
  destruct (TryGetNumberField "GeneratedTime" RootObject);
    destruct (TryGetStringField "ProtoPackageName" RootObject).
  - exists []. cbn. split; [done|]. split; [lia|done].
  - exists ["Unable to find field 'ProtoPackageName'"%string]. cbn.
    split; [done|]. split; [lia|done].
  - exists ["Unable to find field 'GeneratedTime'"%string]. cbn.
    split; [done|]. split; [lia|done].
  - exists ["Unable to find field 'GeneratedTime'"%string;
            "Unable to find field 'ProtoPackageName'"%string]. cbn.
    split; [done|]. split; [lia|done].
Qed.

(** X6: a load that fails changes nothing.  When the file is missing,
    [LoadLatestGeneratedManifest] returns [false] with the message that the
    file cannot be loaded.  Whenever it returns [false], whatever made it
    fail, [Result] and the state are as they were, and the message is one
    of two texts followed by the file name: that the file cannot be loaded,
    or that it is malformed, the latter only for a file that exists.  When
    it returns [true], the file exists and the message is the one the
    caller passed. *)
Theorem LoadLatestGeneratedManifest_failure Filename Result Message
    (St : State) :
  let R := LoadLatestGeneratedManifest Filename Result Message St in
  (Files St.2 !! Filename = None →
   R.1 = (false, Result, "Unable to load GeneratedManifest: " +:+ Filename))
  ∧ (R.1.1.1 = false →
     R.1.1.2 = Result ∧ R.2 = St
     ∧ (R.1.2 = "Unable to load GeneratedManifest: " +:+ Filename
        ∨ (R.1.2 = "GeneratedManifest is malformed: " +:+ Filename
           ∧ is_Some (Files St.2 !! Filename))))
  ∧ (R.1.1.1 = true → is_Some (Files St.2 !! Filename) ∧ R.1.2 = Message).
Proof.
  cbv zeta.
  destruct (Files St.2 !! Filename) as [Json|] eqn:EF.
  2:{ rewrite LoadLatestGeneratedManifest_not_found by done.
      split; [done|]. split; [|done]. intros _. by repeat split; auto. }
  split; [done|].
  destruct (Deserialize Json) as [RootObject|] eqn:EJ.
  2:{ rewrite (LoadLatestGeneratedManifest_malformed _ Json) by done.
      split; [|done]. intros _. split; [done|]. split; [done|]. by right. }
  destruct (LoadLatestGeneratedManifest_parsed Filename Json RootObject Result
              Message St EF EJ) as [HR HT].
  rewrite HR. cbn [fst snd]. done.
Qed.



(** ** The directory of the manifest *)

Lemma DirectoryTree_head fuel Path :
  Path ≠ EmptyString → Path ∈ DirectoryTree (S fuel) Path.
Proof.
  intros HP. cbn [DirectoryTree]. destruct Path; [done|]. cbn. by left.
Qed.

Lemma MakeDirectory_eq Path (St : State) :
  MakeDirectory Path St =
  if bool_decide (Path ∈ WriteProtected St.2) then
    (false,
     (St.1,
      {| Files := Files St.2; Directories := Directories St.2;
         WriteProtected := WriteProtected St.2; Now := Now St.2;
         Uninitialized := Uninitialized St.2;
         Trace := Trace St.2 ++ [MakeDirectoryCall Path false] |}))
  else
    (true,
     (St.1,
      {| Files := Files St.2;
         Directories :=
           list_to_set (DirectoryTree (String.length Path) Path)
             ∪ Directories St.2;
         WriteProtected := WriteProtected St.2; Now := Now St.2;
         Uninitialized := Uninitialized St.2;
         Trace := Trace St.2 ++ [MakeDirectoryCall Path true] |})).
Proof.
  destruct St as [Mgr W]. unfold MakeDirectory. exec_unfold.
  by destruct (bool_decide (Path ∈ WriteProtected W)).
Qed.

Section ManifestDirectory.
Context `{ReplicatorGeneratorDefinition}.

Lemma EnsureReplicatorGeneratedIntermediateDir_eq (St : State) :
  EnsureReplicatorGeneratedIntermediateDir St =
  if bool_decide (GenManager_IntermediateDir ∈ Directories St.2) then (tt, St)
  else (tt, (MakeDirectory GenManager_IntermediateDir St).2).
Proof.
  destruct St as [Mgr W].
  unfold EnsureReplicatorGeneratedIntermediateDir, DirectoryExists.
  exec_unfold.
  destruct (bool_decide (GenManager_IntermediateDir ∈ Directories W));
    cbn [negb]; [done|].
  by destruct (MakeDirectory GenManager_IntermediateDir (Mgr, W)).
Qed.

(** X8: [EnsureReplicatorGeneratedIntermediateDir] never touches the
    manager or a file and loses no directory.  When the intermediate
    directory exists it changes nothing at all; when it does not, it asks
    once for the directory to be made; and unless the name of the directory
    is empty or the directory is refused, the directory exists afterwards. *)
Theorem EnsureReplicatorGeneratedIntermediateDir_effect (St : State) :
  let St' := (EnsureReplicatorGeneratedIntermediateDir St).2 in
  St'.1 = St.1
  ∧ Files St'.2 = Files St.2
  ∧ Directories St.2 ⊆ Directories St'.2
  ∧ (GenManager_IntermediateDir ∈ Directories St.2 → St' = St)
  ∧ (GenManager_IntermediateDir ∉ Directories St.2 →
     Trace St'.2 =
       Trace St.2
         ++ [MakeDirectoryCall GenManager_IntermediateDir
               (bool_decide (GenManager_IntermediateDir ∉ WriteProtected St.2))])
  ∧ (GenManager_IntermediateDir ∉ WriteProtected St.2 →
     GenManager_IntermediateDir ≠ EmptyString →
     GenManager_IntermediateDir ∈ Directories St'.2).
Proof.
  cbv zeta. rewrite EnsureReplicatorGeneratedIntermediateDir_eq.
  case_bool_decide as HD; cbn [snd].
  { repeat split; done. }
  rewrite MakeDirectory_eq.
  case_bool_decide as HW; cbn [fst snd Files Directories Trace].
  - split; [done|]. split; [done|]. split; [done|]. split; [done|].
    split; [|done]. intros _. by rewrite bool_decide_false by auto.
  - split; [done|]. split; [done|]. split; [set_solver|]. split; [done|].
    split; [intros _; by rewrite bool_decide_true|].
    intros _ HN. apply elem_of_union_l, elem_of_list_to_set.
    destruct GenManager_IntermediateDir as [|c rest] eqn:E; [done|].
    cbn [String.length]. by apply DirectoryTree_head.
Qed.

Lemma SaveGeneratedManifest_Default_eq Manifest Message (St : State) :
  SaveGeneratedManifest_Default Manifest Message St
  = SaveGeneratedManifest Manifest GenManager_GeneratedManifestFilePath Message
      (EnsureReplicatorGeneratedIntermediateDir St).2.
Proof.
  unfold SaveGeneratedManifest_Default, mbind, Exec_bind.
  by destruct (EnsureReplicatorGeneratedIntermediateDir St).
Qed.

Lemma SaveGeneratedManifest_Default_file Manifest Message (St : State) :
  GetPath GenManager_GeneratedManifestFilePath = GenManager_IntermediateDir →
  GenManager_IntermediateDir ≠ EmptyString →
  GenManager_IntermediateDir ∈ Directories St.2
  ∨ GenManager_IntermediateDir ∉ WriteProtected St.2 →
  GenManager_GeneratedManifestFilePath ∉ WriteProtected St.2 →
  let R := SaveGeneratedManifest_Default Manifest Message St in
  R.1.1 = false
  ∧ Files R.2.2 !! GenManager_GeneratedManifestFilePath
    = Some (ManifestJson Manifest).
Proof.
  intros EP HN HD HW R. subst R. rewrite SaveGeneratedManifest_Default_eq.
  rewrite EnsureReplicatorGeneratedIntermediateDir_eq.
  assert (∀ St' : State,
            GetPath GenManager_GeneratedManifestFilePath ∈ Directories St'.2 →
            GenManager_GeneratedManifestFilePath ∉ WriteProtected St'.2 →
            (SaveGeneratedManifest Manifest
               GenManager_GeneratedManifestFilePath Message St').1.1 = false
            ∧ Files (SaveGeneratedManifest Manifest
                       GenManager_GeneratedManifestFilePath Message St').2.2
                !! GenManager_GeneratedManifestFilePath
              = Some (ManifestJson Manifest)) as HS.
  { intros St' HD' HW'. split; [|by apply SaveGeneratedManifest_file].
    rewrite SaveGeneratedManifest_result.
    by rewrite bool_decide_true, bool_decide_false. }
  case_bool_decide as HE.
  - apply HS; [by rewrite EP|done].
  - destruct HD as [HD|HD]; [done|].
    rewrite MakeDirectory_eq. rewrite bool_decide_false by done.
    cbn [snd]. apply HS; cbn [snd Directories WriteProtected]; [|done].
    rewrite EP. apply elem_of_union_l, elem_of_list_to_set.
    destruct GenManager_IntermediateDir as [|c rest] eqn:E; [done|].
    cbn [String.length]. by apply DirectoryTree_head.
Qed.

(** X9: the two-argument [SaveGeneratedManifest] followed by the
    two-argument [LoadLatestGeneratedManifest] gives back the package name
    and the Unix timestamp of the manifest, also when the intermediate
    directory has to be made first.  The manifest file is to lie in the
    intermediate directory, the directory is to exist or to be makeable, and
    the file writer is to accept the manifest file. *)
Theorem Manifest_default_save_load_roundtrip Manifest Message Result Message'
    (St : State) :
  ValidDateTime (GeneratedTime Manifest) →
  GetPath GenManager_GeneratedManifestFilePath = GenManager_IntermediateDir →
  GenManager_IntermediateDir ≠ EmptyString →
  GenManager_IntermediateDir ∈ Directories St.2
  ∨ GenManager_IntermediateDir ∉ WriteProtected St.2 →
  GenManager_GeneratedManifestFilePath ∉ WriteProtected St.2 →
  let Saved := (SaveGeneratedManifest_Default Manifest Message St).2 in
  ∃ Loaded,
    (LoadLatestGeneratedManifest_Default Result Message' Saved).1
      = (true, Loaded, Message')
    ∧ ProtoPackageName Loaded = ProtoPackageName Manifest
    ∧ ToUnixTimestamp (GeneratedTime Loaded)
        = ToUnixTimestamp (GeneratedTime Manifest).
Proof.
  intros HT EP HN HD HW Saved.
  destruct (SaveGeneratedManifest_Default_file Manifest Message St EP HN HD HW)
    as [_ HF].
  fold Saved in HF. unfold LoadLatestGeneratedManifest_Default.
  destruct (LoadLatestGeneratedManifest_parsed _ _ _ Result Message' Saved
              HF (Deserialize_ManifestJson Manifest)) as [HR _].
  rewrite ManifestMembers_time, ManifestMembers_name in HR. cbn [default] in HR.
  eexists. split; [exact HR|]. cbn [ProtoPackageName GeneratedTime].
  split; [done|]. by apply FromUnixTimestamp_ToUnixTimestamp.
Qed.
End ManifestDirectory.

Lemma Manifest_default_save_load_roundtrip_witness :
  ∃ Loaded,
    (LoadLatestGeneratedManifest_Default (H := SampleDefinition) DefaultManifest
       EmptyString
       (SaveGeneratedManifest_Default (H := SampleDefinition) SampleManifest
          EmptyString (SampleManager, SampleWorld [] [])).2).1
      = (true, Loaded, EmptyString)
    ∧ ProtoPackageName Loaded = ProtoPackageName SampleManifest
    ∧ ToUnixTimestamp (GeneratedTime Loaded)
        = ToUnixTimestamp (GeneratedTime SampleManifest).
Proof.
  apply (Manifest_default_save_load_roundtrip (H := SampleDefinition)
           SampleManifest EmptyString DefaultManifest EmptyString
           (SampleManager, SampleWorld [] [])).
  - unfold ValidDateTime. vm_compute. split; discriminate.
  - reflexivity.
  - discriminate.
  - right. vm_compute. set_solver.
  - vm_compute. set_solver.
Defined.

(** ** Removal: further properties *)

Lemma DeleteFile_eq Filename (St : State) :
  DeleteFile Filename St =
  (bool_decide (Filename ∈ dom (Files St.2))
   && negb (bool_decide (Filename ∈ WriteProtected St.2)),
   (St.1, WorldAfterDelete St.2 Filename)).
Proof.
  destruct St as [Mgr W]. unfold DeleteFile, WorldAfterDelete. exec_unfold.
  by destruct (bool_decide (Filename ∈ dom (Files W))
               && negb (bool_decide (Filename ∈ WriteProtected W))).
Qed.

Lemma IFileManager_Delete_eq Filename (St : State) :
  (IFileManager_Delete Filename St).2 = (St.1, WorldAfterManagerDelete St.2 Filename).
Proof.
  destruct St as [Mgr W]. unfold IFileManager_Delete, WorldAfterManagerDelete.
  exec_unfold. case_bool_decide; [|done]. by rewrite DeleteFile_eq.
Qed.

Lemma WorldAfterDelete_kept W Filename :
  Directories (WorldAfterDelete W Filename) = Directories W
  ∧ WriteProtected (WorldAfterDelete W Filename) = WriteProtected W
  ∧ Now (WorldAfterDelete W Filename) = Now W
  ∧ Uninitialized (WorldAfterDelete W Filename) = Uninitialized W.
Proof. done. Qed.

Lemma foldl_WorldAfterDelete_kept Targets W :
  Directories (foldl WorldAfterDelete W Targets) = Directories W
  ∧ WriteProtected (foldl WorldAfterDelete W Targets) = WriteProtected W
  ∧ Now (foldl WorldAfterDelete W Targets) = Now W.
Proof.
  revert W. induction Targets as [|T Targets IH]; intros W; [done|].
  cbn [foldl]. destruct (IH (WorldAfterDelete W T)) as (-> & -> & ->). done.
Qed.

Lemma foldl_WorldAfterDelete_trace Targets W :
  ∃ Results,
    length Results = length Targets
    ∧ Trace (foldl WorldAfterDelete W Targets)
      = Trace W ++ zip_with DeleteFileCall Targets Results.
Proof.
  revert W. induction Targets as [|T Targets IH]; intros W.
  - exists []. cbn. by rewrite app_nil_r.
  - cbn [foldl]. destruct (IH (WorldAfterDelete W T)) as (Results & HL & HT).
    eexists (_ :: Results). split; [cbn; by rewrite HL|].
    rewrite HT. cbn [WorldAfterDelete Trace zip_with]. by rewrite <- app_assoc.
Qed.

Lemma WorldAfterDelete_files W Filename P :
  Files (WorldAfterDelete W Filename) !! P = FilesWithout [Filename] W P.
Proof.
  unfold FilesWithout, WorldAfterDelete. cbn [Files].
  destruct (decide (P = Filename)) as [->|HP].
  - destruct (decide (Filename ∈ WriteProtected W)) as [HW|HW].
    + rewrite (bool_decide_true (Filename ∈ WriteProtected W)) by done.
      rewrite andb_false_r. rewrite (bool_decide_false (_ ∧ _)); [done|].
      by intros [].
    + rewrite (bool_decide_false (Filename ∈ WriteProtected W)) by done.
      rewrite andb_true_r. rewrite (bool_decide_true (_ ∧ _)).
      2:{ split; [by left|done]. }
      case_bool_decide as HD; [by rewrite lookup_delete_eq|].
      by apply not_elem_of_dom.
  - rewrite (bool_decide_false (_ ∧ _)).
    2:{ intros [HX _]. apply list_elem_of_singleton in HX. done. }
    destruct (_ && _); [|done]. by rewrite lookup_delete_ne.
Qed.

Lemma FilesWithout_cons T Targets W P :
  (if bool_decide (P ∈ Targets ∧ P ∉ WriteProtected W) then None
   else FilesWithout [T] W P)
  = FilesWithout (T :: Targets) W P.
Proof.
  unfold FilesWithout.
  destruct (decide (P ∈ WriteProtected W)) as [HW|HW].
  { rewrite !bool_decide_false; [done|by intros []..]. }
  destruct (decide (P ∈ Targets)) as [HT|HT].
  { rewrite (bool_decide_true (P ∈ Targets ∧ _)) by done.
    rewrite (bool_decide_true (P ∈ T :: Targets ∧ _)); [done|].
    split; [by right|done]. }
  rewrite (bool_decide_false (P ∈ Targets ∧ _)) by (by intros []).
  destruct (decide (P = T)) as [->|HE].
  { rewrite !bool_decide_true; [done|split; [by left|done]..]. }
  rewrite !bool_decide_false; [done|..].
  - intros [[?|?]%elem_of_cons _]; done.
  - intros [?%list_elem_of_singleton _]; done.
Qed.

Lemma foldl_WorldAfterDelete_files Targets W P :
  Files (foldl WorldAfterDelete W Targets) !! P = FilesWithout Targets W P.
Proof.
  revert W. induction Targets as [|T Targets IH]; intros W.
  - unfold FilesWithout. rewrite bool_decide_false; [done|].
    intros [HX _]. by apply elem_of_nil in HX.
  - cbn [foldl]. rewrite IH. unfold FilesWithout at 1.
    rewrite WorldAfterDelete_files. cbn [WorldAfterDelete WriteProtected].
    apply FilesWithout_cons.
Qed.

Lemma WorldAfterManagerDelete_files W Filename P :
  Files (WorldAfterManagerDelete W Filename) !! P = FilesWithout [Filename] W P.
Proof.
  unfold WorldAfterManagerDelete. case_bool_decide as HD.
  - apply WorldAfterDelete_files.
  - unfold FilesWithout. case_bool_decide as HX; [|done].
    destruct HX as [HX _]. apply list_elem_of_singleton in HX. subst P.
    by apply not_elem_of_dom in HD.
Qed.

Lemma WorldAfterManagerDelete_kept W Filename :
  Directories (WorldAfterManagerDelete W Filename) = Directories W
  ∧ WriteProtected (WorldAfterManagerDelete W Filename) = WriteProtected W
  ∧ Now (WorldAfterManagerDelete W Filename) = Now W.
Proof. unfold WorldAfterManagerDelete. by case_bool_decide. Qed.

Lemma foldl_WorldAfterManagerDelete_files Targets W P :
  Files (foldl WorldAfterManagerDelete W Targets) !! P = FilesWithout Targets W P.
Proof.
  revert W. induction Targets as [|T Targets IH]; intros W.
  - unfold FilesWithout. rewrite bool_decide_false; [done|].
    intros [HX _]. by apply elem_of_nil in HX.
  - cbn [foldl]. rewrite IH. unfold FilesWithout at 1.
    rewrite WorldAfterManagerDelete_files.
    destruct (WorldAfterManagerDelete_kept W T) as (_ & -> & _).
    apply FilesWithout_cons.
Qed.

Lemma foldl_WorldAfterManagerDelete_kept Targets W :
  Directories (foldl WorldAfterManagerDelete W Targets) = Directories W
  ∧ WriteProtected (foldl WorldAfterManagerDelete W Targets) = WriteProtected W
  ∧ Now (foldl WorldAfterManagerDelete W Targets) = Now W.
Proof.
  revert W. induction Targets as [|T Targets IH]; intros W; [done|].
  cbn [foldl]. destruct (IH (WorldAfterManagerDelete W T)) as (-> & -> & ->).
  apply WorldAfterManagerDelete_kept.
Qed.

Lemma foldl_WorldAfterManagerDelete_trace Targets W :
  ∃ Deleted Results,
    length Results = length Deleted
    ∧ Deleted `sublist_of` Targets
    ∧ (∀ P, P ∈ Deleted → P ∈ dom (Files W))
    ∧ Trace (foldl WorldAfterManagerDelete W Targets)
      = Trace W ++ zip_with DeleteFileCall Deleted Results.
Proof.
  revert W. induction Targets as [|T Targets IH]; intros W.
  - exists [], []. cbn. rewrite app_nil_r. split; [done|].
    split; [constructor|]. split; [|done]. intros P HP. by apply elem_of_nil in HP.
  - cbn [foldl].
    destruct (IH (WorldAfterManagerDelete W T)) as (Deleted & Results & HL & HS & HD & HT).
    assert (∀ P, P ∈ Deleted → P ∈ dom (Files W)) as HD'.
    { intros P HP. apply HD in HP. apply elem_of_dom in HP as [c HP].
      rewrite WorldAfterManagerDelete_files in HP. unfold FilesWithout in HP.
      apply elem_of_dom. case_bool_decide; [done|]. by eexists. }
    rewrite HT. unfold WorldAfterManagerDelete at 1. case_bool_decide as HE.
    + eexists (T :: Deleted), (_ :: Results). split; [cbn; by rewrite HL|].
      split; [by apply sublist_skip|]. split.
      * intros P [->|HP]%elem_of_cons; [done|by apply HD'].
      * cbn [WorldAfterDelete Trace zip_with]. by rewrite <- app_assoc.
    + exists Deleted, Results. split; [done|].
      split; [by apply sublist_cons|]. done.
Qed.

Lemma ContainsSlash_app (A B : string) :
  ContainsSlash (A +:+ B) = ContainsSlash A || ContainsSlash B.
Proof.
  induction A as [|c A IH]; cbn [String.append ContainsSlash]; [done|].
  rewrite IH. by rewrite orb_assoc.
Qed.

Lemma GetPath_no_slash P : ContainsSlash P = false → GetPath P = EmptyString.
Proof.
  destruct P as [|c P]; [done|]. cbn [ContainsSlash GetPath].
  intros [_ ->]%orb_false_iff. done.
Qed.

Section RemovalEffects.
Context `{ReplicatorGeneratorDefinition}.

Lemma RemoveGeneratedReplicator_eq ClassName (St : State) :
  RemoveGeneratedReplicator ClassName St
  = (tt, (St.1, foldl WorldAfterDelete St.2 (GeneratedFilesOf ClassName))).
Proof.
  unfold RemoveGeneratedReplicator, GeneratedFilesOf.
  repeat (unfold mbind at 1, Exec_bind at 1; rewrite DeleteFile_eq; cbn [fst snd]).
  done.
Qed.

Lemma RemoveGeneratedReplicators_eq ClassNames (St : State) :
  RemoveGeneratedReplicators ClassNames St
  = (tt, (St.1, foldl WorldAfterDelete St.2 (ClassNames ≫= GeneratedFilesOf))).
Proof.
  revert St. induction ClassNames as [|N Ns IH]; intros St.
  - by destruct St.
  - cbn [RemoveGeneratedReplicators]. unfold mbind at 1, Exec_bind at 1.
    rewrite RemoveGeneratedReplicator_eq, IH. cbn [fst snd].
    rewrite bind_cons, foldl_app. done.
Qed.



(** X11: what [RemoveGeneratedReplicators] does to the files: a path that is
    one of the requested file names and is not write-protected holds no file
    afterwards, every other path holds what it held before, and the
    directories are unchanged. *)
Theorem RemoveGeneratedReplicators_files ClassNames (St : State) :
  let W' := (RemoveGeneratedReplicators ClassNames St).2.2 in
  (∀ P, Files W' !! P =
        if bool_decide (P ∈ ClassNames ≫= GeneratedFilesOf
                        ∧ P ∉ WriteProtected St.2)
        then None else Files St.2 !! P)
  ∧ Directories W' = Directories St.2.
Proof.
  cbv zeta. rewrite RemoveGeneratedReplicators_eq. cbn [snd]. split.
  - intros P. apply foldl_WorldAfterDelete_files.
  - apply foldl_WorldAfterDelete_kept.
Qed.

Lemma DeleteCalls_app T1 T2 :
  DeleteCalls (T1 ++ T2) = DeleteCalls T1 ++ DeleteCalls T2.
Proof. apply omap_app. Qed.

Lemma DeleteCalls_zip_with Targets (Results : list bool) :
  length Results = length Targets →
  DeleteCalls (zip_with DeleteFileCall Targets Results) = Targets.
Proof.
  revert Results. induction Targets as [|T Targets IH]; intros [|R Results] HL;
    try done.
  cbn. f_equal. apply IH. by injection HL.
Qed.

(** X12: the paths that [RemoveGeneratedReplicators] hands to [DeleteFile]
    have no directory part, whatever the storage directory of the manager
    is, as long as neither the class names nor the five file extensions
    hold a slash or backslash. *)
Theorem RemoveGeneratedReplicators_bare_names ClassNames (St : State) :
  ContainsSlash CodeGen_CppFileExtension = false →
  ContainsSlash CodeGen_HeadFileExtension = false →
  ContainsSlash CodeGen_ProtoFileExtension = false →
  ContainsSlash CodeGen_ProtoPbHeadExtension = false →
  ContainsSlash CodeGen_ProtoPbCPPExtension = false →
  (∀ ClassName, ClassName ∈ ClassNames → ContainsSlash ClassName = false) →
  let W' := (RemoveGeneratedReplicators ClassNames St).2.2 in
  ∃ Requested,
    DeleteCalls (Trace W') = DeleteCalls (Trace St.2) ++ Requested
    ∧ ∀ P, P ∈ Requested → GetPath P = EmptyString.
Proof.
  intros H1 H2 H3 H4 H5 HN W'. subst W'.
  rewrite RemoveGeneratedReplicators_eq. cbn [snd].
  destruct (foldl_WorldAfterDelete_trace (ClassNames ≫= GeneratedFilesOf) St.2)
    as (Results & HL & HT).
  exists (ClassNames ≫= GeneratedFilesOf). split.
  - by rewrite HT, DeleteCalls_app, DeleteCalls_zip_with.
  - intros P (N & HP & HN')%list_elem_of_bind. apply GetPath_no_slash.
    apply HN in HN'. unfold GeneratedFilesOf in HP.
    repeat (apply elem_of_cons in HP as [->|HP]);
      rewrite ?ContainsSlash_app, ?HN', ?H1, ?H2, ?H3, ?H4, ?H5; try done.
    by apply elem_of_nil in HP.
Qed.

Lemma DeleteCodeFiles_eq AllCodeFiles (St : State) :
  ∃ Mgr',
    DeleteCodeFiles AllCodeFiles St
    = (tt, (Mgr',
            foldl WorldAfterManagerDelete St.2
              ((λ FilePath, StorageDirOf St.1 // FilePath) <$> AllCodeFiles)))
    ∧ StorageDirOf Mgr' = StorageDirOf St.1.
Proof.
  revert St. induction AllCodeFiles as [|F Fs IH]; intros St.
  - exists St.1. by destruct St.
  - cbn [DeleteCodeFiles]. unfold mbind at 1, Exec_bind at 1.
    rewrite GetReplicatorStorageDir_eq.
    unfold mbind at 1, Exec_bind at 1.
    pose proof (IFileManager_Delete_eq (StorageDirOf St.1 // F)
                  (CacheStorageDir St.1, St.2)) as HE.
    destruct (IFileManager_Delete (StorageDirOf St.1 // F)
                (CacheStorageDir St.1, St.2)) as [b St1].
    cbn [fst snd] in *. subst St1.
    destruct (IH (CacheStorageDir St.1,
                  WorldAfterManagerDelete St.2 (StorageDirOf St.1 // F)))
      as (Mgr' & -> & HS).
    cbn [fst snd] in *. rewrite StorageDirOf_CacheStorageDir in *.
    exists Mgr'. by rewrite fmap_cons.
Qed.

Lemma FindFiles_eq Directory FileExtension (St : State) :
  FindFiles Directory FileExtension St
  = ((FindFiles Directory FileExtension St).1, St).
Proof. by destruct St. Qed.

Lemma EndsWith_empty S : EndsWith S EmptyString = true.
Proof.
  induction S as [|c S IH]; cbn [EndsWith]; [done|].
  rewrite IH. by rewrite orb_true_r.
Qed.

Lemma FindFiles_every_file Directory (St : State) Name :
  Name ∈ (FindFiles Directory EmptyString St).1
  ↔ ∃ Q, Q ∈ dom (Files St.2)
         ∧ GetPath Q = NormalizeDirectoryName Directory
         ∧ GetCleanFilename Q = Name.
Proof.
  destruct St as [Mgr W]. unfold FindFiles. exec_unfold.
  rewrite list_elem_of_fmap. split.
  - intros (Q & -> & HQ). apply list_elem_of_filter in HQ as [[HP _] HQ].
    exists Q. by rewrite <- elem_of_elements.
  - intros (Q & HQ & HP & <-). exists Q. split; [done|].
    apply list_elem_of_filter. split; [|by apply elem_of_elements].
    split; [done|]. apply EndsWith_empty.
Qed.

Lemma RemoveGeneratedCodeFiles_eq (St : State) :
  ∃ Mgr',
    RemoveGeneratedCodeFiles St
    = (tt, (Mgr',
            foldl WorldAfterManagerDelete St.2
              ((λ FilePath, StorageDirOf St.1 // FilePath)
                 <$> (FindFiles (StorageDirOf St.1) EmptyString St).1))).
Proof.
  unfold RemoveGeneratedCodeFiles.
  unfold mbind at 1, Exec_bind at 1. rewrite GetReplicatorStorageDir_eq.
  unfold mbind at 1, Exec_bind at 1. rewrite FindFiles_eq.
  assert ((FindFiles (StorageDirOf St.1) EmptyString (CacheStorageDir St.1, St.2)).1
          = (FindFiles (StorageDirOf St.1) EmptyString St).1) as ->
    by by destruct St.
  destruct (DeleteCodeFiles_eq (FindFiles (StorageDirOf St.1) EmptyString St).1
              (CacheStorageDir St.1, St.2)) as (Mgr' & -> & _).
  cbn [fst snd]. rewrite StorageDirOf_CacheStorageDir. by exists Mgr'.
Qed.

(** X13: [RemoveGeneratedCodeFiles], for a storage directory [Dir] with a
    name (for a directory without a name the engine lists no file): its
    targets are the paths [Dir / Name] for the clean names [Name] of the
    files that lie in [Dir].  A target that is not write-protected
    holds no file afterwards, every other path holds what it held before,
    the directories are unchanged, and the trace only grows by [DeleteFile]
    calls, each for a target that existed at the start. *)
Theorem RemoveGeneratedCodeFiles_files (St : State) :
  StorageDirOf St.1 ≠ EmptyString →
  let W' := (RemoveGeneratedCodeFiles St).2.2 in
  let Dir := StorageDirOf St.1 in
  let Targets :=
    (λ FilePath, Dir // FilePath) <$> (FindFiles Dir EmptyString St).1 in
  (∀ P, Files W' !! P =
        if bool_decide (P ∈ Targets ∧ P ∉ WriteProtected St.2)
        then None else Files St.2 !! P)
  ∧ (∀ P, P ∈ Targets
          ↔ ∃ Q, Q ∈ dom (Files St.2)
                 ∧ GetPath Q = NormalizeDirectoryName Dir
                 ∧ P = Dir // GetCleanFilename Q)
  ∧ Directories W' = Directories St.2
  ∧ ∃ Deleted Results,
      Trace W' = Trace St.2 ++ zip_with DeleteFileCall Deleted Results
      ∧ length Results = length Deleted
      ∧ Deleted `sublist_of` Targets
      ∧ ∀ P, P ∈ Deleted → P ∈ dom (Files St.2).
Proof.
  intros _. cbv zeta. destruct (RemoveGeneratedCodeFiles_eq St) as [Mgr' ->].
  cbn [fst snd].
  split; [|split; [|split]].
  - intros P. apply foldl_WorldAfterManagerDelete_files.
  - intros P. rewrite list_elem_of_fmap. split.
    + intros (Name & -> & HN). apply FindFiles_every_file in HN as (Q & ? & ? & <-).
      by exists Q.
    + intros (Q & HQ & HP & ->). exists (GetCleanFilename Q). split; [done|].
      apply FindFiles_every_file. by exists Q.
  - apply foldl_WorldAfterManagerDelete_kept.
  - destruct (foldl_WorldAfterManagerDelete_trace
                ((λ FilePath, StorageDirOf St.1 // FilePath)
                   <$> (FindFiles (StorageDirOf St.1) EmptyString St).1) St.2)
      as (Deleted & Results & HL & HS & HD & HT).
    by exists Deleted, Results.
Qed.
End RemovalEffects.

Lemma RemoveGeneratedReplicators_bare_names_witness :
  ∃ Requested,
    DeleteCalls
      (Trace (RemoveGeneratedReplicators (H := SampleDefinition)
                ["Foo"; "Bar"]%string
                (SampleManager, SampleWorld [] [])).2.2)
    = DeleteCalls (Trace (SampleWorld [] [])) ++ Requested
    ∧ ∀ P, P ∈ Requested → GetPath P = EmptyString.
Proof.
  apply (RemoveGeneratedReplicators_bare_names (H := SampleDefinition)
           ["Foo"; "Bar"]%string (SampleManager, SampleWorld [] []));
    try reflexivity.
  intros ClassName HC.
  repeat (apply elem_of_cons in HC as [->|HC]); try reflexivity.
  by apply elem_of_nil in HC.
Defined.

Lemma RemoveGeneratedCodeFiles_files_witness :
  Files (RemoveGeneratedCodeFiles (H := SampleDefinition)
           (SampleManager, SampleHeaderWorld)).2.2
    !! "Project/Source/Game/ChanneldGenerated/ChanneldFooReplicator.h"%string
  = None.
Proof.
  destruct (RemoveGeneratedCodeFiles_files (H := SampleDefinition)
              (SampleManager, SampleHeaderWorld)) as [HF _]; [discriminate|].
  rewrite HF. vm_compute. reflexivity.
Defined.

(** ** Enumeration: further properties *)

Lemma EndsWith_app A B Suffix :
  EndsWith B Suffix = true → EndsWith (A +:+ B) Suffix = true.
Proof.
  intros HB. induction A as [|c A IH]; cbn [String.append EndsWith]; [done|].
  rewrite IH. by rewrite orb_true_r.
Qed.

Lemma FindFiles_extension Directory c Extension (St : State) Name :
  Name ∈ (FindFiles Directory (String "." (String c Extension)) St).1
  ↔ ∃ Q, Q ∈ dom (Files St.2)
         ∧ GetPath Q = NormalizeDirectoryName Directory
         ∧ GetCleanFilename Q = Name
         ∧ EndsWith Name (String "." (String c Extension)) = true.
Proof.
  destruct St as [Mgr W]. unfold FindFiles. exec_unfold.
  change (("." =? ".")%char) with true. cbv iota.
  rewrite list_elem_of_fmap. split.
  - intros (Q & -> & HQ). apply list_elem_of_filter in HQ as [[HP HE] HQ].
    exists Q. by rewrite <- elem_of_elements.
  - intros (Q & HQ & HP & <- & HE). exists Q. split; [done|].
    apply list_elem_of_filter. split; [done|by apply elem_of_elements].
Qed.

Section EnumeratedFiles.
Context `{ReplicatorGeneratorDefinition}.

Lemma GetGeneratedTargetClasses_eq (St : State) :
  GetGeneratedTargetClasses St
  = (omap TemplateClassName
       (FindFiles (StorageDirOf St.1) CodeGen_HeadFileExtension St).1,
     (CacheStorageDir St.1, St.2)).
Proof.
  unfold GetGeneratedTargetClasses.
  unfold mbind at 1, Exec_bind at 1. rewrite GetReplicatorStorageDir_eq.
  unfold mbind at 1, Exec_bind at 1. rewrite FindFiles_eq.
  unfold mret, Exec_ret. rewrite <- CaptureTargetClasses_omap.
  by destruct St.
Qed.

(** X14: for a storage directory with a name (for a directory without a
    name the engine lists no file) and the header extension [.h] of the
    pattern, [GetGeneratedTargetClasses] returns a class name
    exactly when it is made of one or more word characters and some file
    that lies in the storage directory is called [Channeld], class name,
    [Replicator.h]; the call leaves the world as it was. *)
Theorem GetGeneratedTargetClasses_files (St : State) :
  StorageDirOf St.1 ≠ EmptyString →
  CodeGen_HeadFileExtension = ".h"%string →
  (∀ ClassName,
     ClassName ∈ (GetGeneratedTargetClasses St).1
     ↔ IsWordName ClassName = true
       ∧ ∃ Q, Q ∈ dom (Files St.2)
              ∧ GetPath Q = NormalizeDirectoryName (StorageDirOf St.1)
              ∧ GetCleanFilename Q = ReplicatorHeadFileName ClassName)
  ∧ (GetGeneratedTargetClasses St).2.2 = St.2.
Proof.
  intros _ EH. rewrite GetGeneratedTargetClasses_eq. cbn [fst snd].
  split; [|done]. intros ClassName. rewrite list_elem_of_omap, EH. split.
  - intros (Name & HN & HT). apply TemplateClassName_Some in HT as [-> HW].
    split; [done|]. apply FindFiles_extension in HN as (Q & ? & ? & ? & _).
    by exists Q.
  - intros (HW & Q & HQ & HP & HC). exists (ReplicatorHeadFileName ClassName).
    split; [|by apply TemplateClassName_Some].
    apply FindFiles_extension. exists Q. repeat split; try done.
    unfold ReplicatorHeadFileName. apply EndsWith_app, EndsWith_app.
    reflexivity.
Qed.
End EnumeratedFiles.

Lemma GetGeneratedTargetClasses_files_witness :
  (∀ ClassName,
     ClassName ∈ (GetGeneratedTargetClasses (H := SampleDefinition)
                    (SampleManager, SampleHeaderWorld)).1
     ↔ IsWordName ClassName = true
       ∧ ∃ Q, Q ∈ dom (Files SampleHeaderWorld)
              ∧ GetPath Q
                = NormalizeDirectoryName
                    (StorageDirOf (H := SampleDefinition) SampleManager)
              ∧ GetCleanFilename Q = ReplicatorHeadFileName ClassName)
  ∧ (GetGeneratedTargetClasses (H := SampleDefinition)
       (SampleManager, SampleHeaderWorld)).2.2 = SampleHeaderWorld.
Proof.
  apply (GetGeneratedTargetClasses_files (H := SampleDefinition)
           (SampleManager, SampleHeaderWorld)).
  - discriminate.
  - reflexivity.
Defined.

(** ** The generation run: further properties *)

Lemma FilesAfter_app E1 E2 Fs :
  FilesAfter (E1 ++ E2) Fs = FilesAfter E2 (FilesAfter E1 Fs).
Proof. apply foldl_app. Qed.

Lemma Triple_bind {A B} (Pre : State → Prop) (m : Exec A) (f : A → Exec B)
    (Mid : A → State → Prop) (Post : B → State → Prop) :
  Triple Pre m Mid → (∀ a, Triple (Mid a) (f a) Post) →
  Triple Pre (m ≫= f) Post.
Proof.
  intros Hm Hf St HP. unfold mbind, Exec_bind.
  specialize (Hm St HP). destruct (m St) as [a St']. by apply Hf.
Qed.

Lemma Triple_ret {A} (Pre : State → Prop) (a : A) (Post : A → State → Prop) :
  (∀ St, Pre St → Post a St) → Triple Pre (mret a) Post.
Proof. intros HP St HS. by apply HP. Qed.

Lemma Triple_pure {A} (φ : Prop) (Pre : State → Prop) (m : Exec A)
    (Post : A → State → Prop) :
  (φ → Triple Pre m Post) → Triple (λ St, φ ∧ Pre St) m Post.
Proof. intros HT St [Hφ HP]. by apply HT. Qed.

Section RunTriples.
Context `{ReplicatorGeneratorDefinition}.
Variable St0 : State.

Lemma Reached_start : Reached St0 (CodeGenerator St0.1) [] St0.
Proof.
  split; try done. by rewrite app_nil_r.
Qed.

Lemma Reached_manager G Events Mgr' (St : State) :
  Reached St0 G Events St →
  ModuleDirOf Mgr' = ModuleDirOf St.1 →
  StorageDirOf Mgr' = StorageDirOf St.1 →
  CodeGenerator Mgr' = CodeGenerator St.1 →
  IgnoreActorClasses Mgr' = IgnoreActorClasses St.1 →
  IgnoreActorClassPaths Mgr' = IgnoreActorClassPaths St.1 →
  Reached St0 G Events (Mgr', St.2).
Proof.
  intros [] E1 E2 E3 E4 E5. split; cbn [fst snd]; first [congruence|done].
Qed.

Lemma Reached_event G Events e (St : State) W' :
  Reached St0 G Events St →
  Files W' = FilesAfter1 (Files St.2) e →
  Directories St.2 ⊆ Directories W' →
  WriteProtected W' = WriteProtected St.2 →
  Now W' = Now St.2 →
  Trace W' = Trace St.2 ++ [e] →
  Reached St0 G (Events ++ [e]) (St.1, W').
Proof.
  intros [] EF ED EP EN ET. split; cbn [fst snd]; try congruence.
  - rewrite ET, reached_trace0. by rewrite app_assoc.
  - rewrite EF, reached_files0, FilesAfter_app. done.
  - by etrans.
Qed.

Lemma Triple_UE_LOG G Events Verbosity Text :
  Triple (Reached St0 G Events) (UE_LOG Verbosity Text)
    (λ _, Reached St0 G (Events ++ [LogLine Verbosity Text])).
Proof.
  intros St HR. unfold UE_LOG. rewrite Emit_eq. cbn [fst snd].
  by apply (Reached_event G Events _ St).
Qed.

Lemma Triple_GetDefaultModuleDir G Events :
  Triple (Reached St0 G Events) GetDefaultModuleDir
    (λ Dir St, Dir = ModuleDirOf St0.1 ∧ Reached St0 G Events St).
Proof.
  intros St HR. rewrite GetDefaultModuleDir_eq. cbn [fst snd].
  split; [apply HR|].
  apply (Reached_manager G Events _ St); try done.
  - apply ModuleDirOf_CacheModuleDir.
  - apply StorageDirOf_CacheModuleDir.
Qed.

Lemma Triple_GetReplicatorStorageDir G Events :
  Triple (Reached St0 G Events) GetReplicatorStorageDir
    (λ Dir St, Dir = StorageDirOf St0.1 ∧ Reached St0 G Events St).
Proof.
  intros St HR. rewrite GetReplicatorStorageDir_eq. cbn [fst snd].
  split; [apply HR|].
  apply (Reached_manager G Events _ St); try done.
  - apply ModuleDirOf_CacheStorageDir.
  - apply StorageDirOf_CacheStorageDir.
  - unfold CacheStorageDir. by destruct (IsEmpty _).
  - unfold CacheStorageDir. by destruct (IsEmpty _).
  - unfold CacheStorageDir. by destruct (IsEmpty _).
Qed.

Lemma Triple_GetDefaultModuleName G Events :
  Triple (Reached St0 G Events) GetDefaultModuleName
    (λ Name St,
       Name = GetBaseFilename (ModuleDirOf St0.1) ∧ Reached St0 G Events St).
Proof.
  unfold GetDefaultModuleName.
  eapply Triple_bind; [apply Triple_GetDefaultModuleDir|]. intros Dir.
  apply Triple_pure. intros ->. by apply Triple_ret.
Qed.

Lemma Triple_FDateTime_Now G Events :
  Triple (Reached St0 G Events) FDateTime_Now
    (λ Time St, Time = Now St0.2 ∧ Reached St0 G Events St).
Proof.
  intros [Mgr W] HR. split; [apply HR|done].
Qed.

Lemma Triple_SaveStringToFile G Events Content Filename :
  Triple (Reached St0 G Events) (SaveStringToFile Content Filename)
    (λ bSuccess St,
       bSuccess = bool_decide (Filename ∉ WriteProtected St0.2)
       ∧ Reached St0 G
           (Events ++ [WriteEvent (WriteProtected St0.2) (Filename, Content)])
           St).
Proof.
  intros St HR. rewrite SaveStringToFile_eq.
  pose proof (reached_protected _ _ _ _ HR) as EP.
  unfold WriteEvent. cbn [fst snd]. rewrite <- EP.
  case_bool_decide as HW; cbn [fst snd].
  - rewrite bool_decide_false by auto. split; [done|].
    by apply (Reached_event G Events _ St).
  - rewrite bool_decide_true by auto. split; [done|].
    apply (Reached_event G Events _ St); try done.
    cbn [Directories]. apply union_subseteq_r.
Qed.

Lemma Triple_WriteCodeFile G Events FilePath Code ResultMessage :
  Triple (Reached St0 G Events) (WriteCodeFile FilePath Code ResultMessage)
    (λ R St,
       R.2 = ResultMessage
       ∧ Reached St0 G
           (Events ++ [WriteEvent (WriteProtected St0.2) (FilePath, Code)]) St).
Proof.
  unfold WriteCodeFile.
  eapply Triple_bind; [apply Triple_SaveStringToFile|]. intros b.
  apply Triple_pure. intros ->. by apply Triple_ret.
Qed.

Lemma Triple_WriteProtoFile G Events FilePath ProtoContent ResultMessage :
  Triple (Reached St0 G Events)
    (WriteProtoFile FilePath ProtoContent ResultMessage)
    (λ R St,
       R.2 = ResultMessage
       ∧ Reached St0 G
           (Events
              ++ [WriteEvent (WriteProtected St0.2) (FilePath, ProtoContent)])
           St).
Proof. apply Triple_WriteCodeFile. Qed.
Ltac triple_step L := eapply Triple_bind; [apply L|]; cbv beta.

Lemma Triple_WriteReplicatorCodes G Events Codes Message :
  Triple (Reached St0 G Events) (WriteReplicatorCodes Codes Message)
    (λ M St,
       M = Message
       ∧ Reached St0 G
           (Events
              ++ (Codes ≫= ReplicatorCodeEvents (WriteProtected St0.2)
                             (StorageDirOf St0.1)))
           St).
Proof.
  revert Events. induction Codes as [|Code Codes IH]; intros Events.
  - apply Triple_ret. intros St HR. split; [done|]. by rewrite app_nil_r.
  - cbn [WriteReplicatorCodes].
    triple_step Triple_GetReplicatorStorageDir. intros Dir1.
    apply Triple_pure. intros ->.
    triple_step Triple_WriteCodeFile. intros [b1 M1].
    apply Triple_pure. cbn [snd]. intros ->.
    triple_step Triple_GetReplicatorStorageDir. intros Dir2.
    apply Triple_pure. intros ->.
    triple_step Triple_WriteCodeFile. intros [b2 M2].
    apply Triple_pure. cbn [snd]. intros ->.
    triple_step Triple_GetReplicatorStorageDir. intros Dir3.
    apply Triple_pure. intros ->.
    triple_step Triple_WriteProtoFile. intros [b3 M3].
    apply Triple_pure. cbn [snd]. intros ->.
    triple_step Triple_UE_LOG. intros _.
    rewrite bind_cons. unfold ReplicatorCodeEvents at 1.
    unfold ReplicatorCodeTexts. cbn [fmap list_fmap].
    fold (GeneratedLogText Code).
    rewrite (app_assoc Events). cbn [app].
    replace (Events
               ++ [WriteEvent (WriteProtected St0.2)
                     (StorageDirOf St0.1 // HeadFileName Code, HeadCode Code);
                   WriteEvent (WriteProtected St0.2)
                     (StorageDirOf St0.1 // CppFileName Code, CppCode Code);
                   WriteEvent (WriteProtected St0.2)
                     (StorageDirOf St0.1 // ProtoFileName Code,
                      ProtoDefinitionsFile Code);
                   LogLine Verbose (GeneratedLogText Code)])
      with ((((Events
                 ++ [WriteEvent (WriteProtected St0.2)
                       (StorageDirOf St0.1 // HeadFileName Code, HeadCode Code)])
                ++ [WriteEvent (WriteProtected St0.2)
                      (StorageDirOf St0.1 // CppFileName Code, CppCode Code)])
               ++ [WriteEvent (WriteProtected St0.2)
                     (StorageDirOf St0.1 // ProtoFileName Code,
                      ProtoDefinitionsFile Code)])
              ++ [LogLine Verbose (GeneratedLogText Code)])
      by (by rewrite <- !app_assoc).
    apply IH.
Qed.

Lemma Triple_EnsureReplicatorGeneratedIntermediateDir G Events :
  Triple (Reached St0 G Events) EnsureReplicatorGeneratedIntermediateDir
    (λ _ St,
       ∃ Made,
         Reached St0 G (Events ++ Made) St
         ∧ (Made = []
            ∨ ((GenManager_IntermediateDir ∉ Directories St0.2)
               ∧ Made =
                   [MakeDirectoryCall GenManager_IntermediateDir
                      (bool_decide
                         (GenManager_IntermediateDir
                            ∉ WriteProtected St0.2))]))
         ∧ (GenManager_IntermediateDir ≠ EmptyString →
            GenManager_IntermediateDir ∉ WriteProtected St0.2 →
            GenManager_IntermediateDir ∈ Directories St.2)).
Proof.
  intros St HR. rewrite EnsureReplicatorGeneratedIntermediateDir_eq.
  pose proof (reached_protected _ _ _ _ HR) as EP.
  case_bool_decide as HD; cbn [fst snd].
  { exists []. rewrite app_nil_r. split; [done|]. split; [by left|done]. }
  assert (GenManager_IntermediateDir ∉ Directories St0.2) as HD0.
  { intros HX. apply HD. by apply (reached_directories _ _ _ _ HR). }
  rewrite MakeDirectory_eq. rewrite <- EP.
  case_bool_decide as HW; cbn [snd].
  - exists [MakeDirectoryCall GenManager_IntermediateDir false].
    split; [|split].
    + by apply (Reached_event G Events _ St).
    + right. split; [done|]. by rewrite bool_decide_false by auto.
    + done.
  - exists [MakeDirectoryCall GenManager_IntermediateDir true].
    split; [|split].
    + apply (Reached_event G Events _ St); try done.
      cbn [Directories]. apply union_subseteq_r.
    + right. split; [done|]. by rewrite bool_decide_true.
    + intros HN _. cbn [Directories].
      apply elem_of_union_l, elem_of_list_to_set.
      destruct GenManager_IntermediateDir as [|c rest] eqn:E; [done|].
      cbn [String.length]. by apply DirectoryTree_head.
Qed.

Lemma Triple_SaveGeneratedManifest G Events Manifest Filename Message
    (Known : Prop) :
  Triple
    (λ St, Reached St0 G Events St
           ∧ (Known → GetPath Filename ∈ Directories St.2))
    (SaveGeneratedManifest Manifest Filename Message)
    (λ R St,
       ∃ Saved,
         Reached St0 G (Events ++ Saved) St
         ∧ ((Saved = [] ∧ R.1 = false)
            ∨ (Saved = [SaveStringToFileCall Filename (ManifestJson Manifest) true]
               ∧ R.1 = false ∧ Filename ∉ WriteProtected St0.2)
            ∨ (Saved = [SaveStringToFileCall Filename (ManifestJson Manifest) false]
               ∧ R = (true, Message) ∧ Filename ∈ WriteProtected St0.2))
         ∧ (Known → Saved ≠ [])).
Proof.
  intros St [HR HK]. rewrite SaveGeneratedManifest_eq.
  case_bool_decide as HD; cbv zeta.
  2:{ cbn [fst snd]. exists []. rewrite app_nil_r. split; [done|].
      split; [by left|]. intros HX. by apply HK in HX. }
  destruct (Triple_SaveStringToFile G Events (ManifestJson Manifest)
              Filename St HR) as [Eb HR'].
  destruct (SaveStringToFile (ManifestJson Manifest) Filename St) as [b St'].
  cbn [fst snd] in *. subst b. eexists [_]. split; [exact HR'|].
  unfold WriteEvent. cbn [fst snd].
  case_bool_decide as HW; cbn [fst snd].
  - split; [|done]. right; left. done.
  - split; [|done]. right; right. split; [done|]. split; [done|].
    by destruct (decide (Filename ∈ WriteProtected St0.2)).
Qed.

Lemma Triple_SaveGeneratedManifest_Default G Events Manifest Message :
  Triple (Reached St0 G Events) (SaveGeneratedManifest_Default Manifest Message)
    (λ R St,
       ∃ Made Saved,
         Reached St0 G (Events ++ Made ++ Saved) St
         ∧ (Made = []
            ∨ ((GenManager_IntermediateDir ∉ Directories St0.2)
               ∧ Made =
                   [MakeDirectoryCall GenManager_IntermediateDir
                      (bool_decide
                         (GenManager_IntermediateDir
                            ∉ WriteProtected St0.2))]))
         ∧ ((Saved = [] ∧ R.1 = false)
            ∨ (Saved =
                 [SaveStringToFileCall GenManager_GeneratedManifestFilePath
                    (ManifestJson Manifest) true]
               ∧ R.1 = false
               ∧ GenManager_GeneratedManifestFilePath ∉ WriteProtected St0.2)
            ∨ (Saved =
                 [SaveStringToFileCall GenManager_GeneratedManifestFilePath
                    (ManifestJson Manifest) false]
               ∧ R = (true, Message)
               ∧ GenManager_GeneratedManifestFilePath ∈ WriteProtected St0.2))
         ∧ ((GetPath GenManager_GeneratedManifestFilePath ∈ Directories St0.2
             ∨ (GetPath GenManager_GeneratedManifestFilePath
                  = GenManager_IntermediateDir
                ∧ GenManager_IntermediateDir ≠ EmptyString
                ∧ GenManager_IntermediateDir ∉ WriteProtected St0.2)) →
            Saved ≠ [])).
Proof.
  unfold SaveGeneratedManifest_Default.
  eapply Triple_bind;
    [apply Triple_EnsureReplicatorGeneratedIntermediateDir|].
  cbv beta. intros _ St (Made & HR & HM & HD).
  destruct (Triple_SaveGeneratedManifest G (Events ++ Made) Manifest
              GenManager_GeneratedManifestFilePath Message
              (GetPath GenManager_GeneratedManifestFilePath ∈ Directories St0.2
               ∨ (GetPath GenManager_GeneratedManifestFilePath
                    = GenManager_IntermediateDir
                  ∧ GenManager_IntermediateDir ≠ EmptyString
                  ∧ GenManager_IntermediateDir ∉ WriteProtected St0.2)) St)
    as (Saved & HR' & HS & HK).
  { split; [done|]. intros [HX|(EP & HN & HW)].
    - by apply (reached_directories _ _ _ _ HR).
    - rewrite EP. by apply HD. }
  exists Made, Saved. rewrite app_assoc. done.
Qed.

Lemma Reached_ManagerKept G Events (St : State) :
  Reached St0 G Events St →
  ModuleDirOf St.1 = ModuleDirOf St0.1
  ∧ StorageDirOf St.1 = StorageDirOf St0.1
  ∧ CodeGenerator St.1 = G
  ∧ IgnoreActorClasses St.1 = IgnoreActorClasses St0.1
  ∧ IgnoreActorClassPaths St.1 = IgnoreActorClassPaths St0.1.
Proof. by intros []. Qed.

Lemma Triple_GetManager G Events :
  Triple (Reached St0 G Events) GetManager
    (λ Mgr St,
       (ModuleDirOf Mgr = ModuleDirOf St0.1
        ∧ StorageDirOf Mgr = StorageDirOf St0.1
        ∧ CodeGenerator Mgr = G
        ∧ IgnoreActorClasses Mgr = IgnoreActorClasses St0.1
        ∧ IgnoreActorClassPaths Mgr = IgnoreActorClassPaths St0.1)
       ∧ Reached St0 G Events St).
Proof.
  intros [Mgr W] HR. split; [|done].
  by apply (Reached_ManagerKept G Events (Mgr, W)).
Qed.

Lemma Triple_SetManager G G' Events Mgr :
  ModuleDirOf Mgr = ModuleDirOf St0.1 →
  StorageDirOf Mgr = StorageDirOf St0.1 →
  CodeGenerator Mgr = G' →
  IgnoreActorClasses Mgr = IgnoreActorClasses St0.1 →
  IgnoreActorClassPaths Mgr = IgnoreActorClassPaths St0.1 →
  Triple (Reached St0 G Events) (SetManager Mgr) (λ _, Reached St0 G' Events).
Proof.
  intros E1 E2 E3 E4 E5 [Mgr0 W] []. unfold SetManager.
  split; cbn [fst snd] in *; done.
Qed.

Variable CodeGenerator_Generate :
  list UClass → string → string → string → FGeneratedCodeBundle
  → FReplicatorCodeGenerator
  → (bool * FGeneratedCodeBundle) * FReplicatorCodeGenerator.

Lemma GeneratedReplicators_events TargetClasses GoPackageImportPathPrefix :
  let Generated :=
    CodeGenerator_Generate TargetClasses (ModuleDirOf St0.1)
      GetDefaultProtoPackageName
      (GoPackageImportPathPrefix +:+ GetDefaultProtoPackageName)
      EmptyCodeBundle (CodeGenerator St0.1) in
  let Run :=
    GeneratedReplicators CodeGenerator_Generate TargetClasses
      GoPackageImportPathPrefix St0 in
  ∃ Tail,
    Reached St0 Generated.2
      (ArtifactEvents (WriteProtected St0.2) (StorageDirOf St0.1)
         (GetBaseFilename (ModuleDirOf St0.1)) Generated.1.2
         (length TargetClasses)
       ++ Tail)
      Run.2
    ∧ ManifestEvents St0 Run.1 Tail.
Proof.
  cbv zeta.
  enough (Triple (Reached St0 (CodeGenerator St0.1) [])
            (GeneratedReplicators CodeGenerator_Generate TargetClasses
               GoPackageImportPathPrefix)
            (λ bResult St,
               ∃ Tail,
                 Reached St0
                   (CodeGenerator_Generate TargetClasses (ModuleDirOf St0.1)
                      GetDefaultProtoPackageName
                      (GoPackageImportPathPrefix +:+ GetDefaultProtoPackageName)
                      EmptyCodeBundle (CodeGenerator St0.1)).2
                   (ArtifactEvents (WriteProtected St0.2) (StorageDirOf St0.1)
                      (GetBaseFilename (ModuleDirOf St0.1))
                      (CodeGenerator_Generate TargetClasses (ModuleDirOf St0.1)
                         GetDefaultProtoPackageName
                         (GoPackageImportPathPrefix
                            +:+ GetDefaultProtoPackageName)
                         EmptyCodeBundle (CodeGenerator St0.1)).1.2
                      (length TargetClasses)
                    ++ Tail)
                   St
                 ∧ ManifestEvents St0 bResult Tail))
    as HT by exact (HT St0 Reached_start).
  unfold GeneratedReplicators.
  triple_step Triple_UE_LOG. intros _.
  triple_step Triple_GetDefaultModuleDir. intros ModuleDir.
  apply Triple_pure. intros ->.
  triple_step Triple_GetManager. intros Mgr.
  apply Triple_pure. intros (HM1 & HM2 & HM3 & HM4 & HM5).
  rewrite HM3.
  destruct (CodeGenerator_Generate TargetClasses (ModuleDirOf St0.1)
              GetDefaultProtoPackageName
              (GoPackageImportPathPrefix +:+ GetDefaultProtoPackageName)
              EmptyCodeBundle (CodeGenerator St0.1))
    as [[bGenerated Bundle] Generator].
  cbn [fst snd].
  eapply Triple_bind.
  { apply (Triple_SetManager _ Generator); try done. }
  cbv beta. intros _.
  triple_step Triple_GetReplicatorStorageDir. intros Dir1.
  apply Triple_pure. intros ->.
  triple_step Triple_WriteCodeFile. intros [b1 M1].
  apply Triple_pure. cbn [snd]. intros ->.
  triple_step Triple_GetReplicatorStorageDir. intros Dir2.
  apply Triple_pure. intros ->.
  triple_step Triple_WriteCodeFile. intros [b2 M2].
  apply Triple_pure. cbn [snd]. intros ->.
  triple_step Triple_WriteReplicatorCodes. intros M3.
  apply Triple_pure. intros ->.
  triple_step Triple_GetReplicatorStorageDir. intros Dir4.
  apply Triple_pure. intros ->.
  triple_step Triple_WriteCodeFile. intros [b4 M4].
  apply Triple_pure. cbn [snd]. intros ->.
  triple_step Triple_GetReplicatorStorageDir. intros Dir5.
  apply Triple_pure. intros ->.
  triple_step Triple_WriteCodeFile. intros [b5 M5].
  apply Triple_pure. cbn [snd]. intros ->.
  triple_step Triple_GetReplicatorStorageDir. intros Dir6.
  apply Triple_pure. intros ->.
  triple_step Triple_WriteProtoFile. intros [b6 M6].
  apply Triple_pure. cbn [snd]. intros ->.
  triple_step Triple_GetDefaultModuleName. intros ModuleName.
  apply Triple_pure. intros ->.
  triple_step Triple_GetReplicatorStorageDir. intros Dir7.
  apply Triple_pure. intros ->.
  triple_step Triple_WriteCodeFile. intros [b7 M7].
  apply Triple_pure. cbn [snd]. intros ->.
  triple_step Triple_GetReplicatorStorageDir. intros Dir8.
  apply Triple_pure. intros ->.
  triple_step Triple_WriteProtoFile. intros [b8 M8].
  apply Triple_pure. cbn [snd]. intros ->.
  triple_step Triple_UE_LOG. intros _.
  triple_step Triple_FDateTime_Now. intros Time.
  apply Triple_pure. intros ->.
  fold (StartLogText (length TargetClasses)).
  fold (CompletedLogText (length TargetClasses) (length (ReplicatorCodes Bundle))).
  fold (ManifestOf St0.2).
  match goal with
  | |- Triple (Reached _ _ ?Events) _ _ =>
      replace Events
        with (ArtifactEvents (WriteProtected St0.2) (StorageDirOf St0.1)
                (GetBaseFilename (ModuleDirOf St0.1)) Bundle
                (length TargetClasses))
        by (unfold ArtifactEvents; cbn [fmap list_fmap app];
            rewrite <- ?app_assoc; cbn [app]; reflexivity)
  end.
  triple_step Triple_SaveGeneratedManifest_Default.
  intros [bResult Message] St (Made & Saved & HR & HM & HS & HK).
  cbn [fst snd] in *.
  destruct HS as [[-> ->]|[(-> & -> & HW)|(-> & [= -> ->] & HW)]].
  - cbn [fst snd mret Exec_ret]. unfold mret, Exec_ret. cbn [fst snd].
    exists (Made ++ []). split; [done|].
    exists Made, []. split; [done|]. split; [done|]. split; [by left|done].
  - unfold mret, Exec_ret. cbn [fst snd].
    eexists (Made ++ [_]). split; [exact HR|].
    eexists Made, [_]. split; [done|]. split; [done|].
    split; [right; left; done|done].
  - pose proof (Triple_UE_LOG _ _ Error
                  ("Failed to save the generated manifest file, error message: "
                     +:+ EmptyString) St HR) as HR'.
    cbv beta in HR'. unfold mbind, Exec_bind.
    destruct (UE_LOG Error _ St) as [[] St'].
    unfold mret, Exec_ret. cbn [fst snd] in *.
    eexists (Made ++ [_; _]). split.
    + rewrite <- !app_assoc in HR'. cbn [app] in HR'. exact HR'.
    + eexists Made, [_; _]. split; [done|]. split; [done|].
      split; [right; right; done|done].
Qed.
End RunTriples.

(** ** What a generation run leaves behind *)

Lemma SaveCalls_app T1 T2 : SaveCalls (T1 ++ T2) = SaveCalls T1 ++ SaveCalls T2.
Proof. apply omap_app. Qed.

Lemma LogLines_app T1 T2 : LogLines (T1 ++ T2) = LogLines T1 ++ LogLines T2.
Proof. apply omap_app. Qed.

Lemma SaveCalls_WriteEvent Protected (Writes : list (string * string)) :
  SaveCalls (WriteEvent Protected <$> Writes) = WriteCall Protected <$> Writes.
Proof. induction Writes as [|W Ws IH]; [done|]. cbn. by f_equal. Qed.


Lemma DeleteCalls_WriteEvent Protected Writes :
  DeleteCalls (WriteEvent Protected <$> Writes) = [].
Proof. induction Writes as [|W Ws IH]; [done|]. by cbn. Qed.

Lemma FilesAfter_saves Events Fs :
  DeleteCalls Events = [] →
  FilesAfter Events Fs = FilesSaved (SaveCalls Events) Fs.
Proof.
  revert Fs. induction Events as [|e Events IH]; intros Fs HD; [done|].
  destruct e as [f c []|p b|f b|v t]; cbn in HD |- *; try done;
    by apply IH.
Qed.

Lemma FilesSaved_app C1 C2 Fs :
  FilesSaved (C1 ++ C2) Fs = FilesSaved C2 (FilesSaved C1 Fs).
Proof. apply foldl_app. Qed.

Lemma FilesSaved_cons f c (b : bool) Calls Fs :
  FilesSaved ((f, c, b) :: Calls) Fs
  = FilesSaved Calls (if b then <[f := c]> Fs else Fs).
Proof. done. Qed.

Lemma FilesSaved_other Calls Fs P :
  P ∉ (λ Call : string * string * bool, Call.1.1) <$> Calls →
  FilesSaved Calls Fs !! P = Fs !! P.
Proof.
  revert Fs. induction Calls as [|[[f c] b] Calls IH]; intros Fs HP; [done|].
  rewrite fmap_cons in HP. apply not_elem_of_cons in HP as [HN HP].
  rewrite FilesSaved_cons, IH by done.
  destruct b; [|done]. by rewrite lookup_insert_ne.
Qed.

Lemma FilesSaved_dom Calls Fs : dom Fs ⊆ dom (FilesSaved Calls Fs).
Proof.
  revert Fs. induction Calls as [|[[f c] b] Calls IH]; intros Fs; [done|].
  rewrite FilesSaved_cons.
  etrans; [|apply IH]. destruct b; [|done].
  rewrite dom_insert. apply union_subseteq_r.
Qed.

Lemma FilesSaved_written Calls Fs P Text :
  NoDup ((λ Call : string * string * bool, Call.1.1) <$> Calls) →
  (P, Text, true) ∈ Calls →
  FilesSaved Calls Fs !! P = Some Text.
Proof.
  revert Fs. induction Calls as [|[[f c] b] Calls IH]; intros Fs HN HP.
  { by apply elem_of_nil in HP. }
  rewrite fmap_cons in HN. apply NoDup_cons in HN as [HF HN].
  rewrite FilesSaved_cons. cbn [fst] in HF.
  apply elem_of_cons in HP as [[= <- <- <-]|HP].
  - rewrite FilesSaved_other by done. apply lookup_insert_eq.
  - by apply IH.
Qed.

Section RunResults.
Context `{ReplicatorGeneratorDefinition}.

Lemma SaveCalls_ReplicatorCodeEvents Protected Dir Codes :
  SaveCalls (Codes ≫= ReplicatorCodeEvents Protected Dir)
  = WriteCall Protected <$> (Codes ≫= ReplicatorCodeTexts Dir).
Proof.
  induction Codes as [|Code Codes IH]; [done|].
  rewrite !bind_cons, SaveCalls_app, fmap_app, IH. by f_equal.
Qed.


Lemma DeleteCalls_ReplicatorCodeEvents Protected Dir Codes :
  DeleteCalls (Codes ≫= ReplicatorCodeEvents Protected Dir) = [].
Proof.
  induction Codes as [|Code Codes IH]; [done|].
  rewrite bind_cons, DeleteCalls_app, IH. done.
Qed.

Lemma SaveCalls_ArtifactEvents Protected Dir ModuleName Bundle Requested :
  SaveCalls (ArtifactEvents Protected Dir ModuleName Bundle Requested)
  = WriteCall Protected <$> ArtifactTexts Dir ModuleName Bundle.
Proof.
  unfold ArtifactEvents, ArtifactTexts.
  rewrite !SaveCalls_app, !fmap_app, SaveCalls_ReplicatorCodeEvents.
  rewrite !SaveCalls_WriteEvent. cbn [SaveCalls omap list_omap SaveCall app].
  by rewrite app_nil_r.
Qed.


Lemma DeleteCalls_ArtifactEvents Protected Dir ModuleName Bundle Requested :
  DeleteCalls (ArtifactEvents Protected Dir ModuleName Bundle Requested) = [].
Proof.
  unfold ArtifactEvents.
  rewrite !DeleteCalls_app, DeleteCalls_ReplicatorCodeEvents,
    !DeleteCalls_WriteEvent.
  done.
Qed.

Lemma ArtifactTexts_files Dir ModuleName Bundle :
  fst <$> ArtifactTexts Dir ModuleName Bundle
  = ArtifactFiles Dir ModuleName Bundle.
Proof.
  unfold ArtifactTexts, ArtifactFiles. rewrite !fmap_app. f_equal. f_equal.
  induction (ReplicatorCodes Bundle) as [|Code Codes IH]; [done|].
  rewrite !bind_cons, fmap_app, IH. done.
Qed.

Lemma WriteCall_files Protected (Writes : list (string * string)) :
  (λ Call : string * string * bool, Call.1.1) <$> (WriteCall Protected <$> Writes)
  = fst <$> Writes.
Proof. induction Writes as [|W Ws IH]; [done|]. cbn. by f_equal. Qed.

(** What the manifest save of a run adds to the calls of the file writer
    and to the log. *)
Lemma ManifestEvents_calls St0 bResult Tail :
  ManifestEvents St0 bResult Tail →
  DeleteCalls Tail = []
  ∧ LogLines Tail = (if bResult then [] else [(Error, SaveFailedLogText)])
  ∧ (SaveCalls Tail = []
     ∨ SaveCalls Tail =
         [WriteCall (WriteProtected St0.2)
            (GenManager_GeneratedManifestFilePath,
             ManifestJson (ManifestOf St0.2))]).
Proof.
  intros (Made & Saved & -> & HM & HS & _).
  rewrite DeleteCalls_app, LogLines_app, SaveCalls_app.
  assert (DeleteCalls Made = [] ∧ LogLines Made = [] ∧ SaveCalls Made = [])
    as (-> & -> & ->).
  { by destruct HM as [->|[_ ->]]. }
  unfold WriteCall. cbn [fst snd app].
  destruct HS as [[-> ->]|[(-> & -> & HW)|(-> & -> & HW)]]; cbn.
  - split; [done|]. split; [done|]. by left.
  - split; [done|]. split; [done|]. right. by rewrite bool_decide_true.
  - split; [done|]. split; [done|]. right.
    by rewrite bool_decide_false by auto.
Qed.

Variable CodeGenerator_Generate :
  list UClass → string → string → string → FGeneratedCodeBundle
  → FReplicatorCodeGenerator
  → (bool * FGeneratedCodeBundle) * FReplicatorCodeGenerator.

(** X15: the calls of the file writer in a run of [GeneratedReplicators], for
    every state and every generator: after the calls that were in the trace
    before, one call per artifact of the bundle that [Generate] left, in the
    fixed order (the two type definition files, head, cpp and proto file of
    each replicator in the order of the bundle, registration, the two
    global struct files, the two channel data files), each with the text of
    that artifact and failing exactly when its path is write-protected; then
    at most one call, for the manifest file, with the JSON text of the
    current time and the default package name. *)
Theorem GeneratedReplicators_writes TargetClasses GoPackageImportPathPrefix
    (St : State) :
  let Run :=
    GeneratedReplicators CodeGenerator_Generate TargetClasses
      GoPackageImportPathPrefix St in
  let Bundle :=
    (CodeGenerator_Generate TargetClasses (ModuleDirOf St.1)
       GetDefaultProtoPackageName
       (GoPackageImportPathPrefix +:+ GetDefaultProtoPackageName)
       EmptyCodeBundle (CodeGenerator St.1)).1.2 in
  ∃ ManifestCalls,
    SaveCalls (Trace Run.2.2)
    = SaveCalls (Trace St.2)
        ++ (WriteCall (WriteProtected St.2)
              <$> ArtifactTexts (StorageDirOf St.1)
                    (GetBaseFilename (ModuleDirOf St.1)) Bundle)
        ++ ManifestCalls
    ∧ (ManifestCalls = []
       ∨ ManifestCalls =
           [WriteCall (WriteProtected St.2)
              (GenManager_GeneratedManifestFilePath,
               ManifestJson
                 {| GeneratedTime := Now St.2;
                    ProtoPackageName := GetDefaultProtoPackageName |})]).
Proof.
  cbv zeta.
  destruct (GeneratedReplicators_events St CodeGenerator_Generate TargetClasses
              GoPackageImportPathPrefix) as (Tail & HR & HM).
  apply ManifestEvents_calls in HM as (_ & _ & HS).
  exists (SaveCalls Tail).
  rewrite (reached_trace _ _ _ _ HR), !SaveCalls_app, SaveCalls_ArtifactEvents.
  done.
Qed.


(** X17: what [GeneratedReplicators] returns.  It returns [false] only when
    the manifest file is write-protected, and its last log line is then the
    error line: neither the result of [Generate] nor a failed write of an
    artifact makes the run return [false].  Conversely, when the directory
    of the manifest exists, or is the intermediate directory and can be
    made, and the manifest file is write-protected, it returns [false]. *)
Theorem GeneratedReplicators_result TargetClasses GoPackageImportPathPrefix
    (St : State) :
  let Run :=
    GeneratedReplicators CodeGenerator_Generate TargetClasses
      GoPackageImportPathPrefix St in
  (Run.1 = false →
   GenManager_GeneratedManifestFilePath ∈ WriteProtected St.2
   ∧ last (Trace Run.2.2) = Some (LogLine Error SaveFailedLogText))
  ∧ (GetPath GenManager_GeneratedManifestFilePath ∈ Directories St.2
     ∨ (GetPath GenManager_GeneratedManifestFilePath = GenManager_IntermediateDir
        ∧ GenManager_IntermediateDir ≠ EmptyString
        ∧ GenManager_IntermediateDir ∉ WriteProtected St.2) →
     GenManager_GeneratedManifestFilePath ∈ WriteProtected St.2 →
     Run.1 = false).
Proof.
  cbv zeta.
  destruct (GeneratedReplicators_events St CodeGenerator_Generate TargetClasses
              GoPackageImportPathPrefix)
    as (Tail & HR & Made & Saved & -> & HM & HS & HK).
  split.
  - intros EF. rewrite EF in HS.
    destruct HS as [[_ [=]]|[(_ & [=] & _)|(-> & _ & HW)]].
    split; [done|]. rewrite (reached_trace _ _ _ _ HR).
    rewrite !app_assoc.
    change [SaveStringToFileCall GenManager_GeneratedManifestFilePath
              (ManifestJson (ManifestOf St.2)) false;
            LogLine Error SaveFailedLogText]
      with ([SaveStringToFileCall GenManager_GeneratedManifestFilePath
               (ManifestJson (ManifestOf St.2)) false]
              ++ [LogLine Error SaveFailedLogText]).
    rewrite app_assoc. apply last_snoc.
  - intros HD HW.
    destruct HS as [[-> _]|[(_ & _ & HW')|(_ & -> & _)]]; [|done|done].
    exfalso. by apply HK.
Qed.

(** X18: what a run of [GeneratedReplicators] keeps.  The generator of the
    manager is left in the state in which the one call of [Generate] left
    it; [GetDefaultModuleDir] and [GetReplicatorStorageDir] return after the
    run what they returned before; the two ignore lists are unchanged, so
    [IsIgnoredActor] answers as before; no directory and no file is
    removed. *)
Theorem GeneratedReplicators_keeps TargetClasses GoPackageImportPathPrefix
    (St : State) :
  let Run :=
    GeneratedReplicators CodeGenerator_Generate TargetClasses
      GoPackageImportPathPrefix St in
  CodeGenerator Run.2.1
  = (CodeGenerator_Generate TargetClasses (ModuleDirOf St.1)
       GetDefaultProtoPackageName
       (GoPackageImportPathPrefix +:+ GetDefaultProtoPackageName)
       EmptyCodeBundle (CodeGenerator St.1)).2
  ∧ (GetDefaultModuleDir Run.2).1 = (GetDefaultModuleDir St).1
  ∧ (GetReplicatorStorageDir Run.2).1 = (GetReplicatorStorageDir St).1
  ∧ IgnoreActorClasses Run.2.1 = IgnoreActorClasses St.1
  ∧ IgnoreActorClassPaths Run.2.1 = IgnoreActorClassPaths St.1
  ∧ (∀ TargetClass,
       IsIgnoredActor Run.2.1 TargetClass = IsIgnoredActor St.1 TargetClass)
  ∧ Directories St.2 ⊆ Directories Run.2.2
  ∧ dom (Files St.2) ⊆ dom (Files Run.2.2).
Proof.
  cbv zeta.
  destruct (GeneratedReplicators_events St CodeGenerator_Generate TargetClasses
              GoPackageImportPathPrefix) as (Tail & HR & HM).
  apply ManifestEvents_calls in HM as (HD & _ & _).
  rewrite !GetDefaultModuleDir_eq, !GetReplicatorStorageDir_eq. cbn [fst].
  destruct HR as [E1 E2 E3 E4 E5 E6 E7 E8 E9 E10].
  do 5 (split; [done|]).
  split; [intros TargetClass; unfold IsIgnoredActor; by rewrite E4, E5|].
  split; [done|].
  rewrite E9, FilesAfter_saves.
  - apply FilesSaved_dom.
  - by rewrite DeleteCalls_app, DeleteCalls_ArtifactEvents, HD.
Qed.

(** X19: a run of [GeneratedReplicators] leaves every file alone that is
    neither an artifact file of the bundle nor the manifest file. *)
Theorem GeneratedReplicators_other_files TargetClasses
    GoPackageImportPathPrefix (St : State) P :
  let Run :=
    GeneratedReplicators CodeGenerator_Generate TargetClasses
      GoPackageImportPathPrefix St in
  let Bundle :=
    (CodeGenerator_Generate TargetClasses (ModuleDirOf St.1)
       GetDefaultProtoPackageName
       (GoPackageImportPathPrefix +:+ GetDefaultProtoPackageName)
       EmptyCodeBundle (CodeGenerator St.1)).1.2 in
  P ∉ ArtifactFiles (StorageDirOf St.1) (GetBaseFilename (ModuleDirOf St.1))
        Bundle →
  P ≠ GenManager_GeneratedManifestFilePath →
  Files Run.2.2 !! P = Files St.2 !! P.
Proof.
  cbv zeta. intros HA HP.
  destruct (GeneratedReplicators_events St CodeGenerator_Generate TargetClasses
              GoPackageImportPathPrefix) as (Tail & HR & HM).
  apply ManifestEvents_calls in HM as (HD & _ & HS).
  rewrite (reached_files _ _ _ _ HR), FilesAfter_saves.
  2:{ by rewrite DeleteCalls_app, DeleteCalls_ArtifactEvents, HD. }
  rewrite SaveCalls_app, SaveCalls_ArtifactEvents, FilesSaved_app.
  rewrite FilesSaved_other.
  - apply FilesSaved_other. by rewrite WriteCall_files, ArtifactTexts_files.
  - destruct HS as [-> | ->]; cbn.
    + apply not_elem_of_nil.
    + by intros ?%list_elem_of_singleton.
Qed.

(** X20: when the artifact files of the bundle are pairwise distinct and
    none of them is the manifest file, every artifact file that is not
    write-protected holds the text of its artifact after the run. *)
Theorem GeneratedReplicators_artifact_files TargetClasses
    GoPackageImportPathPrefix (St : State) P Text :
  let Run :=
    GeneratedReplicators CodeGenerator_Generate TargetClasses
      GoPackageImportPathPrefix St in
  let Bundle :=
    (CodeGenerator_Generate TargetClasses (ModuleDirOf St.1)
       GetDefaultProtoPackageName
       (GoPackageImportPathPrefix +:+ GetDefaultProtoPackageName)
       EmptyCodeBundle (CodeGenerator St.1)).1.2 in
  let Dir := StorageDirOf St.1 in
  let ModuleName := GetBaseFilename (ModuleDirOf St.1) in
  NoDup (ArtifactFiles Dir ModuleName Bundle) →
  GenManager_GeneratedManifestFilePath ∉ ArtifactFiles Dir ModuleName Bundle →
  (P, Text) ∈ ArtifactTexts Dir ModuleName Bundle →
  P ∉ WriteProtected St.2 →
  Files Run.2.2 !! P = Some Text.
Proof.
  cbv zeta. rewrite <- ArtifactTexts_files. intros HN HM' HP HW.
  destruct (GeneratedReplicators_events St CodeGenerator_Generate TargetClasses
              GoPackageImportPathPrefix) as (Tail & HR & HM).
  apply ManifestEvents_calls in HM as (HD & _ & HS).
  rewrite (reached_files _ _ _ _ HR), FilesAfter_saves.
  2:{ by rewrite DeleteCalls_app, DeleteCalls_ArtifactEvents, HD. }
  rewrite SaveCalls_app, SaveCalls_ArtifactEvents, FilesSaved_app.
  rewrite FilesSaved_other.
  - apply FilesSaved_written; [by rewrite WriteCall_files|].
    apply list_elem_of_fmap. exists (P, Text). split; [|done].
    unfold WriteCall. cbn [fst snd]. by rewrite bool_decide_true.
  - destruct HS as [-> | ->]; cbn.
    + apply not_elem_of_nil.
    + intros ->%list_elem_of_singleton. apply HM'.
      apply list_elem_of_fmap. by exists (GenManager_GeneratedManifestFilePath, Text).
Qed.

(** X21: when the manifest file is not write-protected and its directory
    exists, or is the intermediate directory and can be made, a run of
    [GeneratedReplicators] returns [true], and the two-argument
    [LoadLatestGeneratedManifest] then succeeds with the default package
    name and the Unix timestamp of the time of the run. *)
Theorem GeneratedReplicators_manifest_loads TargetClasses
    GoPackageImportPathPrefix Result Message (St : State) :
  ValidDateTime (Now St.2) →
  GenManager_GeneratedManifestFilePath ∉ WriteProtected St.2 →
  GetPath GenManager_GeneratedManifestFilePath ∈ Directories St.2
  ∨ (GetPath GenManager_GeneratedManifestFilePath = GenManager_IntermediateDir
     ∧ GenManager_IntermediateDir ≠ EmptyString
     ∧ GenManager_IntermediateDir ∉ WriteProtected St.2) →
  let Run :=
    GeneratedReplicators CodeGenerator_Generate TargetClasses
      GoPackageImportPathPrefix St in
  Run.1 = true
  ∧ ∃ Loaded,
      (LoadLatestGeneratedManifest_Default Result Message Run.2).1
        = (true, Loaded, Message)
      ∧ ProtoPackageName Loaded = GetDefaultProtoPackageName
      ∧ ToUnixTimestamp (GeneratedTime Loaded) = ToUnixTimestamp (Now St.2).
Proof.
  intros HT HW HD Run. subst Run.
  destruct (GeneratedReplicators_events St CodeGenerator_Generate TargetClasses
              GoPackageImportPathPrefix)
    as (Tail & HR & Made & Saved & -> & HM & HS & HK).
  specialize (HK HD).
  destruct HS as [[-> _]|[(-> & -> & _)|(_ & _ & HW')]]; [done| |done].
  split; [done|].
  assert (Files (GeneratedReplicators CodeGenerator_Generate TargetClasses
                   GoPackageImportPathPrefix St).2.2
            !! GenManager_GeneratedManifestFilePath
          = Some (ManifestJson (ManifestOf St.2))) as HF.
  { rewrite (reached_files _ _ _ _ HR), !app_assoc, FilesAfter_app.
    apply lookup_insert_eq. }
  unfold LoadLatestGeneratedManifest_Default.
  destruct (LoadLatestGeneratedManifest_parsed _ _ _ Result Message _
              HF (Deserialize_ManifestJson (ManifestOf St.2))) as [HL _].
  rewrite ManifestMembers_time, ManifestMembers_name in HL. cbn [default] in HL.
  eexists. split; [exact HL|]. cbn [ProtoPackageName GeneratedTime ManifestOf].
  split; [done|]. by apply (FromUnixTimestamp_ToUnixTimestamp (Now St.2)).
Qed.
End RunResults.

Lemma GeneratedReplicators_other_files_witness :
  Files (GeneratedReplicators (H := SampleDefinition) EmptyGenerate [Foo]
           "example.com/" (SampleManager, SampleHeaderWorld)).2.2
    !! "Project/Source/Game/ChanneldGenerated/ChanneldFooReplicator.h"%string
  = Files SampleHeaderWorld
      !! "Project/Source/Game/ChanneldGenerated/ChanneldFooReplicator.h"%string.
Proof.
  apply (GeneratedReplicators_other_files (H := SampleDefinition) EmptyGenerate
           [Foo] "example.com/" (SampleManager, SampleHeaderWorld)).
  - vm_compute. intros HP.
    repeat (apply elem_of_cons in HP as [HP|HP]; [discriminate|]).
    by apply elem_of_nil in HP.
  - discriminate.
Defined.

Lemma GeneratedReplicators_artifact_files_witness :
  Files (GeneratedReplicators (H := SampleDefinition) EmptyGenerate [Foo]
           "example.com/" (SampleManager, SampleWorld [] [])).2.2
    !! "Project/Source/Game/ChanneldGenerated/ChanneldGeneratedTypes.h"%string
  = Some EmptyString.
Proof.
  apply (GeneratedReplicators_artifact_files (H := SampleDefinition)
           EmptyGenerate [Foo] "example.com/"
           (SampleManager, SampleWorld [] [])).
  - apply (bool_decide_unpack _). vm_compute. exact I.
  - vm_compute. intros HP.
    repeat (apply elem_of_cons in HP as [HP|HP]; [discriminate|]).
    by apply elem_of_nil in HP.
  - vm_compute. by left.
  - vm_compute. set_solver.
Defined.

Lemma GeneratedReplicators_manifest_loads_witness :
  (GeneratedReplicators (H := SampleDefinition) EmptyGenerate [Foo]
     "example.com/" (SampleManager, SampleWorld [] [])).1 = true
  ∧ ∃ Loaded,
      (LoadLatestGeneratedManifest_Default (H := SampleDefinition)
         DefaultManifest EmptyString
         (GeneratedReplicators (H := SampleDefinition) EmptyGenerate [Foo]
            "example.com/" (SampleManager, SampleWorld [] [])).2).1
        = (true, Loaded, EmptyString)
      ∧ ProtoPackageName Loaded
        = GetDefaultProtoPackageName (H := SampleDefinition)
      ∧ ToUnixTimestamp (GeneratedTime Loaded) = ToUnixTimestamp SampleNow.
Proof.
  apply (GeneratedReplicators_manifest_loads (H := SampleDefinition)
           EmptyGenerate [Foo] "example.com/" DefaultManifest EmptyString
           (SampleManager, SampleWorld [] [])).
  - unfold ValidDateTime. vm_compute. split; discriminate.
  - vm_compute. set_solver.
  - right. split; [reflexivity|]. split; [discriminate|].
    vm_compute. set_solver.
Defined.
